(** * The virtual smart-card reader layer (libcacard/vreader.c)

    A shallow embedding of the reader object, its reference counting, the
    doubly linked reader registry and the card session operations.  The C
    heap is modelled by three finite maps (readers, list entries, lists) keyed
    by addresses; every function of the source is a computation in a small
    state-and-fault monad that also records, in program order, the mutex
    operations, the accesses to [reader->card] and the calls made to the
    collaborators (card layer, event queue, private-data destructor). *)

From Stdlib Require Import ZArith List Lia.
From Stdlib.Strings Require Import Byte.
From stdpp Require Import base gmap strings list.

Local Open Scope Z_scope.

(** ** Machine integers and pointers *)

(** Addresses are integers; [NULL] is address 0. *)
Abbreviation ptr := Z (only parsing).
Definition NULL : ptr := 0.

Definition INT_MAX : Z := 2 ^ 31 - 1.
Definition INT_MIN : Z := - 2 ^ 31.

(** A C [int] result, wrapped around to 32 bits two's complement. *)
Definition int_wrap (z : Z) : Z := (z + 2 ^ 31) mod 2 ^ 32 - 2 ^ 31.

(** [MIN] of qemu-common.h: [(((a) < (b)) ? (a) : (b))]. *)
Definition MIN (a b : Z) : Z := if a <? b then a else b.

(** ** Enumerations of the headers (only the members vreader.c uses) *)

Inductive VReaderStatus := VREADER_OK | VREADER_NO_CARD | VREADER_OUT_OF_MEMORY.
Inductive VCardPower := VCARD_POWER_ON | VCARD_POWER_OFF.
Inductive VCardStatus := VCARD_DONE | VCARD_NEXT | VCARD_FAIL.
Inductive VEventType :=
  VEVENT_READER_INSERT | VEVENT_READER_REMOVE | VEVENT_CARD_INSERT | VEVENT_CARD_REMOVE.

(** ** Structures *)

(** [struct VReaderStruct]; the embedded mutex is tracked in the trace. *)
Record VReader := mkVReader {
  reference_count : Z;
  card : ptr;
  name : option string;
  id : Z;
  reader_private : ptr;
  reader_private_free : ptr
}.

(** [struct VReaderListStruct] *)
Record VReaderList := mkVReaderList {
  head : ptr;
  tail : ptr
}.

(** [struct VReaderListEntryStruct] *)
Record VReaderListEntry := mkVReaderListEntry {
  next : ptr;
  prev : ptr;
  reader : ptr
}.

(** The two fields of [VCardResponse] that vreader.c reads. *)
Record VCardResponse := mkVCardResponse {
  b_data : list byte;
  b_total_len : Z
}.

(** What [vevent_new (type, reader, card)] packs. *)
Record VEvent := mkVEvent {
  ev_type : VEventType;
  ev_reader : ptr;
  ev_card : ptr
}.

(** ** Observable actions, in program order *)

Inductive Mutex := ReaderLock (r : ptr) | ListMutex.

Inductive Action :=
| AMutexLock (m : Mutex)
| AMutexUnlock (m : Mutex)
| ACardLoad (r c : ptr)            (* a read of [r->card], which gave [c] *)
| ACardStore (r c : ptr)           (* a write [r->card = c] *)
| AVCardReference (c : ptr)        (* vcard_reference (c) *)
| AVCardFree (c : ptr)             (* vcard_free (c) *)
| AVCardReset (c : ptr) (p : VCardPower)
| AVCardGetAtr (c : ptr)
| AApduNew (apdu : ptr)            (* vcard_apdu_new returned [apdu] *)
| AProcessApdu (c apdu : ptr)
| AMakeResponse (status : Z)
| AResponseDelete (r : option VCardResponse)
| AApduDelete (apdu : ptr)
| ANameFree (r : ptr)              (* qemu_free (r->name) *)
| APrivateFree (f p : ptr)         (* r->reader_private_free (r->reader_private) *)
| AEvent (e : VEvent)              (* vevent_queue_vevent (e) *)
| AEntryStore (e : ptr) (v : VReaderListEntry)
                                   (* a write to a field of entry [e], now [v] *)
| AListStore (l : ptr) (v : VReaderList).
                                   (* a write to a field of list [l], now [v] *)

Global Instance Mutex_eq_dec : EqDecision Mutex.
Proof. solve_decision. Defined.

(** ** Program state *)

Record State := mkState {
  readers : gmap Z VReader;
  entries : gmap Z VReaderListEntry;
  lists : gmap Z VReaderList;
  vreader_list : ptr;               (* the static [vreader_list] *)
  brk : ptr;                        (* next address [qemu_malloc] hands out *)
  trace : list Action
}.

Definition set_readers (f : gmap Z VReader -> gmap Z VReader) (s : State) : State :=
  mkState (f (readers s)) (entries s) (lists s) (vreader_list s) (brk s) (trace s).
Definition set_entries (f : gmap Z VReaderListEntry -> gmap Z VReaderListEntry)
    (s : State) : State :=
  mkState (readers s) (f (entries s)) (lists s) (vreader_list s) (brk s) (trace s).
Definition set_lists (f : gmap Z VReaderList -> gmap Z VReaderList) (s : State) : State :=
  mkState (readers s) (entries s) (f (lists s)) (vreader_list s) (brk s) (trace s).
Definition set_vreader_list (p : ptr) (s : State) : State :=
  mkState (readers s) (entries s) (lists s) p (brk s) (trace s).
Definition set_brk (p : ptr) (s : State) : State :=
  mkState (readers s) (entries s) (lists s) (vreader_list s) p (trace s).
Definition add_trace (t : list Action) (s : State) : State :=
  mkState (readers s) (entries s) (lists s) (vreader_list s) (brk s) (trace s ++ t).

(** ** The state-and-fault monad *)

Inductive fault :=
| NullDeref                 (* a field of NULL was accessed *)
| InvalidPointer (p : ptr)  (* a field of an unallocated (freed) object was accessed *)
| AssertFailed
| BufferOverrun
| OutOfFuel.                (* the bound given to a loop was too small *)

Inductive result (A : Type) :=
| Ok (a : A)
| Err (f : fault).
Arguments Ok {A} a.
Arguments Err {A} f.

Definition M (A : Type) : Type := State -> result (A * State).

Global Instance M_ret : MRet M := fun A a s => Ok (a, s).
Global Instance M_bind : MBind M := fun A B k m s =>
  match m s with
  | Ok (a, s') => k a s'
  | Err f => Err f
  end.

Definition fail {A} (f : fault) : M A := fun _ => Err f.
Definition modify (f : State -> State) : M unit := fun s => Ok (tt, f s).
Definition log (a : Action) : M unit := modify (add_trace [a]).

(** ** Heap primitives *)

Definition load_reader (p : ptr) : M VReader := fun s =>
  if p =? NULL then Err NullDeref
  else match readers s !! p with
       | Some r => Ok (r, s)
       | None => Err (InvalidPointer p)
       end.

Definition store_reader (p : ptr) (r : VReader) : M unit :=
  _ ← load_reader p; modify (set_readers (insert p r)).

Definition load_entry (p : ptr) : M VReaderListEntry := fun s =>
  if p =? NULL then Err NullDeref
  else match entries s !! p with
       | Some e => Ok (e, s)
       | None => Err (InvalidPointer p)
       end.

(** A write to a field of a live entry or list is recorded, with the contents
    the object has after it: these are the writes that change what a walk of
    a list sees. *)
Definition store_entry (p : ptr) (e : VReaderListEntry) : M unit :=
  _ ← load_entry p; modify (set_entries (insert p e));; log (AEntryStore p e).

Definition load_list (p : ptr) : M VReaderList := fun s =>
  if p =? NULL then Err NullDeref
  else match lists s !! p with
       | Some l => Ok (l, s)
       | None => Err (InvalidPointer p)
       end.

Definition store_list (p : ptr) (l : VReaderList) : M unit :=
  _ ← load_list p; modify (set_lists (insert p l));; log (AListStore p l).

(** [qemu_malloc] never returns NULL (it aborts instead) and hands out a
    fresh address; the caller initialises the object. *)
Definition qemu_malloc : M ptr := fun s => Ok (brk s, set_brk (brk s + 1) s).

(** An allocation followed by the initialisation of every field. *)
Definition alloc_reader (r : VReader) : M ptr :=
  p ← qemu_malloc; modify (set_readers (insert p r));; mret p.
Definition alloc_list (l : VReaderList) : M ptr :=
  p ← qemu_malloc; modify (set_lists (insert p l));; mret p.

(** [qemu_free] of an object: the address is no longer valid afterwards. *)
Definition free_reader (p : ptr) : M unit :=
  _ ← load_reader p; modify (set_readers (delete p)).
Definition free_entry (p : ptr) : M unit :=
  _ ← load_entry p; modify (set_entries (delete p)).
Definition free_list (p : ptr) : M unit :=
  _ ← load_list p; modify (set_lists (delete p)).

(** Field accessors: one load or one read-modify-write of a single field. *)
Definition get_next (e : ptr) : M ptr := x ← load_entry e; mret (next x).
Definition get_prev (e : ptr) : M ptr := x ← load_entry e; mret (prev x).
Definition get_reader (e : ptr) : M ptr := x ← load_entry e; mret (reader x).
Definition put_next (e v : ptr) : M unit :=
  x ← load_entry e; store_entry e (mkVReaderListEntry v (prev x) (reader x)).
Definition put_prev (e v : ptr) : M unit :=
  x ← load_entry e; store_entry e (mkVReaderListEntry (next x) v (reader x)).
Definition get_head (l : ptr) : M ptr := x ← load_list l; mret (head x).
Definition get_tail (l : ptr) : M ptr := x ← load_list l; mret (tail x).
Definition put_head (l v : ptr) : M unit :=
  x ← load_list l; store_list l (mkVReaderList v (tail x)).
Definition put_tail (l v : ptr) : M unit :=
  x ← load_list l; store_list l (mkVReaderList (head x) v).

Definition set_reference_count (n : Z) (r : VReader) : VReader :=
  mkVReader n (card r) (name r) (id r) (reader_private r) (reader_private_free r).
Definition set_card (c : ptr) (r : VReader) : VReader :=
  mkVReader (reference_count r) c (name r) (id r) (reader_private r)
    (reader_private_free r).
Definition set_id (i : Z) (r : VReader) : VReader :=
  mkVReader (reference_count r) (card r) (name r) i (reader_private r)
    (reader_private_free r).

(** A read of [reader->card] and a write to it, both recorded. *)
Definition get_card (r : ptr) : M ptr :=
  x ← load_reader r; log (ACardLoad r (card x));; mret (card x).
Definition put_card (r c : ptr) : M unit :=
  x ← load_reader r; store_reader r (set_card c x);; log (ACardStore r c).

(** ** Collaborators *)

(** The card layer's protocol functions (card_7816.c, vcard.c), whose code is
    not part of this file: they are parameters of the development.
    [vcard_apdu_new] returns the command handle (NULL on a parse failure) and
    the status it stores through its last argument; [vcard_process_apdu]
    returns its status and the response it stores through its last argument;
    [vcard_get_atr] returns the new contents of the buffer and of [*len]. *)
Class CardLayer := {
  card_apdu_new : list byte -> Z -> ptr * Z;
  card_process_apdu : ptr -> ptr -> VCardStatus * option VCardResponse;
  card_make_response : Z -> VCardResponse;
  card_get_atr : ptr -> list byte -> option Z -> list byte * option Z
}.

(** Modelled from the spec: vcard_reference and vcard_free (vcard.c) are the
    card's counted-reference discipline; acquiring returns the same card, and
    an absent card is a legal argument that yields absent.  The calls are
    recorded; the count itself belongs to the card layer. *)
Definition vcard_reference (c : ptr) : M ptr := log (AVCardReference c);; mret c.
Definition vcard_free (c : ptr) : M unit := log (AVCardFree c).

(** Modelled from the spec: vevent_new and vevent_queue_vevent (vevent.c)
    hand the event to the sink, fire-and-forget. *)
Definition vevent_new (t : VEventType) (r c : ptr) : VEvent := mkVEvent t r c.
Definition vevent_queue_vevent (e : VEvent) : M unit := log (AEvent e).

Definition assert (b : bool) : M unit := if b then mret tt else fail AssertFailed.

(** [memcpy (dst, src, n)] with [n] an [int] converted to [size_t]: a
    negative [n] or one beyond either buffer overruns it. *)
Definition memcpy (dst src : list byte) (n : Z) : M (list byte) :=
  if (0 <=? n) && (n <=? Z.of_nat (length dst)) && (n <=? Z.of_nat (length src))
  then mret (take (Z.to_nat n) src ++ drop (Z.to_nat n) dst)
  else fail BufferOverrun.

Definition VCardStatus_eqb (a b : VCardStatus) : bool :=
  match a, b with
  | VCARD_DONE, VCARD_DONE | VCARD_NEXT, VCARD_NEXT | VCARD_FAIL, VCARD_FAIL => true
  | _, _ => false
  end.

Section VReader.

Context `{CardLayer}.

(** The width of [vreader_id_t] (declared in vreader.h, not part of this
    file); [(vreader_id_t)-1] is [vreader_id_cast (-1)]. *)
Variable id_bits : Z.

Definition vreader_id_cast (z : Z) : Z := z mod 2 ^ id_bits.

(** Modelled from the spec: the calls into the card layer (vcard.c,
    card_7816.c).  Each call is recorded; what it returns comes from the
    [CardLayer] at hand.  [vcard_reset] acts on the card alone, and
    [vcard_response_delete] and [vcard_apdu_delete] hand a protocol object
    back (either accepts NULL). *)
Definition vcard_reset (c : ptr) (p : VCardPower) : M unit := log (AVCardReset c p).
Definition vcard_get_atr (c : ptr) (atr : list byte) (len : option Z)
    : M (list byte * option Z) :=
  log (AVCardGetAtr c);; mret (card_get_atr c atr len).
Definition vcard_apdu_new (buf : list byte) (len : Z) : M (ptr * Z) :=
  log (AApduNew (card_apdu_new buf len).1);; mret (card_apdu_new buf len).
Definition vcard_process_apdu (c apdu : ptr) : M (VCardStatus * option VCardResponse) :=
  log (AProcessApdu c apdu);; mret (card_process_apdu c apdu).
Definition vcard_make_response (status : Z) : M VCardResponse :=
  log (AMakeResponse status);; mret (card_make_response status).
Definition vcard_response_delete (r : option VCardResponse) : M unit :=
  log (AResponseDelete r).
Definition vcard_apdu_delete (apdu : ptr) : M unit := log (AApduDelete apdu).

(** ** The reader object *)

(* manage locking *)
Definition vreader_lock (reader : ptr) : M unit := log (AMutexLock (ReaderLock reader)).
Definition vreader_unlock (reader : ptr) : M unit :=
  log (AMutexUnlock (ReaderLock reader)).

(* vreader constructor *)
Definition vreader_new (name : option string) (private private_free : ptr) : M ptr :=
  alloc_reader {| reference_count := 1;
                name := name;
                card := NULL;
                id := vreader_id_cast (-1);
                reader_private := private;
                reader_private_free := private_free |}.

(* get a reference *)
Definition vreader_reference (reader : ptr) : M ptr :=
  if reader =? NULL then mret NULL
  else
    vreader_lock reader;;
    r ← load_reader reader;
    store_reader reader (set_reference_count (int_wrap (reference_count r + 1)) r);;
    vreader_unlock reader;;
    mret reader.

(* free a reference *)
Definition vreader_free (reader : ptr) : M unit :=
  if reader =? NULL then mret tt
  else
    vreader_lock reader;;
    r ← load_reader reader;
    store_reader reader (set_reference_count (int_wrap (reference_count r - 1)) r);;
    if reference_count r >? 1 then vreader_unlock reader
    else
      vreader_unlock reader;;
      c ← get_card reader;
      (if negb (c =? NULL) then c' ← get_card reader; vcard_free c' else mret tt);;
      r ← load_reader reader;
      (if name r is Some _ then log (ANameFree reader) else mret tt);;
      (if negb (reader_private_free r =? NULL)
       then log (APrivateFree (reader_private_free r) (reader_private r))
       else mret tt);;
      free_reader reader.

Definition vreader_get_card (reader : ptr) : M ptr :=
  vreader_lock reader;;
  c ← get_card reader;
  card ← vcard_reference c;
  vreader_unlock reader;;
  mret card.

Definition vreader_card_is_present (reader : ptr) : M VReaderStatus :=
  card ← vreader_get_card reader;
  if card =? NULL then mret VREADER_NO_CARD
  else vcard_free card;; mret VREADER_OK.

Definition vreader_get_id (reader : ptr) : M Z :=
  if reader =? NULL then mret (vreader_id_cast (-1))
  else r ← load_reader reader; mret (id r).

Definition vreader_set_id (reader : ptr) (i : Z) : M VReaderStatus :=
  if reader =? NULL then mret VREADER_NO_CARD
  else r ← load_reader reader; store_reader reader (set_id i r);; mret VREADER_OK.

Definition vreader_get_name (reader : ptr) : M (option string) :=
  if reader =? NULL then mret None
  else r ← load_reader reader; mret (name r).

Definition vreader_get_private (reader : ptr) : M ptr :=
  r ← load_reader reader; mret (reader_private r).

(** ** Card session operations *)

(** [atr] and [len] are the caller's buffer and length variable ([None] for
    a NULL pointer); their contents on return are part of the result. *)
Definition vreader_reset (reader : ptr) (power : VCardPower)
    (atr : option (list byte)) (len : option Z)
    : M (VReaderStatus * option (list byte) * option Z) :=
  card ← vreader_get_card reader;
  if card =? NULL then mret (VREADER_NO_CARD, atr, len)
  else
    (* clean up our state *)
    vcard_reset card power;;
    out ← (if atr is Some buf
           then r ← vcard_get_atr card buf len; mret (Some r.1, r.2)
           else mret (atr, len));
    vcard_free card;; (* free our reference *)
    mret (VREADER_OK, out.1, out.2).

Definition vreader_power_on (reader : ptr) (atr : option (list byte)) (len : option Z)
    : M (VReaderStatus * option (list byte) * option Z) :=
  vreader_reset reader VCARD_POWER_ON atr len.

Definition vreader_power_off (reader : ptr) : M VReaderStatus :=
  r ← vreader_reset reader VCARD_POWER_OFF None None; mret r.1.1.

(** [receive_buf] is the caller's buffer and [receive_buf_len] the value of
    [*receive_buf_len] on entry; the result carries both on return. *)
Definition vreader_xfr_bytes (reader : ptr) (send_buf : list byte) (send_buf_len : Z)
    (receive_buf : list byte) (receive_buf_len : Z)
    : M (VReaderStatus * list byte * Z) :=
  card ← vreader_get_card reader;
  if card =? NULL then mret (VREADER_NO_CARD, receive_buf, receive_buf_len)
  else
    a ← vcard_apdu_new send_buf send_buf_len;
    let apdu := a.1 in
    let status := a.2 in
    p ← (if apdu =? NULL
         then response ← vcard_make_response status; mret (VCARD_DONE, Some response)
         else vcard_process_apdu card apdu);
    let card_status := p.1 in
    let response := p.2 in
    assert (VCardStatus_eqb card_status VCARD_DONE);;
    out ← (if VCardStatus_eqb card_status VCARD_DONE
           then
             match response with
             | None => fail NullDeref
             | Some r =>
                 let size := MIN receive_buf_len (b_total_len r) in
                 buf ← memcpy receive_buf (b_data r) size;
                 mret (buf, size)
             end
           else mret (receive_buf, receive_buf_len));
    vcard_response_delete response;;
    vcard_apdu_delete apdu;;
    vcard_free card;; (* free our reference *)
    mret (VREADER_OK, out.1, out.2).

(** ** Reader lists *)

Definition vreader_list_entry_new (reader : ptr) : M ptr :=
  new_reader_list_entry ← qemu_malloc;
  r ← vreader_reference reader;
  modify (set_entries (insert new_reader_list_entry
            {| next := NULL; prev := NULL; reader := r |}));;
  mret new_reader_list_entry.

Definition vreader_list_entry_delete (entry : ptr) : M unit :=
  if entry =? NULL then mret tt
  else
    r ← get_reader entry;
    vreader_free r;;
    free_entry entry.

Definition vreader_list_new : M ptr :=
  alloc_list {| head := NULL; tail := NULL |}.

Definition vreader_list_get_first (list : ptr) : M ptr :=
  if list =? NULL then mret NULL else get_head list.

Definition vreader_list_get_next (current : ptr) : M ptr :=
  if current =? NULL then mret NULL else get_next current.

Definition vreader_list_get_reader (entry : ptr) : M ptr :=
  if entry =? NULL then mret NULL
  else r ← get_reader entry; vreader_reference r.

(** The [for] loops walk a heap-linked chain, which may be cyclic or
    dangling: they are bounded by [fuel], and running out is [OutOfFuel]. *)
Fixpoint vreader_list_delete_loop (fuel : nat) (current_entry : ptr) : M unit :=
  if current_entry =? NULL then mret tt
  else match fuel with
       | O => fail OutOfFuel
       | S fuel' =>
           next_entry ← vreader_list_get_next current_entry;
           vreader_list_entry_delete current_entry;;
           vreader_list_delete_loop fuel' next_entry
       end.

Definition vreader_list_delete (fuel : nat) (list : ptr) : M unit :=
  first ← vreader_list_get_first list;
  vreader_list_delete_loop fuel first;;
  put_head list NULL;;
  put_tail list NULL;;
  free_list list.

Definition vreader_queue (list entry : ptr) : M unit :=
  if entry =? NULL then mret tt
  else
    put_next entry NULL;;
    t ← get_tail list;
    put_prev entry t;;
    h ← get_head list;
    (if negb (h =? NULL)
     then t ← get_tail list; put_next t entry
     else put_head list entry);;
    put_tail list entry.

Definition vreader_dequeue (list entry : ptr) : M unit :=
  if entry =? NULL then mret tt
  else
    n ← get_next entry;
    (if n =? NULL
     then p ← get_prev entry; put_tail list p
     else
       p ← get_prev entry;
       if p =? NULL
       then n ← get_next entry; put_head list n
       else
         p ← get_prev entry;
         n ← get_next entry;
         put_next p n;;
         n ← get_next entry;
         p ← get_prev entry;
         put_prev n p);;
    t ← get_tail list;
    c ← (if t =? NULL then mret true else h ← get_head list; mret (h =? NULL));
    (if c : bool then put_tail list NULL;; put_head list NULL else mret tt);;
    put_prev entry NULL;;
    put_next entry NULL.

(** ** The registry *)

Definition get_vreader_list : M ptr := fun s => Ok (vreader_list s, s).

Definition vreader_list_init : M unit :=
  l ← vreader_list_new;
  modify (set_vreader_list l).

Definition vreader_list_lock : M unit := log (AMutexLock ListMutex).
Definition vreader_list_unlock : M unit := log (AMutexUnlock ListMutex).

Fixpoint vreader_copy_list_loop (fuel : nat) (new_list current_entry : ptr) : M unit :=
  if current_entry =? NULL then mret tt
  else match fuel with
       | O => fail OutOfFuel
       | S fuel' =>
           reader ← vreader_list_get_reader current_entry;
           new_entry ← vreader_list_entry_new reader;
           vreader_free reader;;
           vreader_queue new_list new_entry;;
           nxt ← vreader_list_get_next current_entry;
           vreader_copy_list_loop fuel' new_list nxt
       end.

Definition vreader_copy_list (fuel : nat) (list : ptr) : M ptr :=
  new_list ← vreader_list_new;
  if new_list =? NULL then mret NULL
  else
    first ← vreader_list_get_first list;
    vreader_copy_list_loop fuel new_list first;;
    mret new_list.

Definition vreader_get_reader_list (fuel : nat) : M ptr :=
  vreader_list_lock;;
  l ← get_vreader_list;
  new_reader_list ← vreader_copy_list fuel l;
  vreader_list_unlock;;
  mret new_reader_list.

(** The loop of [vreader_get_reader_by_id]; its value is [reader] at the
    loop's exit (NULL, or the match at the [break]). *)
Fixpoint vreader_get_reader_by_id_loop (fuel : nat) (i : Z) (current_entry : ptr)
    : M ptr :=
  if current_entry =? NULL then mret NULL
  else match fuel with
       | O => fail OutOfFuel
       | S fuel' =>
           creader ← vreader_list_get_reader current_entry;
           r ← load_reader creader;
           if id r =? i then mret creader
           else
             vreader_free creader;;
             nxt ← vreader_list_get_next current_entry;
             vreader_get_reader_by_id_loop fuel' i nxt
       end.

Definition vreader_get_reader_by_id (fuel : nat) (i : Z) : M ptr :=
  if i =? vreader_id_cast (-1) then mret NULL
  else
    vreader_list_lock;;
    l ← get_vreader_list;
    first ← vreader_list_get_first l;
    reader ← vreader_get_reader_by_id_loop fuel i first;
    vreader_list_unlock;;
    mret reader.

(** [strcmp (a, b) == 0]; either argument NULL is a NULL dereference. *)
Definition strcmp_eq0 (a b : option string) : M bool :=
  match a, b with
  | Some x, Some y => mret (bool_decide (x = y))
  | _, _ => fail NullDeref
  end.

Fixpoint vreader_get_reader_by_name_loop (fuel : nat) (nm : option string)
    (current_entry : ptr) : M ptr :=
  if current_entry =? NULL then mret NULL
  else match fuel with
       | O => fail OutOfFuel
       | S fuel' =>
           creader ← vreader_list_get_reader current_entry;
           r ← load_reader creader;
           c ← strcmp_eq0 (name r) nm;
           if c : bool then mret creader
           else
             vreader_free creader;;
             nxt ← vreader_list_get_next current_entry;
             vreader_get_reader_by_name_loop fuel' nm nxt
       end.

Definition vreader_get_reader_by_name (fuel : nat) (nm : option string) : M ptr :=
  vreader_list_lock;;
  l ← get_vreader_list;
  first ← vreader_list_get_first l;
  reader ← vreader_get_reader_by_name_loop fuel nm first;
  vreader_list_unlock;;
  mret reader.

(* called from card_emul to initialize the readers *)
Definition vreader_add_reader (reader : ptr) : M VReaderStatus :=
  reader_entry ← vreader_list_entry_new reader;
  if reader_entry =? NULL then mret VREADER_OUT_OF_MEMORY
  else
    vreader_list_lock;;
    l ← get_vreader_list;
    vreader_queue l reader_entry;;
    vreader_list_unlock;;
    vevent_queue_vevent (vevent_new VEVENT_READER_INSERT reader NULL);;
    mret VREADER_OK.

(** The scan of [vreader_remove_reader]; its value is [current_entry] at the
    loop's exit. *)
Fixpoint vreader_remove_reader_loop (fuel : nat) (reader current_entry : ptr) : M ptr :=
  if current_entry =? NULL then mret NULL
  else match fuel with
       | O => fail OutOfFuel
       | S fuel' =>
           r ← get_reader current_entry;
           if r =? reader then mret current_entry
           else
             nxt ← vreader_list_get_next current_entry;
             vreader_remove_reader_loop fuel' reader nxt
       end.

Definition vreader_remove_reader (fuel : nat) (reader : ptr) : M VReaderStatus :=
  vreader_list_lock;;
  l ← get_vreader_list;
  first ← vreader_list_get_first l;
  current_entry ← vreader_remove_reader_loop fuel reader first;
  l ← get_vreader_list;
  vreader_dequeue l current_entry;;
  vreader_list_unlock;;
  vreader_list_entry_delete current_entry;;
  vevent_queue_vevent (vevent_new VEVENT_READER_REMOVE reader NULL);;
  mret VREADER_OK.

(* Generate VEVENT_CARD_INSERT or VEVENT_CARD_REMOVE based on vreader state. *)
Definition vreader_queue_card_event (reader : ptr) : M unit :=
  c ← get_card reader;
  c' ← get_card reader;
  vevent_queue_vevent
    (vevent_new (if negb (c =? NULL) then VEVENT_CARD_INSERT else VEVENT_CARD_REMOVE)
       reader c').

(* insert/remove a new card. for removal, card == NULL *)
Definition vreader_insert_card (reader card : ptr) : M VReaderStatus :=
  vreader_lock reader;;
  c ← get_card reader;
  (if negb (c =? NULL)
   then
     (* decrement reference count *)
     c' ← get_card reader;
     vcard_free c';;
     put_card reader NULL
   else mret tt);;
  c ← vcard_reference card;
  put_card reader c;;
  vreader_unlock reader;;
  vreader_queue_card_event reader;;
  mret VREADER_OK.

(* initialize all the static reader structures *)
Definition vreader_init : M unit := vreader_list_init.

End VReader.

(** ** Observations on traces and heaps *)

(** The cards on which [vcard_reference] and [vcard_free] were called. *)
Definition card_refs (t : list Action) : list ptr :=
  omap (fun a => if a is AVCardReference c then Some c else None) t.
Definition card_frees (t : list Action) : list ptr :=
  omap (fun a => if a is AVCardFree c then Some c else None) t.

(** The readers whose name was freed, and the private-data destructor calls
    as (function, argument) pairs. *)
Definition name_frees (t : list Action) : list ptr :=
  omap (fun a => if a is ANameFree r then Some r else None) t.
Definition private_free_calls (t : list Action) : list (ptr * ptr) :=
  omap (fun a => if a is APrivateFree f p then Some (f, p) else None) t.

(** The protocol objects handed back to the card layer. *)
Definition apdu_deletes (t : list Action) : list ptr :=
  omap (fun a => if a is AApduDelete p then Some p else None) t.
Definition response_deletes (t : list Action) : list (option VCardResponse) :=
  omap (fun a => if a is AResponseDelete r then Some r else None) t.

(** The events queued, oldest first. *)
Definition events_of (t : list Action) : list VEvent :=
  omap (fun a => if a is AEvent e then Some e else None) t.

(** [l] without its first occurrence of [x]. *)
Definition remove_one {A} `{EqDecision A} (x : A) : list A -> list A :=
  fix go l :=
    match l with
    | [] => []
    | y :: l' => if decide (x = y) then l' else y :: go l'
    end.

(** The mutexes held after the actions of [t], given those held before. *)
Fixpoint held_after (held : list Mutex) (t : list Action) : list Mutex :=
  match t with
  | [] => held
  | AMutexLock m :: t' => held_after (m :: held) t'
  | AMutexUnlock m :: t' => held_after (remove_one m held) t'
  | _ :: t' => held_after held t'
  end.

(** Every event of [t] is queued while no mutex is held. *)
Fixpoint events_unlocked (held : list Mutex) (t : list Action) : bool :=
  match t with
  | [] => true
  | AMutexLock m :: t' => events_unlocked (m :: held) t'
  | AMutexUnlock m :: t' => events_unlocked (remove_one m held) t'
  | AEvent _ :: t' => (if held is [] then true else false) && events_unlocked held t'
  | _ :: t' => events_unlocked held t'
  end.

(** The transient-reference discipline on a trace.  [owned] are the card
    references this thread holds: one is gained by [vcard_reference] called
    under a reader's lock, one is given up by [vcard_free] and by storing the
    card in a reader.  A card handed to the card layer or to the event queue
    while no reader lock is held must be NULL or owned. *)
Definition reader_lock_held (held : list Mutex) : bool :=
  existsb (fun m => if m is ReaderLock _ then true else false) held.

Definition card_use_ok (held : list Mutex) (owned : list ptr) (c : ptr) : bool :=
  reader_lock_held held || (c =? NULL) || bool_decide (c ∈ owned).

Fixpoint reference_discipline (held : list Mutex) (owned : list ptr) (t : list Action)
    : bool :=
  match t with
  | [] => true
  | a :: t' =>
      match a with
      | AMutexLock m => reference_discipline (m :: held) owned t'
      | AMutexUnlock m => reference_discipline (remove_one m held) owned t'
      | AVCardReference c =>
          reference_discipline held
            (if reader_lock_held held then c :: owned else owned) t'
      | AVCardFree c => reference_discipline held (remove_one c owned) t'
      | ACardStore _ c => reference_discipline held (remove_one c owned) t'
      | AVCardReset c _ | AVCardGetAtr c | AProcessApdu c _ =>
          card_use_ok held owned c && reference_discipline held owned t'
      | AEvent e =>
          card_use_ok held owned (ev_card e) && reference_discipline held owned t'
      | _ => reference_discipline held owned t'
      end
  end.

(** The readers referenced by the entries reachable from [p] along [next]. *)
Fixpoint chain_readers (es : gmap Z VReaderListEntry) (fuel : nat) (p : ptr)
    : option (list ptr) :=
  if p =? NULL then Some []
  else match fuel with
       | O => None
       | S fuel' =>
           match es !! p with
           | None => None
           | Some e =>
               match chain_readers es fuel' (next e) with
               | None => None
               | Some l => Some (reader e :: l)
               end
           end
       end.

(** What a caller iterating over list [l] sees. *)
Definition list_readers (s : State) (fuel : nat) (l : ptr) : option (list ptr) :=
  match lists s !! l with
  | None => None
  | Some x => chain_readers (entries s) fuel (head x)
  end.

(** [chain es p l]: starting at [p] and following [next], the entries are
    exactly [l] (pairs of an entry and the reader it references), ending
    in NULL. *)
Fixpoint chain (es : gmap Z VReaderListEntry) (p : ptr) (l : list (ptr * ptr)) : Prop :=
  match l with
  | [] => p = NULL
  | x :: l' =>
      p = x.1 ∧ p ≠ NULL ∧
      ∃ e, es !! p = Some e ∧ reader e = x.2 ∧ chain es (next e) l'
  end.

(** The registry holds the entries [l], in this order. *)
Definition registry (s : State) (l : list (ptr * ptr)) : Prop :=
  vreader_list s ≠ NULL ∧
  ∃ x, lists s !! vreader_list s = Some x ∧
       chain (entries s) (head x) l ∧
       tail x = default NULL (last (l.*1)) ∧
       NoDup (l.*1).

(** Every registered reader is live, with a reference count that the
    registry's own reference keeps positive and that can still grow. *)
Definition readers_live (s : State) (l : list (ptr * ptr)) : Prop :=
  ∀ r, r ∈ l.*2 →
    r ≠ NULL ∧ ∃ rd, readers s !! r = Some rd ∧ 1 <= reference_count rd < INT_MAX.

(** The first reader of [l] whose stored id is [i]. *)
Definition first_with_id (rs : gmap Z VReader) (i : Z) (l : list ptr) : option ptr :=
  find (fun r => if rs !! r is Some rd then id rd =? i else false) l.

(** The first reader of [l] whose stored name is [nm]. *)
Definition first_with_name (rs : gmap Z VReader) (nm : string) (l : list ptr)
    : option ptr :=
  find (fun r => if rs !! r is Some rd then bool_decide (name rd = Some nm) else false) l.

(** The actions of [vreader_insert_card (r, c)] on a reader holding [old],
    up to the unlock. *)
(** The recorded writes to the links of lists and entries. *)
Definition is_link_store (a : Action) : bool :=
  match a with
  | AEntryStore _ _ | AListStore _ _ => true
  | _ => false
  end.

Definition insert_card_actions (r old c : ptr) : list Action :=
  [AMutexLock (ReaderLock r); ACardLoad r old]
  ++ (if old =? NULL then []
      else [ACardLoad r old; AVCardFree old; ACardStore r NULL])
  ++ [AVCardReference c; ACardStore r c; AMutexUnlock (ReaderLock r)].

(** The event [vreader_queue_card_event] makes for a reader holding [c]. *)
Definition card_event (r c : ptr) : VEvent :=
  mkVEvent (if c =? NULL then VEVENT_CARD_REMOVE else VEVENT_CARD_INSERT) r c.

(** ** Scenarios *)

(** A start state, and a card layer to run the code on: it rejects commands
    shorter than four bytes and answers every other command with five
    bytes. *)
Definition empty_state : State :=
  {| readers := ∅; entries := ∅; lists := ∅; vreader_list := NULL; brk := 1;
     trace := [] |}.

Definition demo_card_layer : CardLayer := {|
  card_apdu_new := fun buf len => if len <? 4 then (NULL, 26368) else (77, 36864);
  card_process_apdu := fun c apdu =>
    (VCARD_DONE, Some {| b_data := [x01; x02; x03; x90; x00]; b_total_len := 5 |});
  card_make_response := fun status => {| b_data := [x67; x00]; b_total_len := 2 |};
  card_get_atr := fun c buf len => (buf, len)
|}.

(** Two readers "A" and "B" are created and registered in this order; the
    result is the pair of their addresses. *)
Definition register_two : M (ptr * ptr) :=
  vreader_init;;
  a ← vreader_new 32 (Some "A"%string) NULL NULL;
  b ← vreader_new 32 (Some "B"%string) NULL NULL;
  vreader_add_reader a;;
  vreader_add_reader b;;
  mret (a, b).

(** Three readers registered in order, then the middle one removed. *)
Definition register_three_remove_middle (fuel : nat) : M (ptr * ptr * ptr) :=
  vreader_init;;
  a ← vreader_new 32 (Some "A"%string) NULL NULL;
  b ← vreader_new 32 (Some "B"%string) NULL NULL;
  c ← vreader_new 32 (Some "C"%string) NULL NULL;
  vreader_add_reader a;;
  vreader_add_reader b;;
  vreader_add_reader c;;
  vreader_remove_reader fuel b;;
  mret (a, b, c).

(** One reader is created and card 9 is inserted into it. *)
Definition reader_with_card : M ptr :=
  vreader_init;;
  a ← vreader_new 32 (Some "A"%string) NULL NULL;
  vreader_insert_card a 9;;
  mret a.

(** A reader at address 2, holding card [c], in an otherwise empty registry. *)
Definition one_reader (c : ptr) : State :=
  {| readers := {[ 2 := mkVReader 1 c (Some "A"%string) 7 40 50 ]};
     entries := ∅;
     lists := {[ 1 := mkVReaderList NULL NULL ]};
     vreader_list := 1;
     brk := 3;
     trace := [] |}.

(** Readers 2 ("A", id 7) and 3 (no name, id 8), registered in this order
    through the entries 4 and 5. *)
Definition two_registered : State :=
  {| readers := {[ 2 := mkVReader 2 NULL (Some "A"%string) 7 NULL NULL;
                   3 := mkVReader 2 NULL None 8 NULL NULL ]};
     entries := {[ 4 := mkVReaderListEntry 5 NULL 2;
                   5 := mkVReaderListEntry NULL 4 3 ]};
     lists := {[ 1 := mkVReaderList 4 5 ]};
     vreader_list := 1;
     brk := 6;
     trace := [] |}.

(** ** Lists in general, reference audits and further scenarios *)

(** The list object [lp] holds the entries [l], in this order ([registry] is
    this for the static list). *)
Definition is_list (s : State) (lp : ptr) (l : list (ptr * ptr)) : Prop :=
  lp ≠ NULL ∧
  ∃ x, lists s !! lp = Some x ∧
       chain (entries s) (head x) l ∧
       tail x = default NULL (last (l.*1)) ∧
       NoDup (l.*1).

(** How often [r] occurs in [l]. *)
Fixpoint occurrences (r : ptr) (l : list ptr) : Z :=
  match l with
  | [] => 0
  | x :: l' => (if x =? r then 1 else 0) + occurrences r l'
  end.

(** The readers of [rs], each with [k] references added per occurrence in
    [l]. *)
Definition shift_all (k : Z) (l : list ptr) (rs : gmap Z VReader) : gmap Z VReader :=
  map_imap
    (fun r rd => Some (set_reference_count (reference_count rd + k * occurrences r l) rd))
    rs.

(** [es] without the addresses of [l]. *)
Definition delete_all (l : list ptr) (es : gmap Z VReaderListEntry)
    : gmap Z VReaderListEntry :=
  foldr delete es l.

(** Nothing is allocated at or above [brk], and [brk] is not NULL: what
    [qemu_malloc] guarantees of the address it returns. *)
Definition heap_fresh (s : State) : Prop :=
  0 < brk s ∧
  ∀ q, brk s <= q →
    readers s !! q = None ∧ entries s !! q = None ∧ lists s !! q = None.

(** Every reader of [l] is live, and its count can take one more reference
    per occurrence in [l] (and one transient one) without overflow. *)
Definition readers_room (rs : gmap Z VReader) (l : list ptr) : Prop :=
  ∀ r, r ∈ l →
    r ≠ NULL ∧
    ∃ rd, rs !! r = Some rd ∧
          1 <= reference_count rd ∧
          reference_count rd + occurrences r l < INT_MAX.

(** Every reader of [l] is live and holds more references than it has
    occurrences in [l]. *)
Definition readers_spare (rs : gmap Z VReader) (l : list ptr) : Prop :=
  ∀ r, r ∈ l →
    r ≠ NULL ∧
    ∃ rd, rs !! r = Some rd ∧
          occurrences r l < reference_count rd <= INT_MAX.

(** Readers 2, 3 and 4 (ids 7, 8, 9), registered in this order through the
    entries 5, 6 and 7, as three calls of [vreader_add_reader] leave them. *)
Definition three_registered : State :=
  {| readers := {[ 2 := mkVReader 2 NULL (Some "A"%string) 7 NULL NULL;
                   3 := mkVReader 2 NULL (Some "B"%string) 8 NULL NULL;
                   4 := mkVReader 2 NULL (Some "C"%string) 9 NULL NULL ]};
     entries := {[ 5 := mkVReaderListEntry 6 NULL 2;
                   6 := mkVReaderListEntry 7 5 3;
                   7 := mkVReaderListEntry NULL 6 4 ]};
     lists := {[ 1 := mkVReaderList 5 7 ]};
     vreader_list := 1;
     brk := 8;
     trace := [] |}.

(** Reader 2 alone in the registry, through entry 3. *)
Definition one_registered : State :=
  {| readers := {[ 2 := mkVReader 2 NULL (Some "A"%string) 7 NULL NULL ]};
     entries := {[ 3 := mkVReaderListEntry NULL NULL 2 ]};
     lists := {[ 1 := mkVReaderList 3 3 ]};
     vreader_list := 1;
     brk := 4;
     trace := [] |}.

(** A card layer whose processor does not complete. *)
Definition stalling_card_layer : CardLayer := {|
  card_apdu_new := fun buf len => (77, 36864);
  card_process_apdu := fun c apdu => (VCARD_NEXT, None);
  card_make_response := fun status => {| b_data := [x67; x00]; b_total_len := 2 |};
  card_get_atr := fun c buf len => (buf, len)
|}.

(** A card layer whose ATR is the two bytes 3B 00. *)
Definition atr_card_layer : CardLayer := {|
  card_apdu_new := fun buf len => (77, 36864);
  card_process_apdu := fun c apdu =>
    (VCARD_DONE, Some {| b_data := [x90; x00]; b_total_len := 2 |});
  card_make_response := fun status => {| b_data := [x67; x00]; b_total_len := 2 |};
  card_get_atr := fun c buf len => ([x3b; x00], Some 2)
|}.

(** A reader at address 2 before [vreader_init]: there is no registry yet. *)
Definition reader_before_init : State :=
  {| readers := {[ 2 := mkVReader 1 NULL (Some "A"%string) 7 NULL NULL ]};
     entries := ∅;
     lists := ∅;
     vreader_list := NULL;
     brk := 3;
     trace := [] |}.

(** * Properties *)

Create HintDb vreader.
#[local] Hint Unfold mbind M_bind mret M_ret fail log modify assert
  load_reader store_reader load_entry store_entry load_list store_list
  qemu_malloc alloc_reader alloc_list free_reader free_entry free_list
  get_next get_prev get_reader put_next put_prev get_head get_tail put_head put_tail
  get_card put_card vcard_reference vcard_free vevent_new vevent_queue_vevent
  vreader_lock vreader_unlock vreader_list_lock vreader_list_unlock
  get_vreader_list
  set_readers set_entries set_lists set_vreader_list set_brk add_trace
  set_reference_count set_card set_id : vreader.

(** One round of symbolic execution: unfold the primitives, project the
    state, and resolve a pending test or heap lookup from the context. *)
Ltac mred :=
  autounfold with vreader;
  cbn [readers entries lists vreader_list brk trace
       reference_count card name id reader_private reader_private_free
       next prev reader head tail fst snd negb andb orb].

Ltac mstep :=
  first
    [ match goal with H : (_ =? _) = _ |- _ => rewrite H end
    | match goal with H : (_ >? _) = _ |- _ => rewrite H end
    | match goal with H : _ !! _ = _ |- _ => rewrite H end
    | rewrite lookup_insert_eq
    | rewrite lookup_delete_eq
    | rewrite Z.eqb_refl
    | rewrite lookup_insert_ne by congruence ].

Ltac mrun := repeat (mred; try mstep).

Ltac trace_eq := mred; rewrite <- ?app_assoc; reflexivity.

Lemma int_wrap_id z : INT_MIN <= z <= INT_MAX -> int_wrap z = z.
Proof.
  unfold INT_MIN, INT_MAX, int_wrap. intros Hz.
  rewrite Z.mod_small; lia.
Qed.

Lemma MIN_min a b : MIN a b = Z.min a b.
Proof. unfold MIN. destruct (Z.ltb_spec a b); lia. Qed.

Lemma events_of_app t1 t2 : events_of (t1 ++ t2) = events_of t1 ++ events_of t2.
Proof. apply omap_app. Qed.

Section Reference_counting.

(** C6: acquiring an absent handle returns absent and changes nothing;
    acquiring a live reader adds one to its reference count and returns the
    same handle.  Releasing an absent handle changes nothing; a release that
    leaves the count above zero only decrements it; the release that brings
    the count to zero releases the held card (if any), frees the name (if
    any), calls the private-data destructor supplied at creation exactly once
    on the private data, and deallocates the reader. *)
Theorem reference_counting (st : State) (r : ptr) (rd : VReader) :
  r ≠ NULL ->
  readers st !! r = Some rd ->
  1 <= reference_count rd < INT_MAX ->
  vreader_reference NULL st = Ok (NULL, st) ∧
  vreader_reference r st =
    Ok (r, add_trace [AMutexLock (ReaderLock r); AMutexUnlock (ReaderLock r)]
             (set_readers
                (insert r (set_reference_count (reference_count rd + 1) rd)) st)) ∧
  vreader_free NULL st = Ok (tt, st) ∧
  (1 < reference_count rd ->
   vreader_free r st =
     Ok (tt, add_trace [AMutexLock (ReaderLock r); AMutexUnlock (ReaderLock r)]
               (set_readers
                  (insert r (set_reference_count (reference_count rd - 1) rd)) st))) ∧
  (reference_count rd = 1 ->
   ∃ st' t,
     vreader_free r st = Ok (tt, st') ∧
     readers st' = delete r (readers st) ∧
     entries st' = entries st ∧ lists st' = lists st ∧
     trace st' = trace st ++ t ∧
     card_frees t = (if card rd =? NULL then [] else [card rd]) ∧
     name_frees t = (if name rd is Some _ then [r] else []) ∧
     private_free_calls t =
       (if reader_private_free rd =? NULL then []
        else [(reader_private_free rd, reader_private rd)])).
Proof.
  intros Hn Hr Hc. apply Z.eqb_neq in Hn.
  assert (Hup : int_wrap (reference_count rd + 1) = reference_count rd + 1)
    by (apply int_wrap_id; unfold INT_MIN, INT_MAX in *; lia).
  assert (Hdn : int_wrap (reference_count rd - 1) = reference_count rd - 1)
    by (apply int_wrap_id; unfold INT_MIN, INT_MAX in *; lia).
  destruct st as [rs es ls vl b tr]; cbn [readers] in Hr.
  split; [reflexivity|]. split.
  { unfold vreader_reference. mrun. rewrite Hup. do 2 f_equal. trace_eq. }
  split; [reflexivity|]. split.
  - intros Hgt. apply Z.gtb_lt in Hgt.
    unfold vreader_free. mrun. rewrite Hdn. do 2 f_equal. trace_eq.
  - intros H1.
    assert (Hgt : (reference_count rd >? 1) = false)
      by (rewrite H1; reflexivity).
    unfold vreader_free. mrun. rewrite Hdn.
    destruct (card rd =? NULL) eqn:Hcard; mrun;
      destruct (name rd) as [nm|] eqn:Hname; mrun;
      destruct (reader_private_free rd =? NULL) eqn:Hpf; mrun;
      (eexists _, _; split; [reflexivity|]; mred;
       split; [by rewrite delete_insert_eq|];
       split; [reflexivity|]; split; [reflexivity|];
       split; [rewrite <- ?app_assoc; reflexivity|];
       by rewrite ?Hname).
Qed.

End Reference_counting.

Section Card_sessions.

Context `{CardLayer}.

#[local] Hint Unfold vcard_reset vcard_get_atr vcard_apdu_new vcard_process_apdu
  vcard_make_response vcard_response_delete vcard_apdu_delete : vreader.

(** Taking the transient card reference: the stored card is read and
    referenced between the lock and the unlock, and nothing else changes. *)
Lemma vreader_get_card_run (st : State) (r : ptr) (rd : VReader) :
  r ≠ NULL ->
  readers st !! r = Some rd ->
  vreader_get_card r st =
    Ok (card rd,
        add_trace [AMutexLock (ReaderLock r); ACardLoad r (card rd);
                   AVCardReference (card rd); AMutexUnlock (ReaderLock r)] st).
Proof.
  intros Hn Hr. apply Z.eqb_neq in Hn.
  destruct st as [rs es ls vl b tr]; cbn [readers] in Hr.
  unfold vreader_get_card. mrun. do 2 f_equal. trace_eq.
Qed.

(** C5: on a reader without a card, power-on returns NO_CARD and hands back
    the ATR buffer and the ATR length as they were given, and transmit
    returns NO_CARD and hands back the receive buffer and its length as they
    were given. *)
Theorem no_card_outputs_untouched (st : State) (r : ptr) (rd : VReader)
    (atr : option (list byte)) (len : option Z)
    (send recv : list byte) (slen rlen : Z) :
  r ≠ NULL ->
  readers st !! r = Some rd ->
  card rd = NULL ->
  let st' := add_trace [AMutexLock (ReaderLock r); ACardLoad r NULL;
                        AVCardReference NULL; AMutexUnlock (ReaderLock r)] st in
  vreader_power_on r atr len st = Ok ((VREADER_NO_CARD, atr, len), st') ∧
  vreader_xfr_bytes r send slen recv rlen st = Ok ((VREADER_NO_CARD, recv, rlen), st').
Proof.
  intros Hn Hr Hc st'. subst st'.
  unfold vreader_power_on, vreader_reset, vreader_xfr_bytes.
  unfold mbind, M_bind.
  rewrite (vreader_get_card_run st r rd Hn Hr), Hc.
  split; reflexivity.
Qed.

(** The whole of a transmit on a reader with a card, for either way the
    response comes about. *)
Lemma vreader_xfr_bytes_run (st : State) (r : ptr) (rd : VReader)
    (send recv : list byte) (slen c : Z) (resp : VCardResponse) :
  r ≠ NULL ->
  readers st !! r = Some rd ->
  card rd ≠ NULL ->
  0 <= c <= Z.of_nat (length recv) ->
  b_total_len resp = Z.of_nat (length (b_data resp)) ->
  ((card_apdu_new send slen).1 ≠ NULL ∧
   card_process_apdu (card rd) (card_apdu_new send slen).1 = (VCARD_DONE, Some resp))
  ∨ ((card_apdu_new send slen).1 = NULL ∧
     card_make_response (card_apdu_new send slen).2 = resp) ->
  let n := Z.min c (b_total_len resp) in
  let apdu := (card_apdu_new send slen).1 in
  vreader_xfr_bytes r send slen recv c st =
    Ok ((VREADER_OK, take (Z.to_nat n) (b_data resp) ++ drop (Z.to_nat n) recv, n),
        add_trace
          ([AMutexLock (ReaderLock r); ACardLoad r (card rd);
            AVCardReference (card rd); AMutexUnlock (ReaderLock r);
            AApduNew apdu;
            if apdu =? NULL then AMakeResponse (card_apdu_new send slen).2
            else AProcessApdu (card rd) apdu;
            AResponseDelete (Some resp); AApduDelete apdu; AVCardFree (card rd)])
          st).
Proof.
  intros Hn Hr Hc Hcap Hlen Hresp n apdu. subst n apdu.
  apply Z.eqb_neq in Hc.
  assert (Hcpy : (0 <=? MIN c (b_total_len resp))
                 && (MIN c (b_total_len resp) <=? Z.of_nat (length recv))
                 && (MIN c (b_total_len resp) <=? Z.of_nat (length (b_data resp)))
                 = true).
  { rewrite MIN_min. repeat (apply andb_true_intro; split); apply Z.leb_le; lia. }
  unfold vreader_xfr_bytes. unfold mbind at 1, M_bind at 1.
  rewrite (vreader_get_card_run st r rd Hn Hr), Hc.
  destruct st as [rs es ls vl b tr].
  destruct (card_apdu_new send slen) as [apdu status] eqn:Hap.
  cbn [fst snd] in *.
  destruct Hresp as [[Ha Hp] | [Ha Hm]].
  - apply Z.eqb_neq in Ha. mrun. rewrite Hap. mrun. rewrite Hp.
    cbn [fst snd VCardStatus_eqb]. mrun. unfold memcpy. rewrite Hcpy. mrun.
    rewrite MIN_min. do 2 f_equal. trace_eq.
  - subst apdu. mrun. rewrite Hap. cbn [fst snd]. rewrite Z.eqb_refl. mrun.
    rewrite Hm. cbn [VCardStatus_eqb]. mrun. unfold memcpy. rewrite Hcpy. mrun.
    rewrite MIN_min. do 2 f_equal. trace_eq.
Qed.

(** C3: with a card present, a receive capacity [c] and a response of
    length [r], transmit returns OK, sets the length to [min c r] and leaves
    in the receive buffer the first [min c r] bytes of the response; the
    card reference it took is released and the command and the response are
    handed back to the card layer before it returns. *)
Theorem transmit_truncation (st : State) (r : ptr) (rd : VReader)
    (send recv : list byte) (slen c : Z) (resp : VCardResponse) :
  r ≠ NULL ->
  readers st !! r = Some rd ->
  card rd ≠ NULL ->
  0 <= c <= Z.of_nat (length recv) ->
  b_total_len resp = Z.of_nat (length (b_data resp)) ->
  ((card_apdu_new send slen).1 ≠ NULL ∧
   card_process_apdu (card rd) (card_apdu_new send slen).1 = (VCARD_DONE, Some resp))
  ∨ ((card_apdu_new send slen).1 = NULL ∧
     card_make_response (card_apdu_new send slen).2 = resp) ->
  let n := Z.min c (b_total_len resp) in
  ∃ out st' t,
    vreader_xfr_bytes r send slen recv c st = Ok ((VREADER_OK, out, n), st') ∧
    take (Z.to_nat n) out = take (Z.to_nat n) (b_data resp) ∧
    length (take (Z.to_nat n) out) = Z.to_nat n ∧
    drop (Z.to_nat n) out = drop (Z.to_nat n) recv ∧
    readers st' = readers st ∧ entries st' = entries st ∧ lists st' = lists st ∧
    trace st' = trace st ++ t ∧
    card_refs t = [card rd] ∧ card_frees t = [card rd] ∧
    apdu_deletes t = [(card_apdu_new send slen).1] ∧
    response_deletes t = [Some resp] ∧
    held_after [] t = [].
Proof.
  intros Hn Hr Hc Hcap Hlen Hresp n.
  pose proof (vreader_xfr_bytes_run st r rd send recv slen c resp
                Hn Hr Hc Hcap Hlen Hresp) as Hrun.
  cbv zeta in Hrun. fold n in Hrun.
  assert (Hn1 : length (take (Z.to_nat n) (b_data resp)) = Z.to_nat n).
  { rewrite length_take. subst n. lia. }
  eexists _, _, _. split; [exact Hrun|].
  split; [by rewrite take_app_length'|].
  split; [rewrite take_app_length' by done; done|].
  split; [by rewrite drop_app_length'|].
  destruct st as [rs es ls vl b tr]. mred.
  do 4 (split; [reflexivity|]).
  destruct ((card_apdu_new send slen).1 =? NULL);
    cbn; rewrite decide_True by done; done.
Qed.

(** C4: with a card present and send bytes that the parser rejects, transmit
    neither faults nor returns an error: it makes a response from the
    parser's status code, never calls the card's processor, truncates that
    response like any other and returns OK. *)
Theorem transmit_malformed_command (st : State) (r : ptr) (rd : VReader)
    (send recv : list byte) (slen c : Z) :
  r ≠ NULL ->
  readers st !! r = Some rd ->
  card rd ≠ NULL ->
  0 <= c <= Z.of_nat (length recv) ->
  (card_apdu_new send slen).1 = NULL ->
  let resp := card_make_response (card_apdu_new send slen).2 in
  b_total_len resp = Z.of_nat (length (b_data resp)) ->
  let n := Z.min c (b_total_len resp) in
  vreader_xfr_bytes r send slen recv c st =
    Ok ((VREADER_OK, take (Z.to_nat n) (b_data resp) ++ drop (Z.to_nat n) recv, n),
        add_trace
          [AMutexLock (ReaderLock r); ACardLoad r (card rd);
           AVCardReference (card rd); AMutexUnlock (ReaderLock r);
           AApduNew NULL; AMakeResponse (card_apdu_new send slen).2;
           AResponseDelete (Some resp); AApduDelete NULL; AVCardFree (card rd)]
          st).
Proof.
  intros Hn Hr Hc Hcap Ha resp Hlen n.
  pose proof (vreader_xfr_bytes_run st r rd send recv slen c resp
                Hn Hr Hc Hcap Hlen (or_intror (conj Ha eq_refl))) as Hrun.
  cbv zeta in Hrun. rewrite Ha in Hrun. exact Hrun.
Qed.

End Card_sessions.

Section Card_membership.

Lemma vreader_queue_card_event_run (st : State) (r : ptr) (rd : VReader) :
  r ≠ NULL ->
  readers st !! r = Some rd ->
  vreader_queue_card_event r st =
    Ok (tt, add_trace [ACardLoad r (card rd); ACardLoad r (card rd);
                       AEvent (card_event r (card rd))] st).
Proof.
  intros Hn Hr. apply Z.eqb_neq in Hn.
  destruct st as [rs es ls vl b tr]; cbn [readers] in Hr.
  unfold vreader_queue_card_event, card_event. mrun.
  destruct (card rd =? NULL); mrun; do 2 f_equal; trace_eq.
Qed.

Lemma vreader_insert_card_run (st : State) (r c : ptr) (rd : VReader) :
  r ≠ NULL ->
  readers st !! r = Some rd ->
  vreader_insert_card r c st =
    Ok (VREADER_OK,
        add_trace [AEvent (card_event r c)]
          (add_trace (insert_card_actions r (card rd) c ++ [ACardLoad r c; ACardLoad r c])
             (set_readers (insert r (set_card c rd)) st))).
Proof.
  intros Hn Hr. apply Z.eqb_neq in Hn.
  destruct st as [rs es ls vl b tr]; cbn [readers] in Hr.
  unfold vreader_insert_card, vreader_queue_card_event, card_event,
    insert_card_actions.
  mrun.
  destruct (card rd =? NULL) eqn:Hold; mrun;
    destruct (c =? NULL) eqn:Hc; mrun;
    rewrite ?insert_insert_eq; do 2 f_equal; mred; f_equal;
    rewrite <- ?app_assoc; reflexivity.
Qed.

Lemma vreader_card_is_present_run (st : State) (r : ptr) (rd : VReader) :
  r ≠ NULL ->
  readers st !! r = Some rd ->
  ∃ st',
    vreader_card_is_present r st =
      Ok (if card rd =? NULL then VREADER_NO_CARD else VREADER_OK, st') ∧
    readers st' = readers st.
Proof.
  intros Hn Hr. unfold vreader_card_is_present, mbind, M_bind.
  rewrite (vreader_get_card_run st r rd Hn Hr).
  destruct st as [rs es ls vl b tr].
  destruct (card rd =? NULL); mrun; eexists; split; reflexivity.
Qed.

(** C7: inserting no card twice in a row returns OK both times, queues a
    card-removed event both times, leaves the reader without a card after
    each call (so the presence query answers NO_CARD), and the second call
    leaves the heap as the first one left it. *)
Theorem insert_absent_card_twice (st : State) (r : ptr) (rd : VReader) :
  r ≠ NULL ->
  readers st !! r = Some rd ->
  ∃ st1 st2 q1 q2,
    vreader_insert_card r NULL st = Ok (VREADER_OK, st1) ∧
    vreader_insert_card r NULL st1 = Ok (VREADER_OK, st2) ∧
    events_of (trace st1) =
      events_of (trace st) ++ [mkVEvent VEVENT_CARD_REMOVE r NULL] ∧
    events_of (trace st2) =
      events_of (trace st1) ++ [mkVEvent VEVENT_CARD_REMOVE r NULL] ∧
    readers st1 !! r = Some (set_card NULL rd) ∧
    readers st2 !! r = Some (set_card NULL rd) ∧
    vreader_card_is_present r st1 = Ok (VREADER_NO_CARD, q1) ∧
    vreader_card_is_present r st2 = Ok (VREADER_NO_CARD, q2) ∧
    readers st2 = readers st1 ∧ entries st2 = entries st1 ∧ lists st2 = lists st1.
Proof.
  intros Hn Hr.
  pose proof (vreader_insert_card_run st r NULL rd Hn Hr) as H1.
  set (st1 := add_trace [AEvent (card_event r NULL)] _) in H1.
  assert (Hr1 : readers st1 !! r = Some (set_card NULL rd)).
  { subst st1. destruct st. mred. apply lookup_insert_eq. }
  pose proof (vreader_insert_card_run st1 r NULL _ Hn Hr1) as H2.
  set (st2 := add_trace [AEvent (card_event r NULL)] _) in H2.
  assert (Hr2 : readers st2 !! r = Some (set_card NULL rd)).
  { subst st2. destruct st1. mred. apply lookup_insert_eq. }
  destruct (vreader_card_is_present_run st1 r _ Hn Hr1) as (q1 & Hq1 & _).
  destruct (vreader_card_is_present_run st2 r _ Hn Hr2) as (q2 & Hq2 & _).
  exists st1, st2, q1, q2.
  split; [exact H1|]. split; [exact H2|].
  split. { subst st1. destruct st. mred. rewrite !events_of_app.
           unfold insert_card_actions. destruct (card rd =? NULL);
             cbn; by rewrite app_nil_r. }
  split. { subst st2. destruct st1. mred. rewrite !events_of_app.
           by rewrite app_nil_r. }
  split; [exact Hr1|]. split; [exact Hr2|].
  split; [exact Hq1|]. split; [exact Hq2|].
  subst st2. destruct st1 as [rs1 es1 ls1 vl1 b1 tr1].
  cbn [readers] in Hr1. mred.
  split; [|split; reflexivity].
  apply insert_id. exact Hr1.
Qed.

End Card_membership.

Section Registry.

(** *** Chains *)

Lemma chain_frame es p l e x :
  chain es p l -> e ∉ l.*1 -> chain (<[e:=x]> es) p l.
Proof.
  revert p. induction l as [|[a r] l IH]; intros p Hc Hnot; [exact Hc|].
  cbn in Hc, Hnot |- *. destruct Hc as (-> & Hn & ent & He & Hr & Hc).
  apply not_elem_of_cons in Hnot as [Hne Hnot].
  split; [done|]. split; [done|].
  exists ent. rewrite lookup_insert_ne by done. eauto.
Qed.

Lemma chain_allocated es p l e :
  chain es p l -> e ∈ l.*1 -> e ≠ NULL ∧ is_Some (es !! e).
Proof.
  revert p. induction l as [|[a r] l IH]; intros p Hc Hin; cbn in *.
  - by apply elem_of_nil in Hin.
  - destruct Hc as (-> & Hn & ent & He & Hr & Hc).
    apply elem_of_cons in Hin as [->|Hin]; eauto.
Qed.

Lemma chain_fresh es p l e : chain es p l -> es !! e = None -> e ∉ l.*1.
Proof.
  intros Hc Hnone Hin. destruct (chain_allocated es p l e Hc Hin) as [_ [x Hx]].
  congruence.
Qed.

Lemma chain_snoc es p l t et new r :
  chain es p l ->
  NoDup (l.*1) ->
  last (l.*1) = Some t ->
  es !! t = Some et ->
  new ∉ l.*1 ->
  new ≠ NULL ->
  chain (<[t:={| next := new; prev := prev et; reader := reader et |}]>
           (<[new:={| next := NULL; prev := t; reader := r |}]> es))
    p (l ++ [(new, r)]).
Proof.
  revert p. induction l as [|[a ra] l IH]; intros p Hc Hnd Hlast Het Hnew Hnn.
  - discriminate.
  - cbn in Hc, Hnd, Hnew. destruct Hc as (-> & Hn & ent & He & Hr & Hc).
    apply NoDup_cons in Hnd as [Ha Hnd].
    apply not_elem_of_cons in Hnew as [Hne Hnew].
    destruct l as [|[b rb] l].
    + cbn in Hlast, Hc. injection Hlast as <-. subst.
      rewrite He in Het. injection Het as <-.
      cbn. split; [done|]. split; [done|].
      eexists. rewrite lookup_insert_eq. split; [done|]. split; [done|].
      cbn. split; [done|]. split; [done|].
      eexists. rewrite lookup_insert_ne, lookup_insert_eq by done. done.
    + assert (Hat : a ≠ t).
      { intros ->. apply Ha. cbn in Hlast |- *.
        change (last (b :: l.*1) = Some t) in Hlast.
        by apply last_Some_elem_of. }
      change (((a, ra) :: (b, rb) :: l) ++ [(new, r)])
        with ((a, ra) :: (((b, rb) :: l) ++ [(new, r)])).
      cbn [chain fst snd]. split; [done|]. split; [done|].
      exists ent. rewrite !lookup_insert_ne by done.
      split; [done|]. split; [done|].
      apply IH; done.
Qed.

(** *** Scanning by id *)

Lemma rc_restore rd :
  1 <= reference_count rd < INT_MAX ->
  mkVReader (int_wrap (reference_count rd + 1 - 1)) (card rd) (name rd) (id rd)
    (reader_private rd) (reader_private_free rd) = rd.
Proof.
  intros Hrc.
  assert (Hdn : int_wrap (reference_count rd + 1 - 1) = reference_count rd)
    by (rewrite int_wrap_id; unfold INT_MIN, INT_MAX in *; lia).
  rewrite Hdn. by destruct rd.
Qed.

Lemma vreader_get_reader_by_id_loop_run (i : Z) (l : list (ptr * ptr)) :
  ∀ (fuel : nat) (p : ptr) rs es ls vl b tr,
    chain es p l ->
    (∀ r, r ∈ l.*2 →
       r ≠ NULL ∧ ∃ rd, rs !! r = Some rd ∧ 1 <= reference_count rd < INT_MAX) ->
    (length l <= fuel)%nat ->
    ∃ res rs' tr',
      vreader_get_reader_by_id_loop fuel i p (mkState rs es ls vl b tr) =
        Ok (res, mkState rs' es ls vl b tr') ∧
      match first_with_id rs i (l.*2) with
      | Some r =>
          res = r ∧
          ∃ rd, rs !! r = Some rd ∧ id rd = i ∧
                rs' = <[r:=set_reference_count (reference_count rd + 1) rd]> rs
      | None => res = NULL ∧ rs' = rs
      end.
Proof.
  induction l as [|[e r] l IH]; intros fuel p rs es ls vl b tr Hc Hlive Hfuel.
  - cbn in Hc. subst p. destruct fuel; cbn; eauto 10.
  - cbn in Hc. destruct Hc as (-> & Hn & ent & He & Hr & Hc). cbn in Hr. subst r.
    destruct (Hlive (reader ent)) as (Hrn & rd & Hrd & Hrc); [cbn; left|].
    destruct fuel as [|fuel]; [cbn in Hfuel; lia|].
    apply Z.eqb_neq in Hn, Hrn.
    assert (Hup : int_wrap (reference_count rd + 1) = reference_count rd + 1)
      by (apply int_wrap_id; unfold INT_MIN, INT_MAX in *; lia).
    cbn [vreader_get_reader_by_id_loop]. rewrite Hn.
    unfold vreader_list_get_reader, vreader_reference, vreader_free,
      vreader_list_get_next.
    unfold first_with_id. cbn [fmap list_fmap snd find]. rewrite Hrd.
    assert (Hgt : (reference_count rd + 1 >? 1) = true)
      by (apply Z.gtb_lt; lia).
    mrun. rewrite Hup.
    destruct (id rd =? i) eqn:Hid.
    + mrun. apply Z.eqb_eq in Hid. eauto 10.
    + mrun. rewrite insert_insert_eq, (rc_restore rd Hrc).
      rewrite (insert_id rs _ _ Hrd).
      apply IH; [done| |cbn in Hfuel; lia].
      intros r' Hr'. apply Hlive. cbn. by right.
Qed.

(** C8: lookup by id returns the first reader in registry order whose id is
    the one asked for, with its reference count raised by one (a new counted
    reference), or NULL when no reader has that id; every other reader and
    the registry itself are left as they were.  For the unassigned id it
    returns NULL at once: no lock is taken and no entry is visited, so the
    state is untouched. *)
Theorem lookup_by_id_first_match (id_bits : Z) (st : State) (l : list (ptr * ptr))
    (fuel : nat) (i : Z) :
  registry st l ->
  readers_live st l ->
  (length l <= fuel)%nat ->
  (i = vreader_id_cast id_bits (-1) ->
   vreader_get_reader_by_id id_bits fuel i st = Ok (NULL, st)) ∧
  (i ≠ vreader_id_cast id_bits (-1) ->
   ∃ res st',
     vreader_get_reader_by_id id_bits fuel i st = Ok (res, st') ∧
     entries st' = entries st ∧ lists st' = lists st ∧
     vreader_list st' = vreader_list st ∧
     match first_with_id (readers st) i (l.*2) with
     | Some r =>
         res = r ∧
         ∃ rd, readers st !! r = Some rd ∧ id rd = i ∧
               readers st' =
                 <[r:=set_reference_count (reference_count rd + 1) rd]> (readers st)
     | None => res = NULL ∧ readers st' = readers st
     end).
Proof.
  intros (Hvl & x & Hx & Hc & _ & _) Hlive Hfuel. split.
  - intros ->. unfold vreader_get_reader_by_id. by rewrite Z.eqb_refl.
  - intros Hi. apply Z.eqb_neq in Hi, Hvl.
    destruct st as [rs es ls vl b tr]; cbn [lists entries vreader_list readers] in *.
    destruct (vreader_get_reader_by_id_loop_run i l fuel (head x) rs es ls vl b
                (tr ++ [AMutexLock ListMutex]) Hc Hlive Hfuel)
      as (res & rs' & tr' & Hrun & Hres).
    unfold vreader_get_reader_by_id, vreader_list_get_first. rewrite Hi.
    mrun. rewrite Hrun. mrun.
    eexists _, _. split; [reflexivity|]. mred. done.
Qed.

(** *** Scanning by name *)

Lemma vreader_get_reader_by_name_loop_run (nm : string) (l : list (ptr * ptr)) :
  ∀ (fuel : nat) (p : ptr) rs es ls vl b tr,
    chain es p l ->
    (∀ r, r ∈ l.*2 →
       r ≠ NULL ∧ ∃ rd, rs !! r = Some rd ∧ 1 <= reference_count rd < INT_MAX) ->
    (∀ r rd, r ∈ l.*2 → rs !! r = Some rd → name rd ≠ None) ->
    (length l <= fuel)%nat ->
    ∃ res rs' tr',
      vreader_get_reader_by_name_loop fuel (Some nm) p (mkState rs es ls vl b tr) =
        Ok (res, mkState rs' es ls vl b tr') ∧
      match first_with_name rs nm (l.*2) with
      | Some r =>
          res = r ∧
          ∃ rd, rs !! r = Some rd ∧
                rs' = <[r:=set_reference_count (reference_count rd + 1) rd]> rs
      | None => res = NULL ∧ rs' = rs
      end.
Proof.
  induction l as [|[e r] l IH]; intros fuel p rs es ls vl b tr Hc Hlive Hnames Hfuel.
  - cbn in Hc. subst p. destruct fuel; cbn; eauto 10.
  - cbn in Hc. destruct Hc as (-> & Hn & ent & He & Hr & Hc). cbn in Hr. subst r.
    destruct (Hlive (reader ent)) as (Hrn & rd & Hrd & Hrc); [cbn; left|].
    destruct fuel as [|fuel]; [cbn in Hfuel; lia|].
    destruct (name rd) as [s|] eqn:Hs;
      [|exfalso; eapply (Hnames (reader ent) rd); [cbn; left|done|done]].
    apply Z.eqb_neq in Hn, Hrn.
    assert (Hup : int_wrap (reference_count rd + 1) = reference_count rd + 1)
      by (apply int_wrap_id; unfold INT_MIN, INT_MAX in *; lia).
    assert (Hgt : (reference_count rd + 1 >? 1) = true)
      by (apply Z.gtb_lt; lia).
    cbn [vreader_get_reader_by_name_loop]. rewrite Hn.
    unfold vreader_list_get_reader, vreader_reference, vreader_free,
      vreader_list_get_next, strcmp_eq0.
    unfold first_with_name. cbn [fmap list_fmap snd find]. rewrite Hrd.
    mrun. rewrite Hup, Hs.
    destruct (decide (s = nm)) as [->|Hne].
    + rewrite !bool_decide_eq_true_2 by done. mrun.
      eexists _, _, _. split; [reflexivity|]. split; [done|].
      exists rd. split; [done|]. by rewrite Hs.
    + rewrite !bool_decide_eq_false_2 by congruence.
      mrun. rewrite insert_insert_eq, <- Hs, (rc_restore rd Hrc).
      rewrite (insert_id rs _ _ Hrd).
      apply IH; [done| | |cbn in Hfuel; lia].
      * intros r' Hr'. apply Hlive. cbn. by right.
      * intros r' rd' Hr'. apply Hnames. cbn. by right.
Qed.

Lemma vreader_get_reader_by_name_loop_fault (nm : string) (l1 : list (ptr * ptr)) :
  ∀ (fuel : nat) (p : ptr) rs es ls vl b tr e r l2 rd,
    chain es p (l1 ++ (e, r) :: l2) ->
    (∀ r', r' ∈ (l1 ++ [(e, r)]).*2 →
       r' ≠ NULL ∧ ∃ rd', rs !! r' = Some rd' ∧ 1 <= reference_count rd' < INT_MAX) ->
    (∀ r' rd', r' ∈ l1.*2 → rs !! r' = Some rd' →
       ∃ s, name rd' = Some s ∧ s ≠ nm) ->
    rs !! r = Some rd ->
    name rd = None ->
    (length l1 < fuel)%nat ->
    vreader_get_reader_by_name_loop fuel (Some nm) p (mkState rs es ls vl b tr) =
      Err NullDeref.
Proof.
  induction l1 as [|[e1 r1] l1 IH];
    intros fuel p rs es ls vl b tr e r l2 rd Hc Hlive Hnames Hrd Hnone Hfuel.
  - cbn in Hc. destruct Hc as (-> & Hn & ent & He & Hr & _). cbn in Hr. subst r.
    destruct (Hlive (reader ent)) as (Hrn & rd' & Hrd' & Hrc); [cbn; left|].
    rewrite Hrd in Hrd'. injection Hrd' as <-.
    destruct fuel as [|fuel]; [lia|].
    apply Z.eqb_neq in Hn, Hrn.
    cbn [vreader_get_reader_by_name_loop]. rewrite Hn.
    unfold vreader_list_get_reader, vreader_reference, strcmp_eq0.
    mrun. by rewrite Hnone.
  - cbn in Hc. destruct Hc as (-> & Hn & ent & He & Hr & Hc). cbn in Hr. subst r1.
    destruct (Hlive (reader ent)) as (Hrn & rd1 & Hrd1 & Hrc); [cbn; left|].
    destruct (Hnames (reader ent) rd1) as (s & Hs & Hne); [cbn; left|done|].
    destruct fuel as [|fuel]; [cbn in Hfuel; lia|].
    apply Z.eqb_neq in Hn, Hrn.
    assert (Hup : int_wrap (reference_count rd1 + 1) = reference_count rd1 + 1)
      by (apply int_wrap_id; unfold INT_MIN, INT_MAX in *; lia).
    assert (Hgt : (reference_count rd1 + 1 >? 1) = true)
      by (apply Z.gtb_lt; lia).
    cbn [vreader_get_reader_by_name_loop]. rewrite Hn.
    unfold vreader_list_get_reader, vreader_reference, vreader_free,
      vreader_list_get_next, strcmp_eq0.
    mrun. rewrite Hup, Hs.
    rewrite !bool_decide_eq_false_2 by congruence.
    mrun. rewrite insert_insert_eq, <- Hs, (rc_restore rd1 Hrc).
    rewrite (insert_id rs _ _ Hrd1).
    eapply IH; [exact Hc| | |exact Hrd|exact Hnone|cbn in Hfuel; lia].
    + intros r' Hr'. apply Hlive. cbn. by right.
    + intros r' rd' Hr'. apply Hnames. cbn. by right.
Qed.

(** C10: lookup by name is total when every registered reader has a name (it
    then returns the first reader with the name asked for, or NULL); but a
    reader created without a name stores an absent name, and as soon as the
    scan reaches such a reader (no earlier reader matching) the comparison
    dereferences the absent name: the call faults instead of skipping the
    entry or returning NULL. *)
Theorem lookup_by_name_needs_names (id_bits : Z) (st : State) (l : list (ptr * ptr))
    (fuel : nat) (nm : string) :
  registry st l ->
  readers_live st l ->
  (length l <= fuel)%nat ->
  ((∀ r rd, r ∈ l.*2 → readers st !! r = Some rd → name rd ≠ None) ->
   ∃ st',
     vreader_get_reader_by_name fuel (Some nm) st =
       Ok (default NULL (first_with_name (readers st) nm (l.*2)), st')) ∧
  (∀ l1 e r l2 rd,
     l = l1 ++ (e, r) :: l2 ->
     readers st !! r = Some rd ->
     name rd = None ->
     (∀ r' rd', r' ∈ l1.*2 → readers st !! r' = Some rd' →
        ∃ s, name rd' = Some s ∧ s ≠ nm) ->
     vreader_get_reader_by_name fuel (Some nm) st = Err NullDeref) ∧
  (∀ private private_free,
     ∃ st',
       vreader_new id_bits None private private_free st = Ok (brk st, st') ∧
       name <$> readers st' !! brk st = Some None).
Proof.
  intros (Hvl & x & Hx & Hc & _ & _) Hlive Hfuel.
  apply Z.eqb_neq in Hvl.
  destruct st as [rs es ls vl b tr]; cbn [lists entries vreader_list readers brk] in *.
  split; [|split].
  - intros Hnames.
    destruct (vreader_get_reader_by_name_loop_run nm l fuel (head x) rs es ls vl b
                (tr ++ [AMutexLock ListMutex]) Hc Hlive Hnames Hfuel)
      as (res & rs' & tr' & Hrun & Hres).
    unfold vreader_get_reader_by_name, vreader_list_get_first.
    mrun. rewrite Hrun. mrun.
    destruct (first_with_name rs nm l.*2); destruct Hres as [-> _]; eauto.
  - intros l1 e r l2 rd -> Hrd Hnone Hnames.
    unfold vreader_get_reader_by_name, vreader_list_get_first.
    mrun.
    erewrite vreader_get_reader_by_name_loop_fault; eauto.
    + intros r' Hr'. apply Hlive. rewrite !fmap_app in Hr' |- *.
      apply elem_of_app in Hr' as [Hr'|Hr']; apply elem_of_app; [by left|right].
      cbn in Hr' |- *. apply list_elem_of_singleton in Hr' as ->. by left.
    + rewrite length_app in Hfuel. cbn in Hfuel. lia.
  - intros p f. unfold vreader_new. mrun.
    eexists. split; [reflexivity|]. mred. by rewrite lookup_insert_eq.
Qed.

(** *** Unlinking an entry *)

(** Unlinking the last entry [e] of a list with more than one entry: the
    list's tail moves to the predecessor [p] and [e]'s own links are cleared,
    but [p] itself is not written: its [next] keeps pointing to [e]. *)
Lemma vreader_dequeue_last (st : State) (lp e p : ptr) (x : VReaderList)
    (ent : VReaderListEntry) :
  lp ≠ NULL ->
  lists st !! lp = Some x ->
  head x ≠ NULL ->
  e ≠ NULL ->
  entries st !! e = Some ent ->
  next ent = NULL ->
  prev ent = p ->
  p ≠ NULL ->
  vreader_dequeue lp e st =
    Ok (tt, add_trace
              [AListStore lp {| head := head x; tail := p |};
               AEntryStore e {| next := NULL; prev := NULL; reader := reader ent |};
               AEntryStore e {| next := NULL; prev := NULL; reader := reader ent |}]
              (set_lists (insert lp {| head := head x; tail := p |})
                 (set_entries
                    (insert e {| next := NULL; prev := NULL; reader := reader ent |})
                    st))).
Proof.
  intros Hlp Hx Hh He Hent Hnext Hprev Hp.
  destruct ent as [en ep er]; cbn [next prev reader] in *. subst en ep.
  apply Z.eqb_neq in Hlp, Hh, He, Hp.
  destruct st as [rs es ls vl b tr]; cbn [lists entries] in *.
  unfold vreader_dequeue. mrun.
  rewrite !insert_insert_eq, <- !app_assoc. reflexivity.
Qed.

(** Unlinking an entry [e] that has both a successor [n] and a predecessor
    [p]: the two neighbours are linked to each other. *)
Lemma vreader_dequeue_middle (st : State) (lp e p n : ptr) (x : VReaderList)
    (ent pe ne : VReaderListEntry) :
  lp ≠ NULL ->
  lists st !! lp = Some x ->
  head x ≠ NULL ->
  tail x ≠ NULL ->
  e ≠ NULL -> p ≠ NULL -> n ≠ NULL ->
  p ≠ e -> n ≠ e -> p ≠ n ->
  entries st !! e = Some ent ->
  entries st !! p = Some pe ->
  entries st !! n = Some ne ->
  next ent = n ->
  prev ent = p ->
  vreader_dequeue lp e st =
    Ok (tt, add_trace
              [AEntryStore p {| next := n; prev := prev pe; reader := reader pe |};
               AEntryStore n {| next := next ne; prev := p; reader := reader ne |};
               AEntryStore e {| next := n; prev := NULL; reader := reader ent |};
               AEntryStore e {| next := NULL; prev := NULL; reader := reader ent |}]
              (set_entries
                 (fun es =>
                    <[e:={| next := NULL; prev := NULL; reader := reader ent |}]>
                      (<[n:={| next := next ne; prev := p; reader := reader ne |}]>
                         (<[p:={| next := n; prev := prev pe; reader := reader pe |}]>
                            es)))
                 st)).
Proof.
  intros Hlp Hx Hh Ht He Hp Hn Hpe Hne Hpn Hent Hpent Hnent Hnext Hprev.
  destruct ent as [en ep er]; cbn [next prev reader] in *. subst en ep.
  apply Z.eqb_neq in Hlp, Hh, Ht, He, Hp, Hn.
  destruct st as [rs es ls vl b tr]; cbn [lists entries] in *.
  unfold vreader_dequeue. mrun.
  rewrite !insert_insert_eq, <- !app_assoc. reflexivity.
Qed.

(** The scan of [vreader_remove_reader] stops at the first entry that
    references the reader, and only reads. *)
Lemma vreader_remove_reader_loop_run (r e : ptr) (l2 : list (ptr * ptr))
    (l1 : list (ptr * ptr)) :
  ∀ (fuel : nat) (p : ptr) (st : State),
    chain (entries st) p (l1 ++ (e, r) :: l2) ->
    r ∉ l1.*2 ->
    (length l1 < fuel)%nat ->
    vreader_remove_reader_loop fuel r p st = Ok (e, st).
Proof.
  induction l1 as [|[a ra] l1 IH]; intros fuel p st Hc Hnot Hfuel.
  - cbn in Hc. destruct Hc as (-> & Hn & ent & He & Hr & _). cbn in Hr. subst r.
    destruct fuel as [|fuel]; [lia|]. apply Z.eqb_neq in Hn.
    destruct st as [rs es ls vl b tr]; cbn [entries] in *.
    cbn [vreader_remove_reader_loop]. mrun. reflexivity.
  - cbn in Hc. destruct Hc as (-> & Hn & ent & He & Hr & Hc). cbn in Hr. subst ra.
    cbn in Hnot. apply not_elem_of_cons in Hnot as [Hne Hnot].
    destruct fuel as [|fuel]; [cbn in Hfuel; lia|]. apply Z.eqb_neq in Hn.
    assert (Hra : (reader ent =? r) = false) by (apply Z.eqb_neq; congruence).
    destruct st as [rs es ls vl b tr]; cbn [entries] in *.
    cbn [vreader_remove_reader_loop]. unfold vreader_list_get_next. mrun.
    apply IH; [done|done|cbn in Hfuel; lia].
Qed.

Lemma chain_app_inv es p l1 l2 :
  chain es p (l1 ++ l2) ->
  (l1 = [] ∧ chain es p l2) ∨
  (∃ t et, last (l1.*1) = Some t ∧ es !! t = Some et ∧ chain es (next et) l2).
Proof.
  revert p. induction l1 as [|[a ra] l1 IH]; intros p Hc; [by left|right].
  cbn in Hc. destruct Hc as (-> & Hn & ent & He & Hr & Hc).
  destruct (IH _ Hc) as [[-> Hc2] | (t & et & Hlast & Het & Hc2)].
  - exists a, ent. done.
  - exists t, et. split; [|done].
    destruct l1; [discriminate|]. exact Hlast.
Qed.

(** Once its last entry [e] is freed while the one before still points to
    it, no list of entries describes the chain any more. *)
Lemma chain_broken es h l p rp e r :
  chain es h (l ++ [(p, rp); (e, r)]) ->
  NoDup ((l ++ [(p, rp); (e, r)]).*1) ->
  ∀ l', ¬ chain (delete e es) h l'.
Proof.
  revert h. induction l as [|[a ra] l IH]; intros h Hc Hnd l' Hc'.
  - cbn in Hc, Hnd. destruct Hc as (-> & Hn & pe & Hpe & _ & Hnx & Hne & _).
    apply NoDup_cons in Hnd as [Hpe' _]. rewrite Hnx in Hne.
    assert (e ≠ p) by (intros ->; apply Hpe'; left).
    destruct l' as [|[a' ra'] l']; [done|].
    cbn in Hc'. destruct Hc' as (_ & _ & pe' & Hpe2 & _ & Hc').
    rewrite lookup_delete_ne in Hpe2 by done.
    rewrite Hpe in Hpe2. injection Hpe2 as <-. rewrite Hnx in Hc'.
    destruct l' as [|[a'' ra''] l']; [by cbn in Hc'|].
    cbn in Hc'. destruct Hc' as (_ & _ & x & Hx & _).
    by rewrite lookup_delete_eq in Hx.
  - cbn in Hc, Hnd. destruct Hc as (-> & Hn & ent & He & _ & Hc).
    apply NoDup_cons in Hnd as [Ha Hnd].
    assert (a ≠ e).
    { intros ->. apply Ha. rewrite fmap_app. apply elem_of_app. right.
      cbn. right. left. }
    destruct l' as [|[a' ra'] l']; [done|].
    cbn in Hc'. destruct Hc' as (_ & _ & ent' & He' & _ & Hc').
    rewrite lookup_delete_ne in He' by done.
    rewrite He in He'. injection He' as <-.
    by eapply IH.
Qed.

(** Removing the reader registered last, from a registry that holds at
    least one more entry: the call returns OK, the entry is freed, the entry
    before it still points to the freed entry, and what is left is not a
    well-formed registry. *)
Lemma vreader_remove_reader_last (st : State) (l : list (ptr * ptr))
    (p rp e r : ptr) (ent : VReaderListEntry) (rd : VReader) (fuel : nat) :
  registry st (l ++ [(p, rp); (e, r)]) ->
  r ∉ (l ++ [(p, rp)]).*2 ->
  entries st !! e = Some ent ->
  prev ent = p ->
  readers st !! r = Some rd ->
  r ≠ NULL ->
  1 < reference_count rd <= INT_MAX ->
  (length l + 2 <= fuel)%nat ->
  ∃ st' pe,
    vreader_remove_reader fuel r st = Ok (VREADER_OK, st') ∧
    entries st' = delete e (entries st) ∧
    entries st' !! p = Some pe ∧ next pe = e ∧
    ∀ l', ¬ registry st' l'.
Proof.
  intros (Hvl & x & Hx & Hc & Htl & Hnd) Hnot Hent Hprev Hrd Hrn Hrc Hfuel.
  destruct st as [rs es ls vl b tr];
    cbn [lists entries vreader_list readers] in *.
  assert (Hc' : chain es (head x) ((l ++ [(p, rp)]) ++ (e, r) :: []))
    by (by rewrite <- app_assoc).
  destruct (chain_app_inv _ _ _ _ Hc') as [[Hnil _] | (t & pe & Hlast & Hpe & Hce)].
  { by destruct l. }
  rewrite fmap_app in Hlast. cbn in Hlast. rewrite last_snoc in Hlast.
  injection Hlast as <-.
  cbn in Hce. destruct Hce as (Hnext & He & ent' & Hent' & Hr & Hend).
  rewrite Hnext in He, Hent'.
  rewrite Hent in Hent'. injection Hent' as <-. cbn in Hr, Hend.
  assert (Hp : p ≠ NULL).
  { eapply (chain_allocated _ _ _ p Hc). rewrite fmap_app.
    apply elem_of_app. right. left. }
  assert (Hh : head x ≠ NULL).
  { destruct l as [|[a ra] l]; cbn in Hc; tauto. }
  assert (Hdn : int_wrap (reference_count rd - 1) = reference_count rd - 1)
    by (apply int_wrap_id; unfold INT_MIN, INT_MAX in *; lia).
  assert (Hgt : (reference_count rd >? 1) = true) by (apply Z.gtb_lt; lia).
  assert (Hpe' : p ≠ e).
  { intros ->. rewrite fmap_app in Hnd. apply NoDup_app in Hnd as (_ & _ & Hnd).
    cbn in Hnd. apply NoDup_cons in Hnd as [Hin _]. apply Hin. left. }
  set (st1 := mkState rs es ls vl b (tr ++ [AMutexLock ListMutex])).
  assert (Hloop : vreader_remove_reader_loop fuel r (head x) st1 = Ok (e, st1)).
  { apply (vreader_remove_reader_loop_run r e [] (l ++ [(p, rp)])); [done|done|].
    rewrite length_app. cbn. lia. }
  pose proof (vreader_dequeue_last st1 vl e p x ent
                Hvl Hx Hh He Hent Hend Hprev Hp) as Hdq.
  subst st1.
  apply Z.eqb_neq in Hvl, Hrn. pose proof He as He'. apply Z.eqb_neq in He'.
  unfold vreader_remove_reader, vreader_list_get_first, vreader_list_entry_delete,
    vreader_free.
  mrun. rewrite Hloop. mrun. rewrite Hdq. mrun. rewrite Hr. mrun. rewrite Hdn.
  eexists _, pe. split; [reflexivity|]. mred.
  rewrite delete_insert_eq.
  split; [done|]. split; [by rewrite lookup_delete_ne|]. split; [done|].
  intros l' (_ & x' & Hx' & Hchain & _). cbn [lists entries vreader_list] in *.
  rewrite lookup_insert_eq in Hx'. injection Hx' as <-. cbn [head] in Hchain.
  by eapply chain_broken.
Qed.

(** *** Adding a reader *)

Lemma vreader_add_reader_run (st : State) (l : list (ptr * ptr)) (r : ptr)
    (rd : VReader) :
  registry st l ->
  r ≠ NULL ->
  readers st !! r = Some rd ->
  1 <= reference_count rd < INT_MAX ->
  brk st ≠ NULL ->
  entries st !! brk st = None ->
  ∃ st_m w lx,
    vreader_add_reader r st =
      Ok (VREADER_OK,
          add_trace [AEvent (mkVEvent VEVENT_READER_INSERT r NULL)] st_m) ∧
    registry st_m (l ++ [(brk st, r)]) ∧
    readers st_m =
      <[r:=set_reference_count (reference_count rd + 1) rd]> (readers st) ∧
    brk st_m = brk st + 1 ∧
    trace st_m =
      trace st ++ [AMutexLock (ReaderLock r); AMutexUnlock (ReaderLock r);
                   AMutexLock ListMutex]
               ++ w
               ++ [AListStore (vreader_list st) lx; AMutexUnlock ListMutex] ∧
    forallb is_link_store w = true ∧
    tail lx = brk st ∧
    lists st_m !! vreader_list st = Some lx.
Proof.
  intros (Hvl & x & Hx & Hc & Htl & Hnd) Hn Hr Hrc Hb Hfresh.
  pose proof (chain_fresh _ _ _ _ Hc Hfresh) as Hnew.
  assert (Hup : int_wrap (reference_count rd + 1) = reference_count rd + 1)
    by (apply int_wrap_id; unfold INT_MIN, INT_MAX in *; lia).
  assert (Hnd' : NoDup ((l ++ [(brk st, r)]).*1)).
  { rewrite fmap_app. apply NoDup_app. split; [done|]. split.
    - intros e He Hin. cbn in Hin. apply list_elem_of_singleton in Hin as ->. done.
    - cbn. apply NoDup_singleton. }
  assert (Hlast' : default NULL (last ((l ++ [(brk st, r)]).*1)) = brk st).
  { rewrite fmap_app. cbn. by rewrite last_snoc. }
  destruct st as [rs es ls vl b tr];
    cbn [lists entries vreader_list readers brk trace] in *.
  pose proof Hvl as Hvl'. pose proof Hb as Hb'.
  apply Z.eqb_neq in Hvl, Hn, Hb.
  unfold vreader_add_reader, vreader_list_entry_new, vreader_reference, vreader_queue.
  destruct (last (l.*1)) as [t|] eqn:Hlast.
  - (* a non-empty registry: the new entry goes behind the tail [t] *)
    cbn in Htl.
    destruct (chain_allocated _ _ _ t Hc) as [Ht [et Het]];
      [by apply last_Some_elem_of|].
    assert (Hbt : b ≠ t) by congruence.
    assert (Hh : (head x =? NULL) = false).
    { destruct l as [|[e re] l]; [discriminate|].
      cbn in Hc. apply Z.eqb_neq. tauto. }
    apply Z.eqb_neq in Ht.
    mrun. rewrite Hup, Htl. mrun. rewrite !insert_insert_eq.
    eexists (mkState _ _ _ _ _ _),
      [AEntryStore b {| next := NULL; prev := NULL; reader := r |};
       AEntryStore b {| next := NULL; prev := t; reader := r |};
       AEntryStore t {| next := b; prev := prev et; reader := reader et |}],
      {| head := head x; tail := b |}.
    split; [mred; reflexivity|]. mred.
    split; [|split; [done|split; [done|split; [by rewrite <- !app_assoc|]]]];
      [|split; [done|split; [done|by rewrite lookup_insert_eq]]].
    unfold registry; mred.
    split; [done|]. eexists. rewrite lookup_insert_eq.
    split; [done|]. cbn [head tail].
    split; [|done].
    by apply chain_snoc.
  - (* an empty registry: the new entry becomes head and tail *)
    assert (l = []) as ->.
    { destruct l as [|a l] using rev_ind; [done|].
      rewrite fmap_app in Hlast. cbn in Hlast. by rewrite last_snoc in Hlast. }
    cbn in Hc, Htl.
    mrun. rewrite Hup, Hc. mrun. rewrite !insert_insert_eq.
    eexists (mkState _ _ _ _ _ _),
      [AEntryStore b {| next := NULL; prev := NULL; reader := r |};
       AEntryStore b {| next := NULL; prev := tail x; reader := r |};
       AListStore vl {| head := b; tail := tail x |}],
      {| head := b; tail := b |}.
    split; [mred; reflexivity|]. mred.
    split; [|split; [done|split; [done|split; [by rewrite <- !app_assoc|]]]];
      [|split; [done|split; [done|by rewrite lookup_insert_eq]]].
    unfold registry; mred.
    split; [done|]. eexists. rewrite lookup_insert_eq.
    split; [done|]. cbn [head tail].
    split; [|done].
    cbn. split; [done|]. split; [done|].
    eexists. rewrite lookup_insert_eq. done.
Qed.

(** Writes to links are not mutex operations and queue no event. *)
Lemma link_stores_events (w : list Action) :
  forallb is_link_store w = true -> events_of w = [].
Proof.
  induction w as [|a w IH]; intros Hw; [done|].
  cbn in Hw. apply andb_true_iff in Hw as [Ha Hw].
  destruct a; try discriminate; cbn; auto.
Qed.

Lemma link_stores_held (h : list Mutex) (w t : list Action) :
  forallb is_link_store w = true -> held_after h (w ++ t) = held_after h t.
Proof.
  induction w as [|a w IH]; intros Hw; [done|].
  cbn in Hw. apply andb_true_iff in Hw as [Ha Hw].
  destruct a; try discriminate; cbn; auto.
Qed.

Lemma link_stores_unlocked (h : list Mutex) (w t : list Action) :
  forallb is_link_store w = true ->
  events_unlocked h (w ++ t) = events_unlocked h t.
Proof.
  induction w as [|a w IH]; intros Hw; [done|].
  cbn in Hw. apply andb_true_iff in Hw as [Ha Hw].
  destruct a; try discriminate; cbn; auto.
Qed.

(** C9: registry add and card insertion queue their event as their last
    action, after the mutation and after the mutex that protected it has been
    released.  In [vreader_add_reader] every write to a link of the registry
    is made between the lock and the unlock of the list mutex, the last of
    them setting the list's tail to the new entry, and the event follows the
    unlock; in [vreader_insert_card] the new card is stored under the
    reader's lock, the lock is released, and only two reads of the card come
    between the unlock and the event.  No mutex is held when the event is
    queued; the state at that moment already shows the mutation (the
    registry ends with the new entry; the reader holds the new card), and
    queueing the event changes nothing but the event log, so a query made
    right after sees the new state. *)
Theorem events_follow_unlock (st : State) (l : list (ptr * ptr)) (r c : ptr)
    (rd : VReader) :
  registry st l ->
  r ≠ NULL ->
  readers st !! r = Some rd ->
  1 <= reference_count rd < INT_MAX ->
  brk st ≠ NULL ->
  entries st !! brk st = None ->
  (∃ st_m t w lx,
     vreader_add_reader r st =
       Ok (VREADER_OK,
           add_trace [AEvent (mkVEvent VEVENT_READER_INSERT r NULL)] st_m) ∧
     trace st_m = trace st ++ t ∧
     t = [AMutexLock (ReaderLock r); AMutexUnlock (ReaderLock r);
          AMutexLock ListMutex]
         ++ w ++ [AListStore (vreader_list st) lx; AMutexUnlock ListMutex] ∧
     forallb is_link_store w = true ∧
     tail lx = brk st ∧
     lists st_m !! vreader_list st = Some lx ∧
     In (AMutexUnlock ListMutex) t ∧
     events_of t = [] ∧
     held_after [] t = [] ∧
     events_unlocked [] (t ++ [AEvent (mkVEvent VEVENT_READER_INSERT r NULL)])
       = true ∧
     registry st_m (l ++ [(brk st, r)]) ∧
     registry (add_trace [AEvent (mkVEvent VEVENT_READER_INSERT r NULL)] st_m)
       (l ++ [(brk st, r)])) ∧
  (∃ st_m t t1 q,
     vreader_insert_card r c st =
       Ok (VREADER_OK, add_trace [AEvent (card_event r c)] st_m) ∧
     trace st_m = trace st ++ t ∧
     t = t1 ++ [ACardStore r c; AMutexUnlock (ReaderLock r);
                ACardLoad r c; ACardLoad r c] ∧
     held_after [] t1 = [ReaderLock r] ∧
     In (AMutexUnlock (ReaderLock r)) t ∧
     events_of t = [] ∧
     held_after [] t = [] ∧
     events_unlocked [] (t ++ [AEvent (card_event r c)]) = true ∧
     readers st_m !! r = Some (set_card c rd) ∧
     vreader_card_is_present r (add_trace [AEvent (card_event r c)] st_m) =
       Ok (if c =? NULL then VREADER_NO_CARD else VREADER_OK, q)).
Proof.
  intros Hreg Hn Hr Hrc Hb Hfresh. split.
  - destruct (vreader_add_reader_run st l r rd Hreg Hn Hr Hrc Hb Hfresh)
      as (st_m & w & lx & Hrun & Hreg' & _ & _ & Htr & Hw & Htl & Hlx).
    eexists st_m, _, w, lx. split; [exact Hrun|]. split; [exact Htr|].
    split; [reflexivity|]. split; [exact Hw|]. split; [exact Htl|].
    split; [exact Hlx|].
    split.
    { cbn. do 3 right. apply in_or_app. right. cbn. tauto. }
    split.
    { rewrite !events_of_app, (link_stores_events w Hw). reflexivity. }
    split.
    { cbn [app held_after]. rewrite link_stores_held by exact Hw.
      cbn. by rewrite !decide_True. }
    split.
    { rewrite <- !app_assoc. cbn [app events_unlocked].
      rewrite link_stores_unlocked by exact Hw.
      cbn. by rewrite !decide_True. }
    split; [exact Hreg'|].
    destruct st_m. exact Hreg'.
  - pose proof (vreader_insert_card_run st r c rd Hn Hr) as Hrun.
    set (st_m := add_trace (insert_card_actions _ _ _ ++ _) _) in Hrun.
    assert (Hrm : readers st_m !! r = Some (set_card c rd)).
    { subst st_m. destruct st. mred. apply lookup_insert_eq. }
    assert (Hre : readers (add_trace [AEvent (card_event r c)] st_m) !! r
                  = Some (set_card c rd)) by (destruct st_m; exact Hrm).
    destruct (vreader_card_is_present_run _ r _ Hn Hre) as (q & Hq & _).
    exists st_m, (insert_card_actions r (card rd) c ++ [ACardLoad r c; ACardLoad r c]),
      ([AMutexLock (ReaderLock r); ACardLoad r (card rd)]
         ++ (if card rd =? NULL then []
             else [ACardLoad r (card rd); AVCardFree (card rd); ACardStore r NULL])
         ++ [AVCardReference c]), q.
    split; [exact Hrun|].
    split; [subst st_m; by destruct st|].
    unfold insert_card_actions.
    split; [by destruct (card rd =? NULL)|].
    split; [by destruct (card rd =? NULL)|].
    split; [destruct (card rd =? NULL); cbn; tauto|].
    split; [by destruct (card rd =? NULL)|].
    split; [destruct (card rd =? NULL); cbn; by rewrite decide_True|].
    split; [destruct (card rd =? NULL); cbn; by rewrite decide_True|].
    split; [exact Hrm|].
    exact Hq.
Qed.

End Registry.

Section Transient_references.

Context `{CardLayer}.

(** Transmit keeps to the discipline: the card is handed to the processor
    only while the reference taken under the lock is held. *)
Lemma transmit_holds_reference (st : State) (r : ptr) (rd : VReader)
    (send recv : list byte) (slen c : Z) (resp : VCardResponse) :
  r ≠ NULL ->
  readers st !! r = Some rd ->
  card rd ≠ NULL ->
  0 <= c <= Z.of_nat (length recv) ->
  b_total_len resp = Z.of_nat (length (b_data resp)) ->
  ((card_apdu_new send slen).1 ≠ NULL ∧
   card_process_apdu (card rd) (card_apdu_new send slen).1 = (VCARD_DONE, Some resp))
  ∨ ((card_apdu_new send slen).1 = NULL ∧
     card_make_response (card_apdu_new send slen).2 = resp) ->
  ∃ out st' t,
    vreader_xfr_bytes r send slen recv c st = Ok (out, st') ∧
    trace st' = trace st ++ t ∧
    reference_discipline [] [] t = true.
Proof.
  intros Hn Hr Hc Hcap Hlen Hresp.
  pose proof (vreader_xfr_bytes_run st r rd send recv slen c resp
                Hn Hr Hc Hcap Hlen Hresp) as Hrun.
  cbv zeta in Hrun.
  eexists _, _, _. split; [exact Hrun|]. split; [by destruct st|].
  assert (Hown : card_use_ok [] [card rd] (card rd) = true).
  { unfold card_use_ok. rewrite bool_decide_eq_true_2 by (apply list_elem_of_here).
    apply orb_true_r. }
  destruct ((card_apdu_new send slen).1 =? NULL);
    cbn; rewrite ?decide_True by done; cbn; by rewrite ?Hown.
Qed.

End Transient_references.

(** The event primitive does not: it reads the stored card with the lock
    free and hands it to the event queue with no reference of its own. *)
Lemma card_event_without_reference (st : State) (r : ptr) (rd : VReader) :
  r ≠ NULL ->
  readers st !! r = Some rd ->
  card rd ≠ NULL ->
  ∃ st' t,
    vreader_queue_card_event r st = Ok (tt, st') ∧
    trace st' = trace st ++ t ∧
    card_refs t = [] ∧
    held_after [] t = [] ∧
    events_of t = [mkVEvent VEVENT_CARD_INSERT r (card rd)] ∧
    reference_discipline [] [] t = false.
Proof.
  intros Hn Hr Hc. apply Z.eqb_neq in Hc.
  eexists _, _. split; [exact (vreader_queue_card_event_run st r rd Hn Hr)|].
  split; [by destruct st|]. unfold card_event. rewrite Hc.
  do 3 (split; [reflexivity|]).
  cbn. unfold card_use_ok. cbn. rewrite Hc.
  by rewrite bool_decide_eq_false_2 by (apply not_elem_of_nil).
Qed.

(** ** The code on the scenarios *)

(** Registration appends: the snapshot of two registered readers lists them
    in the order they were added. *)
Example snapshot_in_insertion_order :
  ∃ l st,
    (register_two;; vreader_get_reader_list 8) empty_state = Ok (l, st) ∧
    list_readers st 8 l = Some [2; 3] ∧
    list_readers st 8 (vreader_list st) = Some [2; 3].
Proof. eexists _, _. split; [vm_compute; reflexivity|]. by vm_compute. Qed.

(** Removing a middle entry unlinks it: the snapshot taken afterwards lists
    the first and the third reader. *)
Example middle_removal_unlinks :
  ∃ l st,
    (register_three_remove_middle 8;; vreader_get_reader_list 8) empty_state
      = Ok (l, st) ∧
    list_readers st 8 l = Some [2; 4] ∧
    list_readers st 8 (vreader_list st) = Some [2; 4].
Proof. eexists _, _. split; [vm_compute; reflexivity|]. by vm_compute. Qed.

(** C1 (fails on the code): after registering A then B and removing B, the
    entry of B is freed but the entry of A still points to it; the next
    snapshot, and the next lookup that does not stop at A, walk into the
    freed entry instead of seeing the registry [A]. *)
Theorem remove_last_leaves_dangling_link :
  ∃ st,
    (p ← register_two; vreader_remove_reader 8 p.2) empty_state
      = Ok (VREADER_OK, st) ∧
    lists st !! vreader_list st = Some {| head := 4; tail := 4 |} ∧
    entries st !! 4 = Some {| next := 5; prev := NULL; reader := 2 |} ∧
    entries st !! 5 = None ∧
    list_readers st 8 (vreader_list st) = None ∧
    vreader_get_reader_list 8 st = Err (InvalidPointer 5) ∧
    vreader_get_reader_by_id 32 8 7 st = Err (InvalidPointer 5) ∧
    vreader_get_reader_by_name 8 (Some "B"%string) st = Err (InvalidPointer 5).
Proof. eexists. split; [vm_compute; reflexivity|]. by vm_compute. Qed.

(** C2 (fails on the code): on a reader holding card 9, the card-state event
    primitive reads the stored card twice with the reader's lock free, takes
    no reference, and passes the card to the event queue; power-on on the
    same reader uses the card only under a reference taken under the lock. *)
Theorem card_event_uses_stored_card :
  ∃ st st' q,
    reader_with_card empty_state = Ok (2, st) ∧
    vreader_queue_card_event 2 st = Ok (tt, st') ∧
    drop (length (trace st)) (trace st') =
      [ACardLoad 2 9; ACardLoad 2 9; AEvent (mkVEvent VEVENT_CARD_INSERT 2 9)] ∧
    reference_discipline [] [] (drop (length (trace st)) (trace st')) = false ∧
    @vreader_power_on demo_card_layer 2 (Some [x00; x00]) (Some 2) st
      = Ok ((VREADER_OK, Some [x00; x00], Some 2), q) ∧
    drop (length (trace st)) (trace q) =
      [AMutexLock (ReaderLock 2); ACardLoad 2 9; AVCardReference 9;
       AMutexUnlock (ReaderLock 2); AVCardReset 9 VCARD_POWER_ON; AVCardGetAtr 9;
       AVCardFree 9] ∧
    reference_discipline [] [] (drop (length (trace st)) (trace q)) = true.
Proof.
  eexists _, _, _. split; [vm_compute; reflexivity|].
  split; [vm_compute; reflexivity|].
  split; [by vm_compute|]. split; [by vm_compute|].
  split; [vm_compute; reflexivity|]. by vm_compute.
Qed.

(** ** The theorems at concrete inputs *)

Lemma two_registered_registry : registry two_registered [(4, 2); (5, 3)].
Proof.
  split; [discriminate|].
  exists {| head := 4; tail := 5 |}.
  split; [reflexivity|]. split.
  - cbn. split; [reflexivity|]. split; [discriminate|].
    eexists. split; [reflexivity|]. split; [reflexivity|].
    cbn. split; [reflexivity|]. split; [discriminate|].
    eexists. split; [reflexivity|]. split; reflexivity.
  - split; [reflexivity|]. cbn.
    apply NoDup_cons. split; [|apply NoDup_singleton].
    intros Hin. apply list_elem_of_singleton in Hin. discriminate.
Qed.

Lemma two_registered_live : readers_live two_registered [(4, 2); (5, 3)].
Proof.
  intros r Hr. cbn in Hr.
  apply elem_of_cons in Hr as [->|Hr];
    [|apply list_elem_of_singleton in Hr as ->];
    (split; [discriminate|]); eexists; (split; [reflexivity|]);
    unfold INT_MAX; cbn; lia.
Qed.

Lemma reference_counting_witness :
  vreader_reference 2 (one_reader 9) =
    Ok (2, add_trace [AMutexLock (ReaderLock 2); AMutexUnlock (ReaderLock 2)]
             (set_readers
                (insert 2 (mkVReader 2 9 (Some "A"%string) 7 40 50)) (one_reader 9))) ∧
  ∃ st' t,
    vreader_free 2 (one_reader 9) = Ok (tt, st') ∧
    readers st' = delete 2 (readers (one_reader 9)) ∧
    trace st' = t ∧
    card_frees t = [9] ∧ name_frees t = [2] ∧ private_free_calls t = [(50, 40)].
Proof.
  assert (H1 : 2 ≠ NULL) by discriminate.
  assert (H2 : readers (one_reader 9) !! 2
               = Some (mkVReader 1 9 (Some "A"%string) 7 40 50)) by reflexivity.
  assert (H3 : 1 <= 1 < INT_MAX) by (unfold INT_MAX; lia).
  destruct (reference_counting (one_reader 9) 2 _ H1 H2 H3)
    as (_ & Href & _ & _ & Hfree).
  split; [exact Href|].
  destruct (Hfree eq_refl) as (st' & t & Hrun & Hrs & _ & _ & Htr & Hc & Hnm & Hp).
  exists st', t.
  split; [exact Hrun|]. split; [exact Hrs|]. split; [exact Htr|].
  split; [exact Hc|]. split; [exact Hnm|exact Hp].
Defined.

Lemma transmit_truncation_witness :
  ∃ out st',
    @vreader_xfr_bytes demo_card_layer 2 [x00; xa4; x04; x00] 4 [x00; x00; x00] 3
      (one_reader 9) = Ok ((VREADER_OK, out, 3), st') ∧
    take 3 out = [x01; x02; x03].
Proof.
  assert (H1 : 2 ≠ NULL) by discriminate.
  assert (H2 : readers (one_reader 9) !! 2
               = Some (mkVReader 1 9 (Some "A"%string) 7 40 50)) by reflexivity.
  assert (H3 : card (mkVReader 1 9 (Some "A"%string) 7 40 50) ≠ NULL)
    by discriminate.
  assert (H4 : 0 <= 3 <= Z.of_nat (length [x00; x00; x00])) by (cbn; lia).
  assert (H5 : (@card_apdu_new demo_card_layer [x00; xa4; x04; x00] 4).1 ≠ NULL)
    by (cbn; discriminate).
  assert (H6 : @card_process_apdu demo_card_layer 9
                 (@card_apdu_new demo_card_layer [x00; xa4; x04; x00] 4).1
               = (VCARD_DONE,
                  Some {| b_data := [x01; x02; x03; x90; x00]; b_total_len := 5 |}))
    by reflexivity.
  destruct (@transmit_truncation demo_card_layer (one_reader 9) 2 _
              [x00; xa4; x04; x00] [x00; x00; x00] 4 3
              {| b_data := [x01; x02; x03; x90; x00]; b_total_len := 5 |}
              H1 H2 H3 H4 eq_refl (or_introl (conj H5 H6)))
    as (out & st' & t & Hrun & Htake & _).
  exists out, st'. split; [exact Hrun|exact Htake].
Defined.

Lemma transmit_malformed_command_witness :
  ∃ st',
    @vreader_xfr_bytes demo_card_layer 2 [x00; xa4] 2 [x00] 1 (one_reader 9)
      = Ok ((VREADER_OK, [x67], 1), st').
Proof.
  assert (H1 : 2 ≠ NULL) by discriminate.
  assert (H2 : readers (one_reader 9) !! 2
               = Some (mkVReader 1 9 (Some "A"%string) 7 40 50)) by reflexivity.
  assert (H3 : card (mkVReader 1 9 (Some "A"%string) 7 40 50) ≠ NULL)
    by discriminate.
  assert (H4 : 0 <= 1 <= Z.of_nat (length [x00])) by (cbn; lia).
  assert (H5 : (@card_apdu_new demo_card_layer [x00; xa4] 2).1 = NULL)
    by reflexivity.
  eexists.
  exact (@transmit_malformed_command demo_card_layer (one_reader 9) 2 _
           [x00; xa4] [x00] 2 1 H1 H2 H3 H4 H5 eq_refl).
Defined.

Lemma no_card_outputs_untouched_witness :
  ∃ st',
    @vreader_power_on demo_card_layer 2 (Some [x3b; x00]) (Some 2) (one_reader NULL)
      = Ok ((VREADER_NO_CARD, Some [x3b; x00], Some 2), st') ∧
    @vreader_xfr_bytes demo_card_layer 2 [x00; xa4; x04; x00] 4 [xff; xff] 2
      (one_reader NULL) = Ok ((VREADER_NO_CARD, [xff; xff], 2), st').
Proof.
  assert (H1 : 2 ≠ NULL) by discriminate.
  assert (H2 : readers (one_reader NULL) !! 2
               = Some (mkVReader 1 NULL (Some "A"%string) 7 40 50)) by reflexivity.
  eexists.
  exact (@no_card_outputs_untouched demo_card_layer (one_reader NULL) 2 _
           (Some [x3b; x00]) (Some 2) [x00; xa4; x04; x00] [xff; xff] 4 2
           H1 H2 eq_refl).
Defined.

Lemma insert_absent_card_twice_witness :
  ∃ st1 st2,
    vreader_insert_card 2 NULL (one_reader 9) = Ok (VREADER_OK, st1) ∧
    vreader_insert_card 2 NULL st1 = Ok (VREADER_OK, st2) ∧
    events_of (trace st2) =
      [mkVEvent VEVENT_CARD_REMOVE 2 NULL; mkVEvent VEVENT_CARD_REMOVE 2 NULL] ∧
    readers st2 = readers st1.
Proof.
  assert (H1 : 2 ≠ NULL) by discriminate.
  assert (H2 : readers (one_reader 9) !! 2
               = Some (mkVReader 1 9 (Some "A"%string) 7 40 50)) by reflexivity.
  destruct (insert_absent_card_twice (one_reader 9) 2 _ H1 H2)
    as (st1 & st2 & q1 & q2 & R1 & R2 & He1 & He2 & _ & _ & _ & _ & Hrs & _).
  exists st1, st2. split; [exact R1|]. split; [exact R2|].
  split; [|exact Hrs].
  rewrite He2, He1. reflexivity.
Defined.

Lemma lookup_by_id_first_match_witness :
  ∃ st',
    vreader_get_reader_by_id 32 2 8 two_registered = Ok (3, st') ∧
    readers st' = <[3:=mkVReader 3 NULL None 8 NULL NULL]> (readers two_registered).
Proof.
  assert (Hfuel : (length [(4, 2); (5, 3)] <= 2)%nat) by (cbn; lia).
  destruct (lookup_by_id_first_match 32 two_registered [(4, 2); (5, 3)] 2 8
              two_registered_registry two_registered_live Hfuel)
    as [_ Hscan].
  assert (Hne : 8 ≠ vreader_id_cast 32 (-1)) by discriminate.
  destruct (Hscan Hne) as (res & st' & Hrun & _ & _ & _ & Hres).
  change (first_with_id (readers two_registered) 8 [(4, 2); (5, 3)].*2)
    with (Some 3) in Hres.
  destruct Hres as (-> & rd & Hrd & _ & Hrs).
  injection Hrd as <-.
  exists st'. split; [exact Hrun|exact Hrs].
Defined.

Lemma events_follow_unlock_witness :
  ∃ st_m w lx,
    vreader_add_reader 2 two_registered =
      Ok (VREADER_OK,
          add_trace [AEvent (mkVEvent VEVENT_READER_INSERT 2 NULL)] st_m) ∧
    trace st_m =
      [AMutexLock (ReaderLock 2); AMutexUnlock (ReaderLock 2); AMutexLock ListMutex]
        ++ w ++ [AListStore 1 lx; AMutexUnlock ListMutex] ∧
    forallb is_link_store w = true ∧
    tail lx = 6 ∧
    registry st_m [(4, 2); (5, 3); (6, 2)].
Proof.
  assert (H1 : 2 ≠ NULL) by discriminate.
  assert (H2 : readers two_registered !! 2
               = Some (mkVReader 2 NULL (Some "A"%string) 7 NULL NULL))
    by reflexivity.
  assert (H3 : 1 <= 2 < INT_MAX) by (unfold INT_MAX; lia).
  assert (H4 : brk two_registered ≠ NULL) by discriminate.
  assert (H5 : entries two_registered !! brk two_registered = None)
    by reflexivity.
  destruct (events_follow_unlock two_registered [(4, 2); (5, 3)] 2 9 _
              two_registered_registry H1 H2 H3 H4 H5)
    as [(st_m & t & w & lx & Hrun & Htr & Ht & Hw & Htl & _ & _ & _ & _ & _ & Hreg & _)
          _].
  exists st_m, w, lx. split; [exact Hrun|].
  split; [rewrite Htr, Ht; reflexivity|].
  split; [exact Hw|]. split; [exact Htl|exact Hreg].
Defined.

Lemma lookup_by_name_needs_names_witness :
  vreader_get_reader_by_name 2 (Some "B"%string) two_registered = Err NullDeref.
Proof.
  assert (Hfuel : (length [(4, 2); (5, 3)] <= 2)%nat) by (cbn; lia).
  destruct (lookup_by_name_needs_names 32 two_registered [(4, 2); (5, 3)] 2
              "B"%string two_registered_registry two_registered_live Hfuel)
    as (_ & Hfault & _).
  assert (H2 : readers two_registered !! 3
               = Some (mkVReader 2 NULL None 8 NULL NULL)) by reflexivity.
  apply (Hfault [(4, 2)] 5 3 [] _ eq_refl H2 eq_refl).
  intros r' rd' Hr' Hrd'. cbn in Hr'.
  apply list_elem_of_singleton in Hr' as ->.
  injection Hrd' as <-. exists "A"%string. split; [reflexivity|discriminate].
Defined.

(** * Further properties of the code *)

Section Handles.

Variable id_bits : Z.

(** X1: Taking a reference and giving it back leaves the heap as it was, and
    destroys nothing. *)
Theorem reference_then_free_restores (st : State) (r : ptr) (rd : VReader) :
  r ≠ NULL ->
  readers st !! r = Some rd ->
  1 <= reference_count rd < INT_MAX ->
  ∃ st1 st2 t,
    vreader_reference r st = Ok (r, st1) ∧
    vreader_free r st1 = Ok (tt, st2) ∧
    readers st2 = readers st ∧ entries st2 = entries st ∧ lists st2 = lists st ∧
    trace st2 = trace st ++ t ∧
    card_frees t = [] ∧ name_frees t = [] ∧ private_free_calls t = [].
Proof.
  intros Hn Hr Hrc. apply Z.eqb_neq in Hn.
  assert (Hup : int_wrap (reference_count rd + 1) = reference_count rd + 1)
    by (apply int_wrap_id; unfold INT_MIN, INT_MAX in *; lia).
  assert (Hgt : (reference_count rd + 1 >? 1) = true) by (apply Z.gtb_lt; lia).
  destruct st as [rs es ls vl b tr]; cbn [readers] in Hr.
  unfold vreader_reference, vreader_free. mrun. rewrite Hup.
  eexists _, _, _. split; [reflexivity|]. mrun.
  rewrite insert_insert_eq, (rc_restore rd Hrc), (insert_id rs _ _ Hr).
  split; [reflexivity|]. mred.
  do 3 (split; [reflexivity|]).
  split; [rewrite <- !app_assoc; reflexivity|]. done.
Qed.

(** X2: Which operations accept an absent handle.  The id, name and
    reference-count operations and the list iterators treat NULL as "nothing
    to do"; [vreader_get_private], the card operations and
    [vreader_list_delete] dereference it. *)
Theorem absent_handles `{CardLayer} (st : State) (i c lp : ptr) (fuel : nat)
    (atr : option (list byte)) (len : option Z) (send recv : list byte)
    (slen rlen : Z) :
  vreader_get_id id_bits NULL st = Ok (vreader_id_cast id_bits (-1), st) ∧
  vreader_set_id NULL i st = Ok (VREADER_NO_CARD, st) ∧
  vreader_get_name NULL st = Ok (None, st) ∧
  vreader_list_get_first NULL st = Ok (NULL, st) ∧
  vreader_list_get_next NULL st = Ok (NULL, st) ∧
  vreader_list_get_reader NULL st = Ok (NULL, st) ∧
  vreader_list_entry_delete NULL st = Ok (tt, st) ∧
  vreader_queue lp NULL st = Ok (tt, st) ∧
  vreader_dequeue lp NULL st = Ok (tt, st) ∧
  vreader_get_private NULL st = Err NullDeref ∧
  vreader_card_is_present NULL st = Err NullDeref ∧
  vreader_power_on NULL atr len st = Err NullDeref ∧
  vreader_power_off NULL st = Err NullDeref ∧
  vreader_xfr_bytes NULL send slen recv rlen st = Err NullDeref ∧
  vreader_insert_card NULL c st = Err NullDeref ∧
  vreader_queue_card_event NULL st = Err NullDeref ∧
  vreader_list_delete fuel NULL st = Err NullDeref.
Proof.
  repeat split; try reflexivity.
  destruct fuel; reflexivity.
Qed.

(** X3: Setting an id takes no lock, changes nothing but that reader's id, and
    the id is what [vreader_get_id] then returns. *)
Theorem set_id_then_get_id (st : State) (r i : ptr) (rd : VReader) :
  r ≠ NULL ->
  readers st !! r = Some rd ->
  let st' := set_readers (insert r (set_id i rd)) st in
  vreader_set_id r i st = Ok (VREADER_OK, st') ∧
  vreader_get_id id_bits r st' = Ok (i, st') ∧
  trace st' = trace st.
Proof.
  intros Hn Hr st'. subst st'. apply Z.eqb_neq in Hn.
  destruct st as [rs es ls vl b tr]; cbn [readers] in Hr.
  unfold vreader_set_id, vreader_get_id. mrun. done.
Qed.

(** X4: A reader made by [vreader_new] sits at a fresh, non-NULL address and
    overwrites nothing; it has one reference, no card, the name given and the
    unassigned id, for which a lookup by id finds nothing. *)
Theorem vreader_new_fresh (st : State) (nm : option string) (p f : ptr) (fuel : nat) :
  heap_fresh st ->
  let r := brk st in
  let rd := mkVReader 1 NULL nm (vreader_id_cast id_bits (-1)) p f in
  let st' := set_readers (insert r rd) (set_brk (r + 1) st) in
  vreader_new id_bits nm p f st = Ok (r, st') ∧
  r ≠ NULL ∧
  readers st !! r = None ∧
  heap_fresh st' ∧
  vreader_get_id id_bits r st' = Ok (vreader_id_cast id_bits (-1), st') ∧
  vreader_get_name r st' = Ok (nm, st') ∧
  vreader_get_private r st' = Ok (p, st') ∧
  (∃ q, vreader_card_is_present r st' = Ok (VREADER_NO_CARD, q)) ∧
  vreader_get_reader_by_id id_bits fuel (vreader_id_cast id_bits (-1)) st'
    = Ok (NULL, st').
Proof.
  intros [Hb Hfresh] r rd st'. subst r rd st'.
  assert (Hn : brk st ≠ NULL) by (unfold NULL; lia).
  pose proof Hn as Hn'. apply Z.eqb_neq in Hn'.
  destruct (Hfresh (brk st)) as (Hr & _); [lia|].
  destruct st as [rs es ls vl b tr]; cbn [readers brk] in *.
  split; [reflexivity|]. split; [done|]. split; [done|].
  split.
  { unfold heap_fresh. mred. split; [lia|]. intros q Hq.
    destruct (Hfresh q) as (H1 & H2 & H3); [lia|].
    rewrite lookup_insert_ne by lia. done. }
  unfold vreader_get_id, vreader_get_name, vreader_get_private,
    vreader_card_is_present, vreader_get_card, vreader_get_reader_by_id.
  mrun.
  repeat split; eauto.
Qed.

End Handles.

Section Sessions_further.

Context `{CardLayer}.

#[local] Hint Unfold vcard_reset vcard_get_atr vcard_apdu_new vcard_process_apdu
  vcard_make_response vcard_response_delete vcard_apdu_delete : vreader.

(** X5: With a card present, power-on resets the card with power on and fetches
    the ATR only when an ATR buffer is given; power-off resets it with power
    off and never fetches an ATR.  Each returns OK, releases the reference it
    took, and leaves the heap alone. *)
Theorem power_with_card (st : State) (r : ptr) (rd : VReader)
    (buf : list byte) (len : option Z) :
  r ≠ NULL ->
  readers st !! r = Some rd ->
  card rd ≠ NULL ->
  let c := card rd in
  let taken := [AMutexLock (ReaderLock r); ACardLoad r c; AVCardReference c;
                AMutexUnlock (ReaderLock r)] in
  vreader_power_on r (Some buf) len st =
    Ok ((VREADER_OK, Some (card_get_atr c buf len).1, (card_get_atr c buf len).2),
        add_trace (taken ++ [AVCardReset c VCARD_POWER_ON; AVCardGetAtr c;
                             AVCardFree c]) st) ∧
  vreader_power_on r None len st =
    Ok ((VREADER_OK, None, len),
        add_trace (taken ++ [AVCardReset c VCARD_POWER_ON; AVCardFree c]) st) ∧
  vreader_power_off r st =
    Ok (VREADER_OK,
        add_trace (taken ++ [AVCardReset c VCARD_POWER_OFF; AVCardFree c]) st).
Proof.
  intros Hn Hr Hc c taken. subst c taken. apply Z.eqb_neq in Hc.
  repeat split;
    unfold vreader_power_on, vreader_power_off, vreader_reset, mbind, M_bind;
    rewrite (vreader_get_card_run st r rd Hn Hr), Hc;
    destruct st as [rs es ls vl b tr]; mrun; do 2 f_equal; trace_eq.
Qed.

(** X6: With a card present and a command that parses, a processor that does not
    report completion stops the call at the assertion: nothing is copied, no
    status is returned. *)
Theorem transmit_incomplete_is_fatal (st : State) (r : ptr) (rd : VReader)
    (send recv : list byte) (slen c : Z) :
  r ≠ NULL ->
  readers st !! r = Some rd ->
  card rd ≠ NULL ->
  (card_apdu_new send slen).1 ≠ NULL ->
  (card_process_apdu (card rd) (card_apdu_new send slen).1).1 ≠ VCARD_DONE ->
  vreader_xfr_bytes r send slen recv c st = Err AssertFailed.
Proof.
  intros Hn Hr Hc Ha Hp. apply Z.eqb_neq in Hc, Ha.
  unfold vreader_xfr_bytes. unfold mbind at 1, M_bind at 1.
  rewrite (vreader_get_card_run st r rd Hn Hr), Hc.
  destruct st as [rs es ls vl b tr]. mrun.
  destruct (card_process_apdu (card rd) (card_apdu_new send slen).1) as [[] resp];
    cbn in Hp |- *; done.
Qed.

(** X7: With a card present and a response at hand, a receive length that is
    negative, or a truncated length that does not fit the caller's buffer or
    the response data, overruns a buffer in the copy: the code has no check
    of its own. *)
Theorem transmit_without_bounds_check (st : State) (r : ptr) (rd : VReader)
    (send recv : list byte) (slen c : Z) (resp : VCardResponse) :
  r ≠ NULL ->
  readers st !! r = Some rd ->
  card rd ≠ NULL ->
  ((card_apdu_new send slen).1 ≠ NULL ∧
   card_process_apdu (card rd) (card_apdu_new send slen).1 = (VCARD_DONE, Some resp))
  ∨ ((card_apdu_new send slen).1 = NULL ∧
     card_make_response (card_apdu_new send slen).2 = resp) ->
  c < 0 ∨
  Z.of_nat (length recv) < Z.min c (b_total_len resp) ∨
  Z.of_nat (length (b_data resp)) < Z.min c (b_total_len resp) ->
  vreader_xfr_bytes r send slen recv c st = Err BufferOverrun.
Proof.
  intros Hn Hr Hc Hresp Hbad. apply Z.eqb_neq in Hc.
  assert (Hcpy : (0 <=? MIN c (b_total_len resp))
                 && (MIN c (b_total_len resp) <=? Z.of_nat (length recv))
                 && (MIN c (b_total_len resp) <=? Z.of_nat (length (b_data resp)))
                 = false).
  { rewrite MIN_min. apply not_true_is_false. intros Ht.
    apply andb_prop in Ht as [Ht H3]. apply andb_prop in Ht as [H1 H2].
    apply Z.leb_le in H1, H2, H3. lia. }
  unfold vreader_xfr_bytes. unfold mbind at 1, M_bind at 1.
  rewrite (vreader_get_card_run st r rd Hn Hr), Hc.
  destruct st as [rs es ls vl b tr].
  destruct (card_apdu_new send slen) as [apdu status] eqn:Hap.
  cbn [fst snd] in *.
  destruct Hresp as [[Ha Hp] | [Ha Hm]].
  - apply Z.eqb_neq in Ha. mrun. rewrite Hap. mrun. rewrite Hp.
    cbn [fst snd VCardStatus_eqb]. mrun. unfold memcpy. by rewrite Hcpy.
  - subst apdu. mrun. rewrite Hap. cbn [fst snd]. mrun.
    rewrite Hm. cbn [VCardStatus_eqb]. mrun. unfold memcpy. by rewrite Hcpy.
Qed.

End Sessions_further.

Section Card_changes.

(** X8: Changing the card of a reader: the reference on the card held before is
    released exactly once (none when there was no card) and before exactly
    one reference is taken on the new card, under the reader's lock; the
    event carries the new card; only this reader's card field changes. *)
Theorem insert_card_reference_audit (st : State) (r c : ptr) (rd : VReader) :
  r ≠ NULL ->
  readers st !! r = Some rd ->
  ∃ st' t,
    vreader_insert_card r c st = Ok (VREADER_OK, st') ∧
    readers st' = <[r:=set_card c rd]> (readers st) ∧
    entries st' = entries st ∧ lists st' = lists st ∧
    trace st' = trace st ++ t ∧
    t = [AMutexLock (ReaderLock r); ACardLoad r (card rd)]
        ++ (if card rd =? NULL then []
            else [ACardLoad r (card rd); AVCardFree (card rd); ACardStore r NULL])
        ++ [AVCardReference c; ACardStore r c; AMutexUnlock (ReaderLock r);
            ACardLoad r c; ACardLoad r c; AEvent (card_event r c)] ∧
    card_frees t = (if card rd =? NULL then [] else [card rd]) ∧
    card_refs t = [c] ∧
    events_of t = [card_event r c] ∧
    held_after [] t = [].
Proof.
  intros Hn Hr.
  pose proof (vreader_insert_card_run st r c rd Hn Hr) as Hrun.
  eexists _, _. split; [exact Hrun|].
  destruct st as [rs es ls vl b tr]. mred.
  do 3 (split; [reflexivity|]).
  split; [rewrite <- app_assoc; reflexivity|].
  unfold insert_card_actions.
  split; [destruct (card rd =? NULL); reflexivity|].
  destruct (card rd =? NULL); cbn; rewrite !decide_True by done; done.
Qed.

End Card_changes.

Section Registry_further.

Variable id_bits : Z.

(** The scan of [vreader_remove_reader] over a chain that does not hold the
    reader ends with NULL. *)
Lemma vreader_remove_reader_loop_none (r : ptr) (l : list (ptr * ptr)) :
  ∀ (fuel : nat) (p : ptr) (st : State),
    chain (entries st) p l ->
    r ∉ l.*2 ->
    (length l <= fuel)%nat ->
    vreader_remove_reader_loop fuel r p st = Ok (NULL, st).
Proof.
  induction l as [|[a ra] l IH]; intros fuel p st Hc Hnot Hfuel.
  - cbn in Hc. subst p. by destruct fuel.
  - cbn in Hc. destruct Hc as (-> & Hn & ent & He & Hr & Hc). cbn in Hr. subst ra.
    cbn in Hnot. apply not_elem_of_cons in Hnot as [Hne Hnot].
    destruct fuel as [|fuel]; [cbn in Hfuel; lia|]. apply Z.eqb_neq in Hn.
    assert (Hra : (reader ent =? r) = false) by (apply Z.eqb_neq; congruence).
    destruct st as [rs es ls vl b tr]; cbn [entries] in *.
    cbn [vreader_remove_reader_loop]. unfold vreader_list_get_next. mrun.
    apply IH; [done|done|cbn in Hfuel; lia].
Qed.

(** X9: Removing a reader that is not registered is not an error: the call
    returns OK and leaves the whole heap as it was, yet it still queues a
    reader-removed event (after releasing the list mutex). *)
Theorem remove_unregistered (st : State) (l : list (ptr * ptr)) (r : ptr)
    (fuel : nat) :
  registry st l ->
  r ∉ l.*2 ->
  (length l <= fuel)%nat ->
  vreader_remove_reader fuel r st =
    Ok (VREADER_OK,
        add_trace [AMutexLock ListMutex; AMutexUnlock ListMutex;
                   AEvent (mkVEvent VEVENT_READER_REMOVE r NULL)] st).
Proof.
  intros (Hvl & x & Hx & Hc & _ & _) Hnot Hfuel. apply Z.eqb_neq in Hvl.
  destruct st as [rs es ls vl b tr]; cbn [lists entries vreader_list] in *.
  set (st1 := mkState rs es ls vl b (tr ++ [AMutexLock ListMutex])).
  assert (Hloop : vreader_remove_reader_loop fuel r (head x) st1 = Ok (NULL, st1))
    by (by apply (vreader_remove_reader_loop_none r l)).
  subst st1.
  unfold vreader_remove_reader, vreader_list_get_first, vreader_dequeue,
    vreader_list_entry_delete.
  mrun. rewrite Hloop. mrun. do 2 f_equal. trace_eq.
Qed.

(** X10: Removing the only registered reader, whose entry has no predecessor
    link, empties the registry (head and tail are both NULL again), frees the
    entry and gives back the registry's reference on the reader. *)
Theorem remove_only_entry (st : State) (e r : ptr) (ent : VReaderListEntry)
    (rd : VReader) (fuel : nat) :
  registry st [(e, r)] ->
  entries st !! e = Some ent ->
  prev ent = NULL ->
  readers st !! r = Some rd ->
  r ≠ NULL ->
  1 < reference_count rd <= INT_MAX ->
  (1 <= fuel)%nat ->
  ∃ st',
    vreader_remove_reader fuel r st = Ok (VREADER_OK, st') ∧
    registry st' [] ∧
    lists st' !! vreader_list st' = Some {| head := NULL; tail := NULL |} ∧
    entries st' = delete e (entries st) ∧
    readers st' = <[r:=set_reference_count (reference_count rd - 1) rd]> (readers st) ∧
    events_of (trace st') =
      events_of (trace st) ++ [mkVEvent VEVENT_READER_REMOVE r NULL].
Proof.
  intros (Hvl & x & Hx & Hc & Htl & Hnd) Hent Hprev Hrd Hrn Hrc Hfuel.
  cbn in Hc, Htl. destruct Hc as (Hh & He & ent' & Hent' & Hr & Hnext).
  rewrite Hh in Hent', He. rewrite Hent in Hent'. injection Hent' as <-.
  cbn in Hr. destruct ent as [en ep er]. cbn [next prev reader] in *.
  subst en ep er.
  destruct x as [xh xt]. cbn [head tail] in *. subst xh xt.
  assert (Hdn : int_wrap (reference_count rd - 1) = reference_count rd - 1)
    by (apply int_wrap_id; unfold INT_MIN, INT_MAX in *; lia).
  assert (Hgt : (reference_count rd >? 1) = true) by (apply Z.gtb_lt; lia).
  destruct fuel as [|fuel]; [lia|].
  pose proof Hvl as Hvl'. apply Z.eqb_neq in Hvl, He, Hrn.
  destruct st as [rs es ls vl b tr];
    cbn [lists entries vreader_list readers trace] in *.
  unfold vreader_remove_reader, vreader_list_get_first, vreader_dequeue,
    vreader_list_entry_delete, vreader_free.
  cbn [vreader_remove_reader_loop].
  mrun. rewrite Hdn.
  eexists. split; [reflexivity|]. unfold registry. mred.
  rewrite ?insert_insert_eq, ?delete_insert_eq.
  split.
  { split; [done|]. eexists. rewrite lookup_insert_eq. split; [done|].
    cbn. split; [done|]. split; [done|apply NoDup_nil_2]. }
  split; [by rewrite lookup_insert_eq|].
  split; [done|]. split; [done|].
  rewrite !events_of_app. cbn. by rewrite !app_nil_r.
Qed.

Lemma chain_delete_frame es p l e :
  chain es p l -> e ∉ l.*1 -> chain (delete e es) p l.
Proof.
  revert p. induction l as [|[a r] l IH]; intros p Hc Hnot; [exact Hc|].
  cbn in Hc, Hnot |- *. destruct Hc as (-> & Hn & ent & He & Hr & Hc).
  apply not_elem_of_cons in Hnot as [Hne Hnot].
  split; [done|]. split; [done|].
  exists ent. rewrite lookup_delete_ne by done. eauto.
Qed.

(** X11: Removing the first of several registered readers, whose entry has no
    predecessor link: the registry is the rest, in order; the entry is freed;
    no other entry is written, so the new first entry keeps whatever
    predecessor link it had. *)
Theorem remove_first_entry (st : State) (e r n rn : ptr) (l : list (ptr * ptr))
    (ent : VReaderListEntry) (rd : VReader) (fuel : nat) :
  registry st ((e, r) :: (n, rn) :: l) ->
  entries st !! e = Some ent ->
  prev ent = NULL ->
  readers st !! r = Some rd ->
  r ≠ NULL ->
  1 < reference_count rd <= INT_MAX ->
  (1 <= fuel)%nat ->
  ∃ st',
    vreader_remove_reader fuel r st = Ok (VREADER_OK, st') ∧
    registry st' ((n, rn) :: l) ∧
    entries st' = delete e (entries st) ∧
    readers st' = <[r:=set_reference_count (reference_count rd - 1) rd]> (readers st) ∧
    events_of (trace st') =
      events_of (trace st) ++ [mkVEvent VEVENT_READER_REMOVE r NULL].
Proof.
  intros (Hvl & x & Hx & Hc & Htl & Hnd) Hent Hprev Hrd Hrn Hrc Hfuel.
  pose proof Hc as Hc0.
  cbn in Hc. destruct Hc as (Hh & He & ent' & Hent' & Hr & Hc).
  rewrite Hh in Hent', He. rewrite Hent in Hent'. injection Hent' as <-.
  cbn in Hr. destruct Hc as (Hnx & Hn & ne & Hne & Hrn' & Hc).
  cbn in Hnx, Hrn'.
  destruct ent as [en ep er]. cbn [next prev reader] in *. subst en ep er.
  destruct x as [xh xt]. cbn [head tail] in *. subst xh.
  cbn in Hnd. apply NoDup_cons in Hnd as [Hein Hnd].
  assert (Hen : e ≠ n) by (intros ->; apply Hein; left).
  assert (Hxt : ∃ t, last (n :: l.*1) = Some t ∧ t ≠ NULL ∧ t ≠ e).
  { destruct (last (n :: l.*1)) as [t|] eqn:Hlast;
      [|by apply last_None in Hlast].
    exists t. split; [done|]. apply last_Some_elem_of in Hlast. split.
    - eapply (chain_allocated _ _ _ t Hc0). cbn. by right.
    - intros ->. by apply Hein. }
  destruct Hxt as (t & Hlast & Hxt & Hxte).
  change (last ((e, r) :: (n, rn) :: l).*1) with (last (n :: l.*1)) in Htl.
  rewrite Hlast in Htl. cbn in Htl. subst xt.
  assert (Hdn : int_wrap (reference_count rd - 1) = reference_count rd - 1)
    by (apply int_wrap_id; unfold INT_MIN, INT_MAX in *; lia).
  assert (Hgt : (reference_count rd >? 1) = true) by (apply Z.gtb_lt; lia).
  destruct fuel as [|fuel]; [lia|].
  pose proof Hvl as Hvl'. pose proof Hn as Hn'.
  apply Z.eqb_neq in Hvl, He, Hrn, Hn, Hxt.
  destruct st as [rs es ls vl b tr];
    cbn [lists entries vreader_list readers trace] in *.
  unfold vreader_remove_reader, vreader_list_get_first, vreader_dequeue,
    vreader_list_entry_delete, vreader_free.
  cbn [vreader_remove_reader_loop].
  mrun. rewrite Hdn.
  eexists. split; [reflexivity|]. unfold registry. mred.
  rewrite ?insert_insert_eq, ?delete_insert_eq.
  split.
  { split; [done|]. eexists. rewrite lookup_insert_eq. split; [done|].
    cbn [head tail]. split.
    - apply chain_delete_frame; [|done].
      cbn. split; [done|]. split; [done|]. eauto.
    - split; [|done]. cbn. by rewrite Hlast. }
  split; [done|]. split; [done|].
  rewrite !events_of_app. cbn. by rewrite !app_nil_r.
Qed.

Lemma chain_nonempty es h l : chain es h l -> l ≠ [] -> h ≠ NULL.
Proof. destruct l as [|[a r] l]; [done|]. cbn. tauto. Qed.

Lemma chain_last es h l :
  chain es h l -> l ≠ [] -> ∃ t, last (l.*1) = Some t ∧ t ≠ NULL.
Proof.
  intros Hc Hl. destruct (last (l.*1)) as [t|] eqn:Hlast.
  - exists t. split; [done|].
    eapply (chain_allocated _ _ _ t Hc). by apply last_Some_elem_of.
  - apply last_None in Hlast. by destruct l.
Qed.

(** Taking [e] out of a chain in which its neighbours [p] and [n] have been
    linked to each other. *)
Lemma chain_unlink es h l1 p rp e r n rn l2 pe ne :
  chain es h (l1 ++ (p, rp) :: (e, r) :: (n, rn) :: l2) ->
  NoDup ((l1 ++ (p, rp) :: (e, r) :: (n, rn) :: l2).*1) ->
  es !! p = Some pe ->
  es !! n = Some ne ->
  chain (delete e
           (<[n:={| next := next ne; prev := p; reader := reader ne |}]>
              (<[p:={| next := n; prev := prev pe; reader := reader pe |}]> es)))
    h (l1 ++ (p, rp) :: (n, rn) :: l2).
Proof.
  revert h. induction l1 as [|[a ra] l1 IH]; intros h Hc Hnd Hpe Hne.
  - cbn in Hc, Hnd.
    destruct Hc as (-> & Hp & pe' & Hpe' & Hrp & Hc).
    rewrite Hpe in Hpe'. injection Hpe' as <-.
    destruct Hc as (Hnx & He & ent & Hent & _ & Hc).
    destruct Hc as (Hnn & Hn & ne' & Hne' & Hrn & Hc).
    cbn in Hnx, Hnn, Hrp, Hrn. rewrite Hnn in Hne', Hn.
    rewrite Hne in Hne'. injection Hne' as <-.
    apply NoDup_cons in Hnd as [Hp1 Hnd]. apply NoDup_cons in Hnd as [He1 Hnd].
    apply NoDup_cons in Hnd as [Hn1 Hnd].
    apply not_elem_of_cons in Hp1 as [Hpe1 Hp1].
    apply not_elem_of_cons in Hp1 as [Hpn1 Hp1].
    apply not_elem_of_cons in He1 as [Hen1 He1].
    cbn. split; [done|]. split; [done|].
    eexists. rewrite lookup_delete_ne, lookup_insert_ne, lookup_insert_eq by done.
    split; [done|]. split; [done|]. cbn.
    split; [done|]. split; [done|].
    eexists. rewrite lookup_delete_ne, lookup_insert_eq by done.
    split; [done|]. split; [done|]. cbn.
    apply chain_delete_frame; [|done].
    apply chain_frame; [|done]. by apply chain_frame.
  - cbn in Hc, Hnd. destruct Hc as (-> & Ha & ent & Hent & Hra & Hc).
    apply NoDup_cons in Hnd as [Ha1 Hnd].
    rewrite fmap_app in Ha1. apply not_elem_of_app in Ha1 as [_ Ha1]. cbn in Ha1.
    apply not_elem_of_cons in Ha1 as [Hap Ha1].
    apply not_elem_of_cons in Ha1 as [Hae Ha1].
    apply not_elem_of_cons in Ha1 as [Han Ha1].
    cbn. split; [done|]. split; [done|].
    exists ent.
    rewrite lookup_delete_ne, !lookup_insert_ne by done.
    split; [done|]. split; [done|]. by apply IH.
Qed.

(** X12: Removing a reader whose entry has both neighbours (and whose predecessor
    link is right): the two neighbours are linked to each other, the entry is
    freed, and the registry is what it was without that entry. *)
Theorem remove_middle_entry (st : State) (l1 l2 : list (ptr * ptr))
    (p rp e r n rn : ptr) (ent : VReaderListEntry) (rd : VReader) (fuel : nat) :
  registry st (l1 ++ (p, rp) :: (e, r) :: (n, rn) :: l2) ->
  r ∉ (l1 ++ [(p, rp)]).*2 ->
  entries st !! e = Some ent ->
  prev ent = p ->
  readers st !! r = Some rd ->
  r ≠ NULL ->
  1 < reference_count rd <= INT_MAX ->
  (length l1 + 2 <= fuel)%nat ->
  ∃ st' pe ne,
    vreader_remove_reader fuel r st = Ok (VREADER_OK, st') ∧
    registry st' (l1 ++ (p, rp) :: (n, rn) :: l2) ∧
    entries st !! p = Some pe ∧
    entries st !! n = Some ne ∧
    entries st' =
      delete e
        (<[n:={| next := next ne; prev := p; reader := reader ne |}]>
           (<[p:={| next := n; prev := prev pe; reader := reader pe |}]>
              (entries st))) ∧
    readers st' = <[r:=set_reference_count (reference_count rd - 1) rd]> (readers st) ∧
    lists st' = lists st.
Proof.
  intros (Hvl & x & Hx & Hc & Htl & Hnd) Hnot Hent Hprev Hrd Hrn Hrc Hfuel.
  destruct st as [rs es ls vl b tr];
    cbn [lists entries vreader_list readers] in *.
  assert (Hc' : chain es (head x)
                  ((l1 ++ [(p, rp)]) ++ (e, r) :: (n, rn) :: l2))
    by (by rewrite <- app_assoc).
  destruct (chain_app_inv _ _ _ _ Hc') as [[Hnil _] | (t & pe & Hlast & Hpe & Hce)].
  { by destruct l1. }
  rewrite fmap_app in Hlast. cbn in Hlast. rewrite last_snoc in Hlast.
  injection Hlast as <-.
  cbn in Hce. destruct Hce as (Hnext & He & ent' & Hent' & Hr & Hce).
  rewrite Hnext in He, Hent'.
  rewrite Hent in Hent'. injection Hent' as <-. cbn in Hr.
  destruct Hce as (Hnn & Hn & ne & Hne & Hrn' & Hcn). cbn in Hnn.
  rewrite Hnn in Hn, Hne.
  assert (Hp : p ≠ NULL).
  { eapply (chain_allocated _ _ _ p Hc). rewrite fmap_app.
    apply elem_of_app. right. left. }
  assert (Hh : head x ≠ NULL) by (apply (chain_nonempty _ _ _ Hc); by destruct l1).
  destruct (chain_last _ _ _ Hc) as (tl & Htl' & Htln); [by destruct l1|].
  rewrite Htl' in Htl. cbn in Htl.
  assert (Hdist : p ≠ e ∧ n ≠ e ∧ p ≠ n).
  { rewrite fmap_app in Hnd. apply NoDup_app in Hnd as (_ & _ & Hnd).
    cbn in Hnd. apply NoDup_cons in Hnd as [Hp1 Hnd].
    apply NoDup_cons in Hnd as [He1 _].
    apply not_elem_of_cons in Hp1 as [Hpe1 Hp1].
    apply not_elem_of_cons in Hp1 as [Hpn1 _].
    apply not_elem_of_cons in He1 as [Hen1 _]. done. }
  destruct Hdist as (Hpe' & Hne' & Hpn).
  assert (Hdn : int_wrap (reference_count rd - 1) = reference_count rd - 1)
    by (apply int_wrap_id; unfold INT_MIN, INT_MAX in *; lia).
  assert (Hgt : (reference_count rd >? 1) = true) by (apply Z.gtb_lt; lia).
  set (st1 := mkState rs es ls vl b (tr ++ [AMutexLock ListMutex])).
  assert (Hloop : vreader_remove_reader_loop fuel r (head x) st1 = Ok (e, st1)).
  { apply (vreader_remove_reader_loop_run r e ((n, rn) :: l2) (l1 ++ [(p, rp)]));
      [done|done|]. rewrite length_app. cbn. lia. }
  assert (Htx : tail x ≠ NULL) by (by rewrite Htl).
  pose proof (vreader_dequeue_middle st1 vl e p n x ent pe ne
                Hvl Hx Hh Htx He Hp Hn Hpe' Hne' Hpn Hent Hpe Hne Hnn Hprev) as Hdq.
  subst st1.
  pose proof Hvl as Hvl'.
  apply Z.eqb_neq in Hvl, Hrn. pose proof He as He'. apply Z.eqb_neq in He'.
  unfold vreader_remove_reader, vreader_list_get_first, vreader_list_entry_delete,
    vreader_free.
  mrun. rewrite Hloop. mrun. rewrite Hdq. mrun. rewrite Hr. mrun. rewrite Hdn.
  eexists _, pe, ne. split; [reflexivity|]. unfold registry. mred.
  rewrite delete_insert_eq.
  split; [|done].
  split; [done|]. exists x. split; [done|].
  split; [by apply (chain_unlink es (head x) l1 p rp e r n rn l2 pe ne)|].
  split.
  - rewrite Htl. rewrite fmap_app in Htl'. rewrite fmap_app.
    rewrite !fmap_cons in Htl'. rewrite !fmap_cons. cbn [fst] in Htl' |- *.
    rewrite last_app_cons in Htl'. rewrite last_app_cons.
    rewrite !last_cons_cons in Htl'. rewrite last_cons_cons. by rewrite Htl'.
  - eapply sublist_NoDup; [exact Hnd|].
    rewrite !fmap_app. apply sublist_app; [done|]. cbn.
    apply sublist_skip, sublist_cons. done.
Qed.

(** X13: Removing the first reader and then the next one, from a registry of
    three or more built by [vreader_add_reader] (so each entry's predecessor
    link names the entry before it): the first removal leaves the second
    entry's predecessor link pointing at the freed entry, and the second
    removal follows that link and writes through it. *)
Theorem remove_first_two_uses_freed_entry (st : State) (e r n rn n2 rn2 : ptr)
    (l : list (ptr * ptr)) (ent ne : VReaderListEntry) (rd : VReader) (fuel : nat) :
  registry st ((e, r) :: (n, rn) :: (n2, rn2) :: l) ->
  entries st !! e = Some ent ->
  prev ent = NULL ->
  entries st !! n = Some ne ->
  prev ne = e ->
  readers st !! r = Some rd ->
  r ≠ NULL ->
  1 < reference_count rd <= INT_MAX ->
  (1 <= fuel)%nat ->
  ∃ st1,
    vreader_remove_reader fuel r st = Ok (VREADER_OK, st1) ∧
    registry st1 ((n, rn) :: (n2, rn2) :: l) ∧
    vreader_remove_reader fuel rn st1 = Err (InvalidPointer e).
Proof.
  intros Hreg Hent Hprev Hne Hnprev Hrd Hrn Hrc Hfuel.
  destruct (remove_first_entry st e r n rn ((n2, rn2) :: l) ent rd fuel
              Hreg Hent Hprev Hrd Hrn Hrc Hfuel)
    as (st1 & Hrun & Hreg1 & Hes & _).
  exists st1. split; [exact Hrun|]. split; [exact Hreg1|].
  destruct Hreg as (_ & x0 & _ & Hc & _ & Hnd).
  cbn in Hc. destruct Hc as (Hh0 & He & _). rewrite Hh0 in He. clear Hh0.
  cbn in Hnd. apply NoDup_cons in Hnd as [Hein _].
  apply not_elem_of_cons in Hein as [Hen _].
  destruct Hreg1 as (Hvl & x & Hx & Hc1 & _ & _).
  cbn in Hc1. destruct Hc1 as (Hh & Hn & ne1 & Hne1 & Hr1 & Hc1).
  rewrite Hh in Hne1. rewrite Hes, lookup_delete_ne, Hne in Hne1 by done.
  injection Hne1 as <-. cbn in Hr1.
  destruct Hc1 as (Hnx & Hn2 & _). cbn in Hnx. rewrite Hnx in Hn2.
  destruct ne as [nn np nr]. cbn [next prev reader] in *. subst nn np nr.
  destruct fuel as [|fuel]; [lia|].
  assert (Hfreed : entries st1 !! e = None) by (by rewrite Hes, lookup_delete_eq).
  assert (Hn' : entries st1 !! n
                = Some {| next := n2; prev := e; reader := rn |})
    by (by rewrite Hes, lookup_delete_ne).
  destruct x as [xh xt]. cbn [head] in *. subst xh.
  apply Z.eqb_neq in Hvl, Hn, Hn2, He.
  destruct st1 as [rs1 es1 ls1 vl1 b1 tr1];
    cbn [lists entries vreader_list readers] in *.
  unfold vreader_remove_reader, vreader_list_get_first, vreader_dequeue.
  cbn [vreader_remove_reader_loop].
  mrun. reflexivity.
Qed.

Lemma first_with_id_at (rs : gmap Z VReader) (i r : ptr) (rd : VReader)
    (l1 l2 : list ptr) :
  (∀ r', r' ∈ l1 → ∀ rd', rs !! r' = Some rd' → id rd' ≠ i) ->
  (∀ r', r' ∈ l1 → is_Some (rs !! r')) ->
  rs !! r = Some rd ->
  id rd = i ->
  first_with_id rs i (l1 ++ r :: l2) = Some r.
Proof.
  intros Hno Hsome Hr Hid. unfold first_with_id.
  induction l1 as [|a l1 IH]; cbn.
  - rewrite Hr, Hid, Z.eqb_refl. done.
  - destruct (Hsome a) as [rda Hrda]; [left|].
    rewrite Hrda.
    assert (Hne : (id rda =? i) = false)
      by (apply Z.eqb_neq; eapply Hno; [left|done]).
    rewrite Hne. apply IH.
    + intros r' Hr'. apply Hno. by right.
    + intros r' Hr'. apply Hsome. by right.
Qed.

(** X14: After [vreader_set_id (r, i)] on a registered reader, a lookup by [i]
    returns [r] with a new reference, provided [i] is not the unassigned id
    and no reader registered before [r] has id [i]. *)
Theorem lookup_after_set_id (st : State) (l : list (ptr * ptr)) (l1 l2 : list ptr)
    (r i : ptr) (rd : VReader) (fuel : nat) :
  registry st l ->
  readers_live st l ->
  l.*2 = l1 ++ r :: l2 ->
  (∀ r', r' ∈ l1 → r' ≠ r ∧ ∀ rd', readers st !! r' = Some rd' → id rd' ≠ i) ->
  readers st !! r = Some rd ->
  i ≠ vreader_id_cast id_bits (-1) ->
  (length l <= fuel)%nat ->
  ∃ st1 st2,
    vreader_set_id r i st = Ok (VREADER_OK, st1) ∧
    vreader_get_reader_by_id id_bits fuel i st1 = Ok (r, st2) ∧
    readers st2 =
      <[r:=set_reference_count (reference_count rd + 1) (set_id i rd)]> (readers st) ∧
    entries st2 = entries st ∧ lists st2 = lists st.
Proof.
  intros (Hvl & x & Hx & Hc & _ & _) Hlive Hl Hbefore Hr Hi Hfuel.
  assert (Hrin : r ∈ l.*2) by (rewrite Hl; apply elem_of_app; right; left).
  destruct (Hlive r Hrin) as (Hrn & rd0 & Hr0 & Hrc).
  rewrite Hr in Hr0. injection Hr0 as <-.
  apply Z.eqb_neq in Hi, Hvl, Hrn.
  destruct st as [rs es ls vl b tr];
    cbn [lists entries vreader_list readers] in *.
  set (rs1 := <[r:=set_id i rd]> rs).
  assert (Hlive1 : ∀ r', r' ∈ l.*2 →
            r' ≠ NULL ∧ ∃ rd', rs1 !! r' = Some rd' ∧
                               1 <= reference_count rd' < INT_MAX).
  { intros r' Hr'. destruct (Hlive r' Hr') as (Hn' & rd' & Hrd' & Hrc').
    split; [done|]. subst rs1. destruct (decide (r' = r)) as [->|Hne].
    - rewrite lookup_insert_eq. eexists. split; [done|]. exact Hrc.
    - rewrite lookup_insert_ne by done. eauto. }
  assert (Hfirst : first_with_id rs1 i (l.*2) = Some r).
  { rewrite Hl. apply (first_with_id_at rs1 i r (set_id i rd)).
    - intros r' Hr' rd' Hrd'. destruct (Hbefore r' Hr') as [Hne Hid].
      subst rs1. rewrite lookup_insert_ne in Hrd' by done. by eapply Hid.
    - intros r' Hr'. destruct (Hlive1 r') as (_ & rd' & Hrd' & _); [|by eexists].
      rewrite Hl. apply elem_of_app. by left.
    - subst rs1. by rewrite lookup_insert_eq.
    - done. }
  destruct (vreader_get_reader_by_id_loop_run i l fuel (head x) rs1 es ls vl b
              (tr ++ [AMutexLock ListMutex]) Hc Hlive1 Hfuel)
    as (res & rs' & tr' & Hrun & Hres).
  rewrite Hfirst in Hres. destruct Hres as (-> & rd' & Hrd' & _ & ->).
  subst rs1. rewrite lookup_insert_eq in Hrd'. injection Hrd' as <-.
  unfold vreader_set_id, vreader_get_reader_by_id, vreader_list_get_first.
  mrun. eexists _, _. split; [reflexivity|].
  unfold set_id in Hrun. mrun. rewrite Hrun. mrun.
  split; [reflexivity|]. mred. by rewrite insert_insert_eq.
Qed.

(** X15: Looking up by an absent name: on an empty registry the scan compares
    nothing and returns NULL; on any other registry the first comparison
    dereferences the absent name. *)
Theorem lookup_by_absent_name (st : State) (l : list (ptr * ptr)) (fuel : nat) :
  registry st l ->
  readers_live st l ->
  (l = [] ->
   vreader_get_reader_by_name fuel None st =
     Ok (NULL, add_trace [AMutexLock ListMutex; AMutexUnlock ListMutex] st)) ∧
  (l ≠ [] -> (1 <= fuel)%nat ->
   vreader_get_reader_by_name fuel None st = Err NullDeref).
Proof.
  intros (Hvl & x & Hx & Hc & _ & _) Hlive. apply Z.eqb_neq in Hvl.
  destruct st as [rs es ls vl b tr];
    cbn [lists entries vreader_list readers] in *.
  unfold vreader_get_reader_by_name, vreader_list_get_first.
  split.
  - intros ->. cbn in Hc. mrun. rewrite Hc.
    destruct fuel; cbn [vreader_get_reader_by_name_loop]; mrun;
      do 2 f_equal; trace_eq.
  - intros Hl Hfuel. destruct l as [|[e r] l]; [done|].
    destruct fuel as [|fuel]; [lia|].
    cbn in Hc. destruct Hc as (Hh & Hn & ent & He & Hr & _). cbn in Hr. subst r.
    destruct (Hlive (reader ent)) as (Hrn & rd & Hrd & Hrc); [cbn; left|].
    cbn [readers] in Hrd. apply Z.eqb_neq in Hn, Hrn.
    cbn [vreader_get_reader_by_name_loop].
    unfold vreader_list_get_reader, vreader_reference, strcmp_eq0.
    mrun. by destruct (name rd).
Qed.

(** X16: [vreader_init] makes an empty registry at a fresh address and touches no
    reader; on it, both lookups return NULL, removing any reader changes
    nothing, and a snapshot is an empty list. *)
Theorem init_gives_empty_registry (st : State) (i r : ptr) (nm : option string)
    (fuel : nat) :
  heap_fresh st ->
  i ≠ vreader_id_cast id_bits (-1) ->
  ∃ st',
    vreader_init st = Ok (tt, st') ∧
    vreader_list st' = brk st ∧
    registry st' [] ∧
    heap_fresh st' ∧
    readers st' = readers st ∧ entries st' = entries st ∧
    trace st' = trace st ∧
    vreader_get_reader_by_id id_bits fuel i st' =
      Ok (NULL, add_trace [AMutexLock ListMutex; AMutexUnlock ListMutex] st') ∧
    vreader_get_reader_by_name fuel nm st' =
      Ok (NULL, add_trace [AMutexLock ListMutex; AMutexUnlock ListMutex] st') ∧
    vreader_remove_reader fuel r st' =
      Ok (VREADER_OK,
          add_trace [AMutexLock ListMutex; AMutexUnlock ListMutex;
                     AEvent (mkVEvent VEVENT_READER_REMOVE r NULL)] st') ∧
    ∃ q, vreader_get_reader_list fuel st' = Ok (brk st + 1, q) ∧
         list_readers q fuel (brk st + 1) = Some [] ∧
         registry q [].
Proof.
  intros [Hb Hfresh] Hi.
  assert (Hn : brk st ≠ NULL) by (unfold NULL; lia).
  assert (Hn1 : brk st + 1 ≠ NULL) by (unfold NULL; lia).
  assert (Hne : brk st ≠ brk st + 1) by lia.
  pose proof Hn as Hn'.
  apply Z.eqb_neq in Hn, Hn1, Hi.
  destruct st as [rs es ls vl b tr]; cbn [brk] in *.
  assert (Hreg : registry
            (mkState rs es (<[b:={| head := NULL; tail := NULL |}]> ls) b (b + 1) tr)
            []).
  { split; [done|]. eexists. mred. rewrite lookup_insert_eq.
    split; [done|]. cbn. split; [done|]. split; [done|apply NoDup_nil_2]. }
  eexists. split; [reflexivity|]. mred.
  split; [done|]. split; [exact Hreg|].
  split.
  { split; [cbn; lia|]. intros q Hq. cbn [brk] in Hq. mred.
    destruct (Hfresh q) as (H1 & H2 & H3); [lia|].
    rewrite lookup_insert_ne by lia. done. }
  do 3 (split; [done|]).
  unfold vreader_get_reader_by_id, vreader_get_reader_by_name, vreader_remove_reader,
    vreader_get_reader_list, vreader_copy_list, vreader_list_new,
    vreader_list_get_first, vreader_dequeue, vreader_list_entry_delete, list_readers.
  rewrite Hi.
  split; [|split; [|split]].
  - mrun. destruct fuel; cbn [vreader_get_reader_by_id_loop]; mrun;
      do 2 f_equal; trace_eq.
  - mrun. destruct fuel; cbn [vreader_get_reader_by_name_loop]; mrun;
      do 2 f_equal; trace_eq.
  - mrun. destruct fuel; cbn [vreader_remove_reader_loop]; mrun;
      do 2 f_equal; trace_eq.
  - mrun.
    destruct fuel; cbn [vreader_copy_list_loop]; mrun;
      (eexists; split; [reflexivity|]; mred; rewrite lookup_insert_eq;
       split; [reflexivity|];
       split; [done|]; eexists; mred;
       rewrite lookup_insert_ne, lookup_insert_eq by done;
       split; [done|]; cbn; split; [done|]; split; [done|apply NoDup_nil_2]).
Qed.

Lemma vreader_get_reader_by_id_loop_null (i : Z) (l1 : list (ptr * ptr)) :
  ∀ (fuel : nat) (p : ptr) rs es ls vl b tr e l2,
    chain es p (l1 ++ (e, NULL) :: l2) ->
    (∀ r, r ∈ l1.*2 →
       r ≠ NULL ∧ ∃ rd, rs !! r = Some rd ∧ 1 <= reference_count rd < INT_MAX) ->
    (∀ r rd, r ∈ l1.*2 → rs !! r = Some rd → id rd ≠ i) ->
    (length l1 < fuel)%nat ->
    vreader_get_reader_by_id_loop fuel i p (mkState rs es ls vl b tr) = Err NullDeref.
Proof.
  induction l1 as [|[e1 r1] l1 IH];
    intros fuel p rs es ls vl b tr e l2 Hc Hlive Hids Hfuel.
  - cbn in Hc. destruct Hc as (-> & Hn & ent & He & Hr & _). cbn in Hr.
    destruct fuel as [|fuel]; [lia|]. apply Z.eqb_neq in Hn.
    cbn [vreader_get_reader_by_id_loop].
    unfold vreader_list_get_reader, vreader_reference.
    mrun. rewrite Hr. by mrun.
  - cbn in Hc. destruct Hc as (-> & Hn & ent & He & Hr & Hc). cbn in Hr. subst r1.
    destruct (Hlive (reader ent)) as (Hrn & rd & Hrd & Hrc); [cbn; left|].
    destruct fuel as [|fuel]; [cbn in Hfuel; lia|].
    assert (Hid : (id rd =? i) = false)
      by (apply Z.eqb_neq; eapply Hids; [cbn; left|done]).
    apply Z.eqb_neq in Hn, Hrn.
    assert (Hup : int_wrap (reference_count rd + 1) = reference_count rd + 1)
      by (apply int_wrap_id; unfold INT_MIN, INT_MAX in *; lia).
    assert (Hgt : (reference_count rd + 1 >? 1) = true) by (apply Z.gtb_lt; lia).
    cbn [vreader_get_reader_by_id_loop].
    unfold vreader_list_get_reader, vreader_reference, vreader_free,
      vreader_list_get_next.
    mrun. rewrite Hup. mrun.
    rewrite insert_insert_eq, (rc_restore rd Hrc), (insert_id rs _ _ Hrd).
    eapply IH; [exact Hc| | |cbn in Hfuel; lia].
    + intros r' Hr'. apply Hlive. cbn. by right.
    + intros r' rd' Hr'. apply Hids. cbn. by right.
Qed.

(** X17: [vreader_add_reader] does not reject an absent reader: it returns OK,
    appends an entry that references NULL and queues a reader-inserted
    event; from then on a lookup by id that gets as far as this entry
    dereferences NULL. *)
Theorem add_absent_reader (st : State) (l : list (ptr * ptr)) (i : Z) (fuel : nat) :
  registry st l ->
  readers_live st l ->
  brk st ≠ NULL ->
  entries st !! brk st = None ->
  i ≠ vreader_id_cast id_bits (-1) ->
  (∀ r rd, r ∈ l.*2 → readers st !! r = Some rd → id rd ≠ i) ->
  (length l < fuel)%nat ->
  ∃ st',
    vreader_add_reader NULL st = Ok (VREADER_OK, st') ∧
    registry st' (l ++ [(brk st, NULL)]) ∧
    readers st' = readers st ∧
    events_of (trace st') =
      events_of (trace st) ++ [mkVEvent VEVENT_READER_INSERT NULL NULL] ∧
    vreader_get_reader_by_id id_bits fuel i st' = Err NullDeref.
Proof.
  intros (Hvl & x & Hx & Hc & Htl & Hnd) Hlive Hb Hfresh Hi Hids Hfuel.
  pose proof (chain_fresh _ _ _ _ Hc Hfresh) as Hnew.
  assert (Hnd' : NoDup ((l ++ [(brk st, NULL)]).*1)).
  { rewrite fmap_app. apply NoDup_app. split; [done|]. split.
    - intros e He Hin. cbn in Hin. apply list_elem_of_singleton in Hin as ->. done.
    - cbn. apply NoDup_singleton. }
  assert (Hlast' : default NULL (last ((l ++ [(brk st, NULL)]).*1)) = brk st).
  { rewrite fmap_app. cbn. by rewrite last_snoc. }
  destruct st as [rs es ls vl b tr];
    cbn [lists entries vreader_list readers brk trace] in *.
  pose proof Hvl as Hvl'. pose proof Hb as Hb'.
  apply Z.eqb_neq in Hvl, Hb, Hi.
  assert (Hscan : ∀ es' ls' b' h' tr',
            chain es' h' (l ++ [(b, NULL)]) ->
            vreader_get_reader_by_id_loop fuel i h' (mkState rs es' ls' vl b' tr')
              = Err NullDeref).
  { intros es' ls' b' h' tr' Hc'.
    eapply (vreader_get_reader_by_id_loop_null i l); eauto. }
  unfold vreader_add_reader, vreader_list_entry_new, vreader_reference, vreader_queue,
    vreader_get_reader_by_id, vreader_list_get_first.
  destruct (last (l.*1)) as [t|] eqn:Hlast.
  - cbn in Htl.
    destruct (chain_allocated _ _ _ t Hc) as [Ht [et Het]];
      [by apply last_Some_elem_of|].
    assert (Hbt : b ≠ t) by congruence.
    assert (Hh : (head x =? NULL) = false).
    { destruct l as [|[e re] l]; [discriminate|].
      cbn in Hc. apply Z.eqb_neq. tauto. }
    apply Z.eqb_neq in Ht.
    mrun. rewrite Htl. mrun. rewrite !insert_insert_eq.
    assert (Hch : chain
              (<[t:={| next := b; prev := prev et; reader := reader et |}]>
                 (<[b:={| next := NULL; prev := t; reader := NULL |}]> es))
              (head x) (l ++ [(b, NULL)])) by (by apply chain_snoc).
    eexists. split; [reflexivity|]. unfold registry. mrun.
    split; [split; [done|]; eexists; split; [done|]; done|].
    split; [done|].
    split; [rewrite !events_of_app; cbn; by rewrite !app_nil_r|].
    by rewrite Hscan.
  - assert (l = []) as ->.
    { destruct l as [|a l] using rev_ind; [done|].
      rewrite fmap_app in Hlast. cbn in Hlast. by rewrite last_snoc in Hlast. }
    cbn in Hc, Htl.
    mrun. rewrite Hc. mrun. rewrite !insert_insert_eq.
    assert (Hch : chain (<[b:={| next := NULL; prev := tail x; reader := NULL |}]> es)
                    b ([] ++ [(b, NULL)])).
    { cbn. split; [done|]. split; [done|].
      eexists. rewrite lookup_insert_eq. done. }
    eexists. split; [reflexivity|]. unfold registry. mrun.
    split; [split; [done|]; eexists; split; [done|]; done|].
    split; [done|].
    split; [rewrite !events_of_app; cbn; by rewrite !app_nil_r|].
    by rewrite Hscan.
Qed.

End Registry_further.

Section Snapshots.

(** *** Reference audits *)

Lemma occurrences_nonneg r l : 0 <= occurrences r l.
Proof. induction l as [|x l IH]; cbn; [lia|]. destruct (x =? r); lia. Qed.

Lemma occurrences_pos r l : r ∈ l -> 1 <= occurrences r l.
Proof.
  induction l as [|x l IH]; intros Hin; [by apply elem_of_nil in Hin|].
  cbn. pose proof (occurrences_nonneg r l).
  apply elem_of_cons in Hin as [->|Hin].
  - rewrite Z.eqb_refl. lia.
  - specialize (IH Hin). destruct (x =? r); lia.
Qed.

Lemma lookup_shift_all k l rs r :
  shift_all k l rs !! r =
    (fun rd => set_reference_count (reference_count rd + k * occurrences r l) rd)
      <$> rs !! r.
Proof. unfold shift_all. rewrite map_lookup_imap. by destruct (rs !! r). Qed.

Lemma shift_all_nil k rs : shift_all k [] rs = rs.
Proof.
  apply map_eq. intros r. rewrite lookup_shift_all. cbn.
  destruct (rs !! r) as [rd|]; [|done]. cbn. f_equal.
  rewrite Z.mul_0_r, Z.add_0_r. by destruct rd.
Qed.

Lemma shift_all_cons k l rs r rd :
  rs !! r = Some rd ->
  shift_all k l (<[r:=set_reference_count (reference_count rd + k) rd]> rs)
    = shift_all k (r :: l) rs.
Proof.
  intros Hr. apply map_eq. intros q. rewrite !lookup_shift_all. cbn.
  destruct (decide (q = r)) as [->|Hne].
  - rewrite lookup_insert_eq, Hr, Z.eqb_refl. cbn. f_equal.
    destruct rd. unfold set_reference_count. cbn. f_equal. lia.
  - rewrite lookup_insert_ne by done.
    assert (Hq : (r =? q) = false) by (apply Z.eqb_neq; congruence).
    rewrite Hq. done.
Qed.

Lemma shift_all_back l rs : shift_all (-1) l (shift_all 1 l rs) = rs.
Proof.
  apply map_eq. intros r. rewrite !lookup_shift_all.
  destruct (rs !! r) as [rd|]; [|done]. cbn. f_equal.
  destruct rd. unfold set_reference_count. cbn. f_equal. lia.
Qed.

Lemma lookup_delete_all l (es : gmap Z VReaderListEntry) q :
  delete_all l es !! q = if decide (q ∈ l) then None else es !! q.
Proof.
  unfold delete_all. induction l as [|a l IH]; cbn.
  - rewrite decide_False; [done|apply not_elem_of_nil].
  - destruct (decide (q = a)) as [->|Hne].
    + rewrite lookup_delete_eq, decide_True; [done|left].
    + rewrite lookup_delete_ne, IH by done.
      destruct (decide (q ∈ l)) as [Hin|Hnin].
      * rewrite decide_True; [done|by right].
      * rewrite decide_False; [done|]. intros Hin.
        apply elem_of_cons in Hin as [?|?]; done.
Qed.

Lemma delete_all_delete l (es : gmap Z VReaderListEntry) e :
  delete_all l (delete e es) = delete e (delete_all l es).
Proof.
  unfold delete_all. induction l as [|a l IH]; cbn; [done|].
  rewrite IH. apply delete_delete.
Qed.

(** *** Chains under changes elsewhere *)

Lemma chain_ext es es' p l :
  chain es p l -> (∀ q, q ∈ l.*1 → es' !! q = es !! q) -> chain es' p l.
Proof.
  revert p. induction l as [|[a r] l IH]; intros p Hc Hsame; [exact Hc|].
  cbn in Hc |- *. destruct Hc as (-> & Hn & ent & He & Hr & Hc).
  split; [done|]. split; [done|].
  exists ent. rewrite Hsame by (cbn; left).
  split; [done|]. split; [done|].
  apply IH; [done|]. intros q Hq. apply Hsame. cbn. by right.
Qed.

Lemma chain_readers_of_chain es p l fuel :
  chain es p l -> (length l <= fuel)%nat -> chain_readers es fuel p = Some (l.*2).
Proof.
  revert p fuel. induction l as [|[a r] l IH]; intros p fuel Hc Hfuel.
  - cbn in Hc. subst p. by destruct fuel.
  - cbn in Hc. destruct Hc as (-> & Hn & ent & He & Hr & Hc).
    destruct fuel as [|fuel]; [cbn in Hfuel; lia|].
    apply Z.eqb_neq in Hn. cbn [chain_readers]. rewrite Hn, He.
    rewrite (IH _ fuel Hc) by (cbn in Hfuel; lia).
    cbn in Hr. by rewrite Hr.
Qed.

(** *** Appending to any list *)

Lemma vreader_queue_run (st : State) (lp e : ptr) (m : list (ptr * ptr))
    (ent : VReaderListEntry) :
  is_list st lp m ->
  e ≠ NULL ->
  entries st !! e = Some ent ->
  e ∉ m.*1 ->
  ∃ st',
    vreader_queue lp e st = Ok (tt, st') ∧
    is_list st' lp (m ++ [(e, reader ent)]) ∧
    readers st' = readers st ∧
    brk st' = brk st ∧ vreader_list st' = vreader_list st ∧
    (∀ q, q ≠ lp → lists st' !! q = lists st !! q) ∧
    (∀ q, q ≠ e → q ∉ m.*1 → entries st' !! q = entries st !! q).
Proof.
  intros (Hlp & x & Hx & Hc & Htl & Hnd) He Hent Hnew.
  assert (Hnd' : NoDup ((m ++ [(e, reader ent)]).*1)).
  { rewrite fmap_app. apply NoDup_app. split; [done|]. split.
    - intros a Ha Hin. cbn in Hin. apply list_elem_of_singleton in Hin as ->. done.
    - cbn. apply NoDup_singleton. }
  assert (Hlast' : default NULL (last ((m ++ [(e, reader ent)]).*1)) = e).
  { rewrite fmap_app. cbn. by rewrite last_snoc. }
  destruct st as [rs es ls vl b tr];
    cbn [lists entries vreader_list readers brk trace] in *.
  pose proof Hlp as Hlp'. pose proof He as He'.
  apply Z.eqb_neq in Hlp, He.
  unfold vreader_queue.
  destruct (last (m.*1)) as [t|] eqn:Hlast.
  - cbn in Htl.
    assert (Htin : t ∈ m.*1) by (by apply last_Some_elem_of).
    destruct (chain_allocated _ _ _ t Hc Htin) as [Ht [et Het]].
    assert (Het' : e ≠ t) by (intros ->; done).
    assert (Hh : (head x =? NULL) = false).
    { apply Z.eqb_neq. apply (chain_nonempty _ _ _ Hc). by destruct m. }
    apply Z.eqb_neq in Ht.
    mrun. rewrite Htl. mrun. rewrite !insert_insert_eq.
    eexists. split; [reflexivity|]. unfold is_list. mred.
    split.
    { split; [done|]. eexists. rewrite lookup_insert_eq. split; [done|].
      cbn [head tail]. split; [|done].
      assert (Hsn := chain_snoc es (head x) m t et e (reader ent) Hc Hnd Hlast
                       Het Hnew He').
      eapply chain_ext; [exact Hsn|]. intros q _.
      destruct (decide (q = t)) as [->|Hqt]; [by rewrite !lookup_insert_eq|].
      rewrite !(lookup_insert_ne _ t) by done.
      destruct (decide (q = e)) as [->|Hqe]; [by rewrite !lookup_insert_eq|].
      by rewrite !lookup_insert_ne. }
    do 3 (split; [done|]).
    split.
    + intros q Hq. by rewrite lookup_insert_ne.
    + intros q Hqe Hqm.
      assert (q ≠ t) by (intros ->; done).
      by rewrite !lookup_insert_ne.
  - assert (m = []) as ->.
    { destruct m as [|a m] using rev_ind; [done|].
      rewrite fmap_app in Hlast. cbn in Hlast. by rewrite last_snoc in Hlast. }
    cbn in Hc, Htl.
    mrun. rewrite Hc. mrun. rewrite !insert_insert_eq.
    eexists. split; [reflexivity|]. unfold is_list. mred.
    split.
    { split; [done|]. eexists. rewrite lookup_insert_eq. split; [done|].
      cbn [head tail]. split; [|done].
      cbn. split; [done|]. split; [done|].
      eexists. rewrite lookup_insert_eq. done. }
    do 3 (split; [done|]).
    split.
    + intros q Hq. by rewrite lookup_insert_ne.
    + intros q Hqe Hqm. by rewrite !lookup_insert_ne.
Qed.

(** *** Copying a list *)

Lemma vreader_copy_list_loop_run (nl b0 : ptr) (l2 : list (ptr * ptr)) :
  ∀ (fuel : nat) (cur : ptr) (st : State) (m : list (ptr * ptr)),
    chain (entries st) cur l2 ->
    is_list st nl m ->
    (∀ e, e ∈ l2.*1 → e < b0) ->
    (∀ e, e ∈ m.*1 → b0 <= e < brk st) ->
    (∀ q, b0 <= q → q ∉ m.*1 → entries st !! q = None) ->
    0 < b0 <= brk st ->
    readers_room (readers st) (l2.*2) ->
    (length l2 <= fuel)%nat ->
    ∃ st' m',
      vreader_copy_list_loop fuel nl cur st = Ok (tt, st') ∧
      is_list st' nl m' ∧
      m'.*2 = m.*2 ++ l2.*2 ∧
      (∀ e, e ∈ m'.*1 → b0 <= e < brk st') ∧
      (∀ q, b0 <= q → q ∉ m'.*1 → entries st' !! q = None) ∧
      brk st <= brk st' ∧
      readers st' = shift_all 1 (l2.*2) (readers st) ∧
      (∀ q, q < b0 → entries st' !! q = entries st !! q) ∧
      (∀ q, q ≠ nl → lists st' !! q = lists st !! q) ∧
      vreader_list st' = vreader_list st.
Proof.
  induction l2 as [|[e r] l2 IH];
    intros fuel cur st m Hc Hm Hold Hnew Hfree Hb Hroom Hfuel.
  - cbn in Hc. subst cur. exists st, m.
    split; [by destruct fuel|]. split; [done|].
    split; [by rewrite app_nil_r|]. split; [done|]. split; [done|].
    split; [lia|]. split; [by rewrite shift_all_nil|]. done.
  - cbn in Hc. destruct Hc as (-> & Hn & ent & He & Hr & Hc). cbn in Hr. subst r.
    destruct (Hroom (reader ent)) as (Hrn & rd & Hrd & Hrc1 & Hrc2); [cbn; left|].
    cbn in Hrc2. rewrite Z.eqb_refl in Hrc2.
    pose proof (occurrences_nonneg (reader ent) (l2.*2)) as Hocc.
    destruct fuel as [|fuel]; [cbn in Hfuel; lia|].
    assert (Heb : e < b0) by (apply Hold; cbn; left).
    assert (Hup1 : int_wrap (reference_count rd + 1) = reference_count rd + 1)
      by (apply int_wrap_id; unfold INT_MIN, INT_MAX in *; lia).
    assert (Hup2 : int_wrap (reference_count rd + 1 + 1) = reference_count rd + 1 + 1)
      by (apply int_wrap_id; unfold INT_MIN, INT_MAX in *; lia).
    assert (Hdn : int_wrap (reference_count rd + 1 + 1 - 1) = reference_count rd + 1)
      by (rewrite int_wrap_id; unfold INT_MIN, INT_MAX in *; lia).
    assert (Hgt : (reference_count rd + 1 + 1 >? 1) = true)
      by (apply Z.gtb_lt; lia).
    destruct st as [rs es ls vl b tr];
      cbn [lists entries vreader_list readers brk trace] in *.
    assert (Hbn : b ≠ NULL) by (unfold NULL; lia).
    assert (Hbm : b ∉ m.*1) by (intros Hin; apply Hnew in Hin; lia).
    assert (Hbe : b ≠ e) by lia.
    pose proof Hn as Hn'. pose proof Hrn as Hrn'.
    apply Z.eqb_neq in Hn', Hrn'.
    cbn [vreader_copy_list_loop]. rewrite Hn'.
    unfold vreader_list_get_reader, vreader_list_entry_new, vreader_reference,
      vreader_free.
    mrun. rewrite Hup1. mrun. rewrite Hup2. mrun. rewrite Hdn.
    rewrite !insert_insert_eq.
    match goal with
    | |- context [vreader_queue nl b ?s] => set (s1 := s)
    end.
    assert (Hm1 : is_list s1 nl m).
    { destruct Hm as (Hnl & x & Hx & Hcm & Htl & Hnd).
      split; [done|]. exists x. split; [done|]. split; [|done].
      eapply chain_ext; [exact Hcm|]. intros q Hq. subst s1. cbn [entries].
      rewrite lookup_insert_ne; [done|]. intros <-. done. }
    assert (Hb1 : entries s1 !! b = Some (mkVReaderListEntry NULL NULL (reader ent)))
      by (subst s1; cbn [entries]; by rewrite lookup_insert_eq).
    destruct (vreader_queue_run s1 nl b m _ Hm1 Hbn Hb1 Hbm)
      as (st2 & Hq & Hm2 & Hrs2 & Hbrk2 & Hvl2 & Hls2 & Hes2).
    cbn [reader] in Hm2.
    rewrite Hq.
    assert (Hem : e ∉ m.*1) by (intros Hin; apply Hnew in Hin; lia).
    assert (Hold2 : ∀ q, q < b0 → entries st2 !! q = es !! q).
    { intros q Hq0. rewrite Hes2.
      - subst s1. cbn [entries]. rewrite lookup_insert_ne; [done|]. lia.
      - lia.
      - intros Hin. apply Hnew in Hin. lia. }
    assert (He2 : entries st2 !! e = Some ent) by (by rewrite Hold2).
    unfold vreader_list_get_next. mrun.
    destruct (IH fuel (next ent) st2 (m ++ [(b, reader ent)]))
      as (st' & m' & Hrun & Hm' & Hrd' & Hnew' & Hfree' & Hbrk' & Hrs' & Hes'
          & Hls' & Hvl').
    { eapply chain_ext; [exact Hc|]. intros q Hq0. apply Hold2, Hold.
      rewrite fmap_cons. by right. }
    { done. }
    { intros q Hq0. apply Hold. rewrite fmap_cons. by right. }
    { intros q Hq0. rewrite Hbrk2. subst s1. cbn [brk].
      rewrite fmap_app in Hq0. apply elem_of_app in Hq0 as [Hq0|Hq0].
      - apply Hnew in Hq0. lia.
      - cbn in Hq0. apply list_elem_of_singleton in Hq0 as ->. lia. }
    { intros q Hq0 Hq1. rewrite fmap_app in Hq1. cbn in Hq1.
      assert (Hqm : q ∉ m.*1) by (intros Hin; apply Hq1, elem_of_app; by left).
      assert (Hqb : q ≠ b).
      { intros ->. apply Hq1, elem_of_app. right. by apply list_elem_of_singleton. }
      rewrite Hes2 by done. subst s1. cbn [entries].
      rewrite lookup_insert_ne by done. by apply Hfree. }
    { rewrite Hbrk2. subst s1. cbn [brk]. lia. }
    { rewrite Hrs2. subst s1. cbn [readers]. intros r' Hr'.
      destruct (Hroom r') as (Hr'n & rd' & Hrd0 & Hrc0 & Hrc0');
        [rewrite fmap_cons; by right|].
      split; [done|]. cbn in Hrc0'.
      destruct (decide (r' = reader ent)) as [->|Hne].
      - rewrite lookup_insert_eq. eexists. split; [done|]. cbn [reference_count].
        lia.
      - rewrite lookup_insert_ne by done. exists rd'. split; [done|].
        assert ((reader ent =? r') = false) as Hf by (apply Z.eqb_neq; done).
        rewrite Hf in Hrc0'. lia. }
    { cbn in Hfuel. lia. }
    exists st', m'. split; [exact Hrun|]. split; [done|].
    split.
    { rewrite Hrd', fmap_app, fmap_cons. cbn. by rewrite <- app_assoc. }
    split; [done|]. split; [done|].
    split; [rewrite Hbrk2 in Hbrk'; subst s1; cbn [brk] in Hbrk'; lia|].
    split.
    { rewrite Hrs', Hrs2. subst s1. cbn [readers]. rewrite fmap_cons. cbn [snd].
      by rewrite <- (shift_all_cons 1 (l2.*2) rs (reader ent) rd Hrd). }
    split; [intros q Hq0; by rewrite Hes', Hold2|].
    split.
    { intros q Hq0. rewrite Hls' by done. rewrite Hls2 by done. done. }
    by rewrite Hvl', Hvl2.
Qed.

Lemma vreader_get_reader_list_run (st : State) (l : list (ptr * ptr)) (fuel : nat) :
  registry st l ->
  readers_room (readers st) (l.*2) ->
  heap_fresh st ->
  (length l <= fuel)%nat ->
  ∃ st' m,
    vreader_get_reader_list fuel st = Ok (brk st, st') ∧
    is_list st' (brk st) m ∧
    m.*2 = l.*2 ∧
    (∀ e, e ∈ m.*1 → brk st < e < brk st') ∧
    (∀ q, brk st < q → q ∉ m.*1 → entries st' !! q = None) ∧
    readers st' = shift_all 1 (l.*2) (readers st) ∧
    (∀ q, q <= brk st → entries st' !! q = entries st !! q) ∧
    (∀ q, q ≠ brk st → lists st' !! q = lists st !! q) ∧
    vreader_list st' = vreader_list st.
Proof.
  intros (Hvl & x & Hx & Hc & Htl & Hnd) Hroom [Hb Hfresh] Hfuel.
  destruct st as [rs es ls vl b tr];
    cbn [lists entries vreader_list readers brk trace] in *.
  assert (Hbn : (b =? NULL) = false) by (apply Z.eqb_neq; unfold NULL; lia).
  assert (Hvl' : (vl =? NULL) = false) by (by apply Z.eqb_neq).
  assert (Hvb : vl ≠ b).
  { intros ->. destruct (Hfresh b) as (_ & _ & Hnone); [lia|]. congruence. }
  unfold vreader_get_reader_list, vreader_copy_list, vreader_list_new,
    vreader_list_get_first.
  mrun.
  match goal with
  | |- context [vreader_copy_list_loop fuel b (head x) ?s] => set (s1 := s)
  end.
  destruct (vreader_copy_list_loop_run b (b + 1) l fuel (head x) s1 [])
    as (st' & m & Hrun & Hm & Hrd & Hnew & Hfree & Hbrk & Hrs & Hes & Hls & Hlv).
  { exact Hc. }
  { split; [unfold NULL; lia|]. exists (mkVReaderList NULL NULL). subst s1.
    cbn [lists entries head tail]. rewrite lookup_insert_eq.
    split; [done|]. split; [done|]. split; [done|]. apply NoDup_nil_2. }
  { intros e He. destruct (chain_allocated _ _ _ e Hc He) as [_ [y Hy]].
    destruct (decide (e < b + 1)) as [|Hge]; [done|].
    destruct (Hfresh e) as (_ & Hnone & _); [lia|]. congruence. }
  { intros e He. by apply elem_of_nil in He. }
  { intros q Hq _. subst s1. cbn [entries].
    destruct (Hfresh q) as (_ & Hnone & _); [lia|done]. }
  { subst s1. cbn [brk]. lia. }
  { exact Hroom. }
  { exact Hfuel. }
  rewrite Hrun. destruct st' as [rs' es' ls' vl'' b' tr'].
  cbn [lists entries vreader_list readers brk trace] in *.
  mrun. subst s1. cbn [lists entries vreader_list readers brk trace] in *.
  eexists _, m. split; [reflexivity|].
  unfold is_list. cbn [lists entries vreader_list readers brk trace].
  split.
  { destruct Hm as (Hnl & y & Hy & Hcm & Htm & Hndm). split; [done|]. by exists y. }
  split; [by rewrite Hrd|].
  split; [intros e He; apply Hnew in He; lia|].
  split; [intros q Hq Hqm; apply Hfree; [lia|done]|].
  split; [done|].
  split; [intros q Hq; apply Hes; lia|].
  split; [|done].
  intros q Hq. rewrite Hls by done. by rewrite lookup_insert_ne.
Qed.

(** *** Deleting a list *)

Lemma vreader_list_delete_loop_run (l : list (ptr * ptr)) :
  ∀ (fuel : nat) (cur : ptr) (st : State),
    chain (entries st) cur l ->
    NoDup (l.*1) ->
    readers_spare (readers st) (l.*2) ->
    (length l <= fuel)%nat ->
    ∃ st',
      vreader_list_delete_loop fuel cur st = Ok (tt, st') ∧
      entries st' = delete_all (l.*1) (entries st) ∧
      readers st' = shift_all (-1) (l.*2) (readers st) ∧
      lists st' = lists st ∧ vreader_list st' = vreader_list st ∧
      brk st' = brk st.
Proof.
  induction l as [|[e r] l IH]; intros fuel cur st Hc Hnd Hspare Hfuel.
  - cbn in Hc. subst cur. exists st. split; [by destruct fuel|].
    by rewrite shift_all_nil.
  - cbn in Hc. destruct Hc as (-> & Hn & ent & He & Hr & Hc). cbn in Hr. subst r.
    destruct (Hspare (reader ent)) as (Hrn & rd & Hrd & Hrc1 & Hrc2); [cbn; left|].
    cbn in Hrc1. rewrite Z.eqb_refl in Hrc1.
    pose proof (occurrences_nonneg (reader ent) (l.*2)) as Hocc.
    destruct fuel as [|fuel]; [cbn in Hfuel; lia|].
    rewrite fmap_cons in Hnd. cbn [fst] in Hnd. apply NoDup_cons in Hnd as [Hel Hnd].
    assert (Hdn : int_wrap (reference_count rd - 1) = reference_count rd + -1)
      by (rewrite int_wrap_id; unfold INT_MIN, INT_MAX in *; lia).
    assert (Hgt : (reference_count rd >? 1) = true) by (apply Z.gtb_lt; lia).
    destruct st as [rs es ls vl b tr];
      cbn [lists entries vreader_list readers brk trace] in *.
    pose proof Hn as Hn'. pose proof Hrn as Hrn'.
    apply Z.eqb_neq in Hn', Hrn'.
    cbn [vreader_list_delete_loop]. rewrite Hn'.
    unfold vreader_list_get_next, vreader_list_entry_delete, vreader_free.
    mrun. rewrite Hdn.
    match goal with
    | |- context [vreader_list_delete_loop fuel (next ent) ?s] => set (s1 := s)
    end.
    destruct (IH fuel (next ent) s1)
      as (st' & Hrun & Hes' & Hrs' & Hls' & Hvl' & Hb').
    { subst s1. cbn [entries]. by apply chain_delete_frame. }
    { done. }
    { subst s1. cbn [readers]. intros r' Hr'.
      destruct (Hspare r') as (Hr'n & rd' & Hrd0 & Hrc0 & Hrc0');
        [rewrite fmap_cons; by right|].
      split; [done|]. cbn in Hrc0.
      destruct (decide (r' = reader ent)) as [->|Hne].
      - rewrite lookup_insert_eq. eexists. split; [done|]. cbn [reference_count].
        lia.
      - rewrite lookup_insert_ne by done. exists rd'. split; [done|].
        assert ((reader ent =? r') = false) as Hf by (apply Z.eqb_neq; done).
        rewrite Hf in Hrc0. lia. }
    { cbn in Hfuel. lia. }
    exists st'. split; [exact Hrun|]. subst s1.
    cbn [lists entries vreader_list readers brk trace] in *.
    split.
    { rewrite Hes', delete_all_delete. by rewrite fmap_cons. }
    split; [|done].
    rewrite Hrs', fmap_cons. cbn [snd].
    by rewrite <- (shift_all_cons (-1) (l.*2) rs (reader ent) rd Hrd).
Qed.

Lemma vreader_list_delete_run (st : State) (lp : ptr) (m : list (ptr * ptr))
    (fuel : nat) :
  is_list st lp m ->
  readers_spare (readers st) (m.*2) ->
  (length m <= fuel)%nat ->
  ∃ st',
    vreader_list_delete fuel lp st = Ok (tt, st') ∧
    lists st' = delete lp (lists st) ∧
    entries st' = delete_all (m.*1) (entries st) ∧
    readers st' = shift_all (-1) (m.*2) (readers st) ∧
    vreader_list st' = vreader_list st ∧ brk st' = brk st.
Proof.
  intros (Hlp & x & Hx & Hc & Htl & Hnd) Hspare Hfuel.
  destruct (vreader_list_delete_loop_run m fuel (head x) st Hc Hnd Hspare Hfuel)
    as (st' & Hrun & Hes & Hrs & Hls & Hvl & Hb).
  apply Z.eqb_neq in Hlp.
  unfold vreader_list_delete, vreader_list_get_first.
  destruct st as [rs es ls vl b tr]; destruct st' as [rs' es' ls' vl' b' tr'];
    cbn [lists entries vreader_list readers brk trace] in *.
  subst ls'.
  mrun. rewrite Hrun. mrun.
  eexists. split; [reflexivity|]. mred.
  split; [by rewrite !delete_insert_eq|]. done.
Qed.

(** *** Snapshots of the registry *)

(** X18: [vreader_get_reader_list] returns a new list at a fresh address that
    holds the registered readers in registry order.  The registry is left as
    it was, and every reader's reference count has grown by the number of
    times the reader is registered: one counted reference for each entry of
    the snapshot. *)
Theorem snapshot_copies_registry (st : State) (l : list (ptr * ptr)) (fuel : nat) :
  registry st l ->
  readers_room (readers st) (l.*2) ->
  heap_fresh st ->
  (length l <= fuel)%nat ->
  ∃ st',
    vreader_get_reader_list fuel st = Ok (brk st, st') ∧
    lists st !! brk st = None ∧
    list_readers st' fuel (brk st) = Some (l.*2) ∧
    registry st' l ∧
    (∀ r rd, readers st !! r = Some rd →
       readers st' !! r =
         Some (set_reference_count (reference_count rd + occurrences r (l.*2)) rd)) ∧
    (∀ r, readers st !! r = None → readers st' !! r = None).
Proof.
  intros Hreg Hroom Hfresh Hfuel.
  destruct (vreader_get_reader_list_run st l fuel Hreg Hroom Hfresh Hfuel)
    as (st' & m & Hrun & Hm & Hrd & Hnew & Hfree & Hrs & Hes & Hls & Hvl).
  destruct Hreg as (Hn & x & Hx & Hc & Htl & Hnd).
  destruct Hfresh as [Hb Hfresh].
  exists st'. split; [exact Hrun|].
  split; [destruct (Hfresh (brk st)) as (_ & _ & Hnone); [lia|done]|].
  split.
  { destruct Hm as (_ & y & Hy & Hcm & _ & _). unfold list_readers. rewrite Hy.
    rewrite <- Hrd. apply chain_readers_of_chain; [done|].
    rewrite <- (length_fmap snd), Hrd, length_fmap. done. }
  split.
  { assert (Hvb : vreader_list st ≠ brk st).
    { intros Heq. destruct (Hfresh (brk st)) as (_ & _ & Hnone); [lia|].
      rewrite Heq in Hx. congruence. }
    split; [by rewrite Hvl|]. exists x. rewrite Hvl, Hls by done.
    split; [done|]. split; [|done].
    eapply chain_ext; [exact Hc|]. intros q Hq. apply Hes.
    destruct (chain_allocated _ _ _ q Hc Hq) as [_ [y Hy]].
    destruct (decide (q <= brk st)) as [|Hgt]; [done|].
    destruct (Hfresh q) as (_ & Hnone & _); [lia|]. congruence. }
  split.
  - intros r rd Hr. rewrite Hrs, lookup_shift_all, Hr. cbn. f_equal.
    unfold set_reference_count. f_equal; lia.
  - intros r Hr. by rewrite Hrs, lookup_shift_all, Hr.
Qed.

(** X19: [vreader_list_delete] on a list whose readers all have references to
    spare frees the list and every one of its entries, lowers each reader's
    reference count by the number of entries that referenced it, frees no
    reader, and touches no other list or entry. *)
Theorem list_delete_releases_references (st : State) (lp : ptr)
    (m : list (ptr * ptr)) (fuel : nat) :
  is_list st lp m ->
  readers_spare (readers st) (m.*2) ->
  (length m <= fuel)%nat ->
  ∃ st',
    vreader_list_delete fuel lp st = Ok (tt, st') ∧
    lists st' !! lp = None ∧
    (∀ e, e ∈ m.*1 → entries st' !! e = None) ∧
    (∀ r rd, readers st !! r = Some rd →
       readers st' !! r =
         Some (set_reference_count (reference_count rd - occurrences r (m.*2)) rd)) ∧
    (∀ q, q ≠ lp → lists st' !! q = lists st !! q) ∧
    (∀ q, q ∉ m.*1 → entries st' !! q = entries st !! q).
Proof.
  intros Hm Hspare Hfuel.
  destruct (vreader_list_delete_run st lp m fuel Hm Hspare Hfuel)
    as (st' & Hrun & Hls & Hes & Hrs & _ & _).
  exists st'. split; [exact Hrun|].
  split; [by rewrite Hls, lookup_delete_eq|].
  split; [intros e He; by rewrite Hes, lookup_delete_all, decide_True|].
  split.
  { intros r rd Hr. rewrite Hrs, lookup_shift_all, Hr. cbn [fmap option_fmap option_map].
    by replace (reference_count rd + -1 * occurrences r m.*2)
      with (reference_count rd - occurrences r m.*2) by lia. }
  split.
  - intros q Hq. by rewrite Hls, lookup_delete_ne.
  - intros q Hq. by rewrite Hes, lookup_delete_all, decide_False.
Qed.

(** X20: Taking a snapshot of the registry and then deleting it gives every
    reference back: readers, entries, lists and the registry are exactly as
    before the snapshot was taken. *)
Theorem snapshot_then_delete_restores (st : State) (l : list (ptr * ptr))
    (fuel : nat) :
  registry st l ->
  readers_room (readers st) (l.*2) ->
  heap_fresh st ->
  (length l <= fuel)%nat ->
  ∃ p st1 st2,
    vreader_get_reader_list fuel st = Ok (p, st1) ∧
    vreader_list_delete fuel p st1 = Ok (tt, st2) ∧
    readers st2 = readers st ∧ entries st2 = entries st ∧
    lists st2 = lists st ∧ vreader_list st2 = vreader_list st ∧
    registry st2 l.
Proof.
  intros Hreg Hroom Hfresh Hfuel.
  destruct (vreader_get_reader_list_run st l fuel Hreg Hroom Hfresh Hfuel)
    as (st1 & m & Hrun & Hm & Hrd & Hnew & Hfree & Hrs & Hes & Hls & Hvl).
  destruct Hfresh as [Hb Hfresh].
  assert (Hspare : readers_spare (readers st1) (m.*2)).
  { rewrite Hrd. intros r Hr.
    destruct (Hroom r Hr) as (Hrn & rd & Hr0 & Hrc1 & Hrc2).
    split; [done|]. rewrite Hrs, lookup_shift_all, Hr0. cbn.
    eexists. split; [done|]. cbn [reference_count].
    unfold set_reference_count. cbn [reference_count]. lia. }
  assert (Hlen : (length m <= fuel)%nat).
  { rewrite <- (length_fmap snd), Hrd, length_fmap. done. }
  destruct (vreader_list_delete_run st1 (brk st) m fuel Hm Hspare Hlen)
    as (st2 & Hdel & Hls2 & Hes2 & Hrs2 & Hvl2 & _).
  assert (Hrs' : readers st2 = readers st)
    by (by rewrite Hrs2, Hrs, Hrd, shift_all_back).
  assert (Hes' : entries st2 = entries st).
  { apply map_eq. intros q. rewrite Hes2, lookup_delete_all.
    destruct (decide (q ∈ m.*1)) as [Hin|Hnin].
    - apply Hnew in Hin. destruct (Hfresh q) as (_ & Hnone & _); [lia|done].
    - destruct (decide (q <= brk st)) as [Hle|Hgt]; [by apply Hes|].
      rewrite Hfree by (done || lia).
      destruct (Hfresh q) as (_ & Hnone & _); [lia|done]. }
  assert (Hls' : lists st2 = lists st).
  { apply map_eq. intros q. rewrite Hls2.
    destruct (decide (q = brk st)) as [->|Hne].
    - rewrite lookup_delete_eq.
      destruct (Hfresh (brk st)) as (_ & _ & Hnone); [lia|done].
    - rewrite lookup_delete_ne by done. by apply Hls. }
  assert (Hvl' : vreader_list st2 = vreader_list st) by (by rewrite Hvl2, Hvl).
  exists (brk st), st1, st2.
  do 6 (split; [done|]).
  unfold registry in *. by rewrite Hvl', Hls', Hes'.
Qed.

End Snapshots.

Section Registry_composed.

Variable id_bits : Z.

(** X21: Registering a reader whose id no registered reader has, and then looking
    that id up, returns the reader: it is found behind all earlier entries,
    and it ends with two more references than it had, one held by the
    registry and one handed to the caller of the lookup. *)
Theorem add_then_lookup_by_id (st : State) (l : list (ptr * ptr)) (r : ptr)
    (rd : VReader) (fuel : nat) :
  registry st l ->
  readers_live st l ->
  r ≠ NULL ->
  readers st !! r = Some rd ->
  1 <= reference_count rd < INT_MAX - 1 ->
  brk st ≠ NULL ->
  entries st !! brk st = None ->
  id rd ≠ vreader_id_cast id_bits (-1) ->
  (∀ r' rd', r' ∈ l.*2 → readers st !! r' = Some rd' → id rd' ≠ id rd) ->
  (length l < fuel)%nat ->
  ∃ st1 st2,
    vreader_add_reader r st = Ok (VREADER_OK, st1) ∧
    vreader_get_reader_by_id id_bits fuel (id rd) st1 = Ok (r, st2) ∧
    readers st2 =
      <[r:=set_reference_count (reference_count rd + 2) rd]> (readers st) ∧
    registry st2 (l ++ [(brk st, r)]).
Proof.
  intros Hreg Hlive Hrn Hr Hrc Hb Hfresh Hi Hids Hfuel.
  assert (Hrc' : 1 <= reference_count rd < INT_MAX) by lia.
  destruct (vreader_add_reader_run st l r rd Hreg Hrn Hr Hrc' Hb Hfresh)
    as (st_m & w & lx & Hadd & Hreg1 & Hrs1 & _).
  assert (Hrl : r ∉ l.*2) by (intros Hin; by apply (Hids r rd Hin Hr)).
  destruct Hreg1 as (Hvl & x & Hx & Hc & Htl & Hnd).
  destruct st_m as [rs1 es1 ls1 vl1 b1 tr1];
    cbn [lists entries vreader_list readers brk trace] in *.
  assert (Hlive1 : ∀ r', r' ∈ (l ++ [(brk st, r)]).*2 →
            r' ≠ NULL ∧ ∃ rd', rs1 !! r' = Some rd' ∧
                               1 <= reference_count rd' < INT_MAX).
  { intros r' Hr'. rewrite fmap_app in Hr'. apply elem_of_app in Hr' as [Hr'|Hr'].
    - destruct (Hlive r' Hr') as (Hn' & rd' & Hrd' & Hrc0). split; [done|].
      exists rd'. rewrite Hrs1, lookup_insert_ne; [done|]. by intros ->.
    - cbn in Hr'. apply list_elem_of_singleton in Hr' as ->. split; [done|].
      rewrite Hrs1, lookup_insert_eq. eexists. split; [done|].
      cbn [set_reference_count reference_count]. lia. }
  assert (Hfirst : first_with_id rs1 (id rd) ((l ++ [(brk st, r)]).*2) = Some r).
  { rewrite fmap_app. cbn [fmap list_fmap snd].
    apply (first_with_id_at rs1 (id rd) r
             (set_reference_count (reference_count rd + 1) rd)).
    - intros r' Hr' rd' Hrd'. rewrite Hrs1, lookup_insert_ne in Hrd'.
      + by eapply Hids.
      + by intros ->.
    - intros r' Hr'. destruct (Hlive r' Hr') as (_ & rd' & Hrd' & _).
      exists rd'. rewrite Hrs1, lookup_insert_ne; [done|]. by intros ->.
    - by rewrite Hrs1, lookup_insert_eq.
    - done. }
  assert (Hlen : (length (l ++ [(brk st, r)]) <= fuel)%nat)
    by (rewrite length_app; cbn; lia).
  destruct (vreader_get_reader_by_id_loop_run (id rd) _ fuel (head x) rs1 es1 ls1
              vl1 b1
              ((tr1 ++ [AEvent (mkVEvent VEVENT_READER_INSERT r NULL)])
                 ++ [AMutexLock ListMutex]) Hc Hlive1 Hlen)
    as (res & rs' & tr' & Hrun & Hres).
  rewrite Hfirst in Hres. destruct Hres as (-> & rd' & Hrd' & _ & ->).
  rewrite Hrs1, lookup_insert_eq in Hrd'. injection Hrd' as <-.
  pose proof Hvl as Hvl'. apply Z.eqb_neq in Hi, Hvl'.
  eexists _, _. split; [exact Hadd|].
  unfold vreader_get_reader_by_id, vreader_list_get_first. rewrite Hi.
  mrun. rewrite Hrun. mrun.
  split; [reflexivity|]. unfold registry. mred.
  split.
  { rewrite Hrs1, insert_insert_eq. do 2 f_equal. lia. }
  split; [done|]. by exists x.
Qed.

(** X22: Before [vreader_init] the registry pointer is NULL.  Lookups then find
    nothing, a removal changes nothing (and still queues its event) and a
    snapshot is an empty list, but [vreader_add_reader] dereferences the
    missing list. *)
Theorem registry_before_init (st : State) (r : ptr) (rd : VReader) (i : Z)
    (nm : option string) (fuel : nat) :
  vreader_list st = NULL ->
  brk st ≠ NULL ->
  r ≠ NULL ->
  readers st !! r = Some rd ->
  i ≠ vreader_id_cast id_bits (-1) ->
  vreader_get_reader_by_id id_bits fuel i st =
    Ok (NULL, add_trace [AMutexLock ListMutex; AMutexUnlock ListMutex] st) ∧
  vreader_get_reader_by_name fuel nm st =
    Ok (NULL, add_trace [AMutexLock ListMutex; AMutexUnlock ListMutex] st) ∧
  vreader_remove_reader fuel r st =
    Ok (VREADER_OK,
        add_trace [AMutexLock ListMutex; AMutexUnlock ListMutex;
                   AEvent (mkVEvent VEVENT_READER_REMOVE r NULL)] st) ∧
  vreader_add_reader r st = Err NullDeref ∧
  ∃ q, vreader_get_reader_list fuel st = Ok (brk st, q) ∧
       list_readers q fuel (brk st) = Some [] ∧
       readers q = readers st ∧ entries q = entries st.
Proof.
  intros Hvl Hb Hrn Hr Hi.
  apply Z.eqb_neq in Hb, Hrn, Hi.
  destruct st as [rs es ls vl b tr];
    cbn [lists entries vreader_list readers brk trace] in *.
  subst vl.
  unfold vreader_get_reader_by_id, vreader_get_reader_by_name,
    vreader_remove_reader, vreader_add_reader, vreader_get_reader_list,
    vreader_copy_list, vreader_list_new, vreader_list_get_first,
    vreader_list_entry_new, vreader_reference, vreader_queue, vreader_dequeue,
    vreader_list_entry_delete, list_readers.
  rewrite Hi.
  repeat split.
  - destruct fuel; mrun; do 2 f_equal; trace_eq.
  - destruct fuel; mrun; do 2 f_equal; trace_eq.
  - destruct fuel; mrun; do 2 f_equal; trace_eq.
  - mrun. reflexivity.
  - eexists. split; [destruct fuel; mrun; reflexivity|].
    mred. rewrite lookup_insert_eq. by destruct fuel.
Qed.

End Registry_composed.

(** * The further properties on concrete states *)

Lemma empty_state_fresh : heap_fresh empty_state.
Proof. split; [cbn; lia|]. intros q _. by cbn. Qed.

Lemma two_registered_fresh : heap_fresh two_registered.
Proof.
  split; [cbn; lia|]. intros q Hq. cbn in Hq.
  unfold two_registered; cbn [readers entries lists].
  repeat split;
    repeat (rewrite lookup_insert_ne by lia);
    first [apply lookup_singleton_ne; lia | apply lookup_empty].
Qed.

Lemma two_registered_room : readers_room (readers two_registered) [2; 3].
Proof.
  intros r Hr.
  apply elem_of_cons in Hr as [->|Hr];
    [|apply list_elem_of_singleton in Hr as ->];
    (split; [discriminate|]); eexists; (split; [reflexivity|]);
    unfold INT_MAX; cbn; lia.
Qed.

Lemma two_registered_spare : readers_spare (readers two_registered) [2; 3].
Proof.
  intros r Hr.
  apply elem_of_cons in Hr as [->|Hr];
    [|apply list_elem_of_singleton in Hr as ->];
    (split; [discriminate|]); eexists; (split; [reflexivity|]);
    unfold INT_MAX; cbn; lia.
Qed.

Lemma one_reader_registry (c : ptr) : registry (one_reader c) [].
Proof.
  split; [discriminate|]. exists {| head := NULL; tail := NULL |}.
  split; [reflexivity|]. split; [reflexivity|]. split; [reflexivity|].
  apply NoDup_nil_2.
Qed.

Lemma one_registered_registry : registry one_registered [(3, 2)].
Proof.
  split; [discriminate|]. exists {| head := 3; tail := 3 |}.
  split; [reflexivity|]. split.
  - cbn. split; [reflexivity|]. split; [discriminate|].
    eexists. split; [reflexivity|]. split; reflexivity.
  - split; [reflexivity|]. cbn. apply NoDup_singleton.
Qed.

Lemma three_registered_registry :
  registry three_registered [(5, 2); (6, 3); (7, 4)].
Proof.
  split; [discriminate|]. exists {| head := 5; tail := 7 |}.
  split; [reflexivity|]. split.
  - cbn. split; [reflexivity|]. split; [discriminate|].
    eexists. split; [reflexivity|]. split; [reflexivity|].
    cbn. split; [reflexivity|]. split; [discriminate|].
    eexists. split; [reflexivity|]. split; [reflexivity|].
    cbn. split; [reflexivity|]. split; [discriminate|].
    eexists. split; [reflexivity|]. split; reflexivity.
  - split; [reflexivity|]. cbn.
    apply NoDup_cons. split.
    { intros Hin. apply elem_of_cons in Hin as [?|Hin]; [discriminate|].
      apply list_elem_of_singleton in Hin. discriminate. }
    apply NoDup_cons. split; [|apply NoDup_singleton].
    intros Hin. apply list_elem_of_singleton in Hin. discriminate.
Qed.

Lemma reference_then_free_restores_witness :
  ∃ st1 st2,
    vreader_reference 2 (one_reader 9) = Ok (2, st1) ∧
    vreader_free 2 st1 = Ok (tt, st2) ∧
    readers st2 = readers (one_reader 9).
Proof.
  assert (H1 : 2 ≠ NULL) by discriminate.
  assert (H2 : readers (one_reader 9) !! 2
               = Some (mkVReader 1 9 (Some "A"%string) 7 40 50)) by reflexivity.
  assert (H3 : 1 <= 1 < INT_MAX) by (unfold INT_MAX; lia).
  destruct (reference_then_free_restores (one_reader 9) 2 _ H1 H2 H3)
    as (st1 & st2 & t & R1 & R2 & Hrs & _).
  exists st1, st2. split; [exact R1|]. split; [exact R2|exact Hrs].
Defined.

Lemma set_id_then_get_id_witness :
  vreader_get_id 32 2
    (set_readers (insert 2 (mkVReader 1 9 (Some "A"%string) 11 40 50)) (one_reader 9))
  = Ok (11,
        set_readers (insert 2 (mkVReader 1 9 (Some "A"%string) 11 40 50))
          (one_reader 9)).
Proof.
  assert (H1 : 2 ≠ NULL) by discriminate.
  assert (H2 : readers (one_reader 9) !! 2
               = Some (mkVReader 1 9 (Some "A"%string) 7 40 50)) by reflexivity.
  exact (proj1 (proj2 (set_id_then_get_id 32 (one_reader 9) 2 11 _ H1 H2))).
Defined.

Lemma vreader_new_fresh_witness :
  vreader_new 32 (Some "A"%string) 40 50 empty_state =
    Ok (1, set_readers
             (insert 1 (mkVReader 1 NULL (Some "A"%string) (vreader_id_cast 32 (-1))
                          40 50))
             (set_brk 2 empty_state)).
Proof.
  exact (proj1 (vreader_new_fresh 32 empty_state (Some "A"%string) 40 50 1
                  empty_state_fresh)).
Defined.

Lemma power_with_card_witness :
  ∃ st',
    @vreader_power_on atr_card_layer 2 (Some [x00; x00]) (Some 2) (one_reader 9)
      = Ok ((VREADER_OK, Some [x3b; x00], Some 2), st').
Proof.
  assert (H1 : 2 ≠ NULL) by discriminate.
  assert (H2 : readers (one_reader 9) !! 2
               = Some (mkVReader 1 9 (Some "A"%string) 7 40 50)) by reflexivity.
  assert (H3 : card (mkVReader 1 9 (Some "A"%string) 7 40 50) ≠ NULL)
    by discriminate.
  eexists.
  exact (proj1 (@power_with_card atr_card_layer (one_reader 9) 2 _ [x00; x00]
                  (Some 2) H1 H2 H3)).
Defined.

Lemma transmit_incomplete_is_fatal_witness :
  @vreader_xfr_bytes stalling_card_layer 2 [x00; xa4; x04; x00] 4 [x00; x00] 2
    (one_reader 9) = Err AssertFailed.
Proof.
  assert (H1 : 2 ≠ NULL) by discriminate.
  assert (H2 : readers (one_reader 9) !! 2
               = Some (mkVReader 1 9 (Some "A"%string) 7 40 50)) by reflexivity.
  assert (H3 : card (mkVReader 1 9 (Some "A"%string) 7 40 50) ≠ NULL)
    by discriminate.
  assert (H4 : (@card_apdu_new stalling_card_layer [x00; xa4; x04; x00] 4).1 ≠ NULL)
    by (cbn; discriminate).
  assert (H5 : (@card_process_apdu stalling_card_layer
                  (card (mkVReader 1 9 (Some "A"%string) 7 40 50))
                  (@card_apdu_new stalling_card_layer [x00; xa4; x04; x00] 4).1).1
               ≠ VCARD_DONE) by (cbn; discriminate).
  exact (@transmit_incomplete_is_fatal stalling_card_layer (one_reader 9) 2 _
           [x00; xa4; x04; x00] [x00; x00] 4 2 H1 H2 H3 H4 H5).
Defined.

Lemma transmit_without_bounds_check_witness :
  @vreader_xfr_bytes demo_card_layer 2 [x00; xa4; x04; x00] 4 [x00] 3
    (one_reader 9) = Err BufferOverrun.
Proof.
  assert (H1 : 2 ≠ NULL) by discriminate.
  assert (H2 : readers (one_reader 9) !! 2
               = Some (mkVReader 1 9 (Some "A"%string) 7 40 50)) by reflexivity.
  assert (H3 : card (mkVReader 1 9 (Some "A"%string) 7 40 50) ≠ NULL)
    by discriminate.
  assert (H5 : (@card_apdu_new demo_card_layer [x00; xa4; x04; x00] 4).1 ≠ NULL)
    by (cbn; discriminate).
  assert (H6 : @card_process_apdu demo_card_layer
                 (card (mkVReader 1 9 (Some "A"%string) 7 40 50))
                 (@card_apdu_new demo_card_layer [x00; xa4; x04; x00] 4).1
               = (VCARD_DONE,
                  Some {| b_data := [x01; x02; x03; x90; x00]; b_total_len := 5 |}))
    by reflexivity.
  assert (H7 : Z.of_nat (length [x00])
               < Z.min 3 (b_total_len
                            {| b_data := [x01; x02; x03; x90; x00];
                               b_total_len := 5 |})) by (cbn; lia).
  exact (@transmit_without_bounds_check demo_card_layer (one_reader 9) 2 _
           [x00; xa4; x04; x00] [x00] 4 3
           {| b_data := [x01; x02; x03; x90; x00]; b_total_len := 5 |}
           H1 H2 H3 (or_introl (conj H5 H6)) (or_intror (or_introl H7))).
Defined.

Lemma insert_card_reference_audit_witness :
  ∃ st' t,
    vreader_insert_card 2 5 (one_reader 9) = Ok (VREADER_OK, st') ∧
    trace st' = trace (one_reader 9) ++ t ∧
    card_frees t = [9] ∧ card_refs t = [5].
Proof.
  assert (H1 : 2 ≠ NULL) by discriminate.
  assert (H2 : readers (one_reader 9) !! 2
               = Some (mkVReader 1 9 (Some "A"%string) 7 40 50)) by reflexivity.
  destruct (insert_card_reference_audit (one_reader 9) 2 5 _ H1 H2)
    as (st' & t & Hrun & _ & _ & _ & Htr & _ & Hfr & Hrf & _).
  exists st', t. split; [exact Hrun|]. split; [exact Htr|].
  split; [exact Hfr|exact Hrf].
Defined.

Lemma remove_unregistered_witness :
  vreader_remove_reader 2 9 two_registered =
    Ok (VREADER_OK,
        add_trace [AMutexLock ListMutex; AMutexUnlock ListMutex;
                   AEvent (mkVEvent VEVENT_READER_REMOVE 9 NULL)] two_registered).
Proof.
  assert (H1 : 9 ∉ [(4, 2); (5, 3)].*2).
  { cbn. intros Hin. apply elem_of_cons in Hin as [?|Hin]; [discriminate|].
    apply list_elem_of_singleton in Hin. discriminate. }
  assert (H2 : (length [(4, 2); (5, 3)] <= 2)%nat) by (cbn; lia).
  exact (remove_unregistered two_registered [(4, 2); (5, 3)] 9 2
           two_registered_registry H1 H2).
Defined.

Lemma remove_only_entry_witness :
  ∃ st',
    vreader_remove_reader 1 2 one_registered = Ok (VREADER_OK, st') ∧
    registry st' [].
Proof.
  assert (H1 : entries one_registered !! 3 = Some (mkVReaderListEntry NULL NULL 2))
    by reflexivity.
  assert (H2 : prev (mkVReaderListEntry NULL NULL 2) = NULL) by reflexivity.
  assert (H3 : readers one_registered !! 2
               = Some (mkVReader 2 NULL (Some "A"%string) 7 NULL NULL))
    by reflexivity.
  assert (H4 : 2 ≠ NULL) by discriminate.
  assert (H5 : 1 < 2 <= INT_MAX) by (unfold INT_MAX; lia).
  assert (H6 : (1 <= 1)%nat) by lia.
  destruct (remove_only_entry one_registered 3 2 _ _ 1 one_registered_registry
              H1 H2 H3 H4 H5 H6) as (st' & Hrun & Hreg & _).
  exists st'. split; [exact Hrun|exact Hreg].
Defined.

Lemma remove_first_entry_witness :
  ∃ st',
    vreader_remove_reader 1 2 two_registered = Ok (VREADER_OK, st') ∧
    registry st' [(5, 3)].
Proof.
  assert (H1 : entries two_registered !! 4 = Some (mkVReaderListEntry 5 NULL 2))
    by reflexivity.
  assert (H2 : prev (mkVReaderListEntry 5 NULL 2) = NULL) by reflexivity.
  assert (H3 : readers two_registered !! 2
               = Some (mkVReader 2 NULL (Some "A"%string) 7 NULL NULL))
    by reflexivity.
  assert (H4 : 2 ≠ NULL) by discriminate.
  assert (H5 : 1 < 2 <= INT_MAX) by (unfold INT_MAX; lia).
  assert (H6 : (1 <= 1)%nat) by lia.
  destruct (remove_first_entry two_registered 4 2 5 3 [] _ _ 1
              two_registered_registry H1 H2 H3 H4 H5 H6)
    as (st' & Hrun & Hreg & _).
  exists st'. split; [exact Hrun|exact Hreg].
Defined.

Lemma remove_middle_entry_witness :
  ∃ st',
    vreader_remove_reader 2 3 three_registered = Ok (VREADER_OK, st') ∧
    registry st' [(5, 2); (7, 4)].
Proof.
  assert (H1 : 3 ∉ ([] ++ [(5, 2)]).*2).
  { cbn. intros Hin. apply list_elem_of_singleton in Hin. discriminate. }
  assert (H2 : entries three_registered !! 6 = Some (mkVReaderListEntry 7 5 3))
    by reflexivity.
  assert (H3 : prev (mkVReaderListEntry 7 5 3) = 5) by reflexivity.
  assert (H4 : readers three_registered !! 3
               = Some (mkVReader 2 NULL (Some "B"%string) 8 NULL NULL))
    by reflexivity.
  assert (H5 : 3 ≠ NULL) by discriminate.
  assert (H6 : 1 < 2 <= INT_MAX) by (unfold INT_MAX; lia).
  assert (H7 : (length (@nil (ptr * ptr)) + 2 <= 2)%nat) by (cbn; lia).
  destruct (remove_middle_entry three_registered [] [] 5 2 6 3 7 4 _ _ 2
              three_registered_registry H1 H2 H3 H4 H5 H6 H7)
    as (st' & pe & ne & Hrun & Hreg & _).
  exists st'. split; [exact Hrun|exact Hreg].
Defined.

Lemma remove_first_two_uses_freed_entry_witness :
  ∃ st1,
    vreader_remove_reader 1 2 three_registered = Ok (VREADER_OK, st1) ∧
    vreader_remove_reader 1 3 st1 = Err (InvalidPointer 5).
Proof.
  assert (H1 : entries three_registered !! 5 = Some (mkVReaderListEntry 6 NULL 2))
    by reflexivity.
  assert (H2 : prev (mkVReaderListEntry 6 NULL 2) = NULL) by reflexivity.
  assert (H3 : entries three_registered !! 6 = Some (mkVReaderListEntry 7 5 3))
    by reflexivity.
  assert (H4 : prev (mkVReaderListEntry 7 5 3) = 5) by reflexivity.
  assert (H5 : readers three_registered !! 2
               = Some (mkVReader 2 NULL (Some "A"%string) 7 NULL NULL))
    by reflexivity.
  assert (H6 : 2 ≠ NULL) by discriminate.
  assert (H7 : 1 < 2 <= INT_MAX) by (unfold INT_MAX; lia).
  assert (H8 : (1 <= 1)%nat) by lia.
  destruct (remove_first_two_uses_freed_entry three_registered 5 2 6 3 7 4 [] _ _ _ 1
              three_registered_registry H1 H2 H3 H4 H5 H6 H7 H8)
    as (st1 & Hrun & _ & Hbad).
  exists st1. split; [exact Hrun|exact Hbad].
Defined.

Lemma lookup_after_set_id_witness :
  ∃ st1 st2,
    vreader_set_id 3 11 two_registered = Ok (VREADER_OK, st1) ∧
    vreader_get_reader_by_id 32 2 11 st1 = Ok (3, st2).
Proof.
  assert (H1 : [(4, 2); (5, 3)].*2 = [2] ++ 3 :: []) by reflexivity.
  assert (H2 : ∀ r', r' ∈ [2] →
            r' ≠ 3 ∧ ∀ rd', readers two_registered !! r' = Some rd' → id rd' ≠ 11).
  { intros r' Hr'. apply list_elem_of_singleton in Hr' as ->.
    split; [discriminate|]. intros rd' Hrd'.
    change (Some (mkVReader 2 NULL (Some "A"%string) 7 NULL NULL) = Some rd') in Hrd'.
    injection Hrd' as <-. discriminate. }
  assert (H3 : readers two_registered !! 3 = Some (mkVReader 2 NULL None 8 NULL NULL))
    by reflexivity.
  assert (H4 : 11 ≠ vreader_id_cast 32 (-1)) by discriminate.
  assert (H5 : (length [(4, 2); (5, 3)] <= 2)%nat) by (cbn; lia).
  destruct (lookup_after_set_id 32 two_registered [(4, 2); (5, 3)] [2] [] 3 11 _ 2
              two_registered_registry two_registered_live H1 H2 H3 H4 H5)
    as (st1 & st2 & R1 & R2 & _).
  exists st1, st2. split; [exact R1|exact R2].
Defined.

Lemma lookup_by_absent_name_witness :
  vreader_get_reader_by_name 2 None two_registered = Err NullDeref.
Proof.
  assert (H1 : [(4, 2); (5, 3)] ≠ []) by discriminate.
  assert (H2 : (1 <= 2)%nat) by lia.
  exact (proj2 (lookup_by_absent_name two_registered [(4, 2); (5, 3)] 2
                  two_registered_registry two_registered_live) H1 H2).
Defined.

Lemma init_gives_empty_registry_witness :
  ∃ st',
    vreader_init empty_state = Ok (tt, st') ∧
    vreader_list st' = 1 ∧
    registry st' [].
Proof.
  assert (H1 : 7 ≠ vreader_id_cast 32 (-1)) by discriminate.
  destruct (init_gives_empty_registry 32 empty_state 7 2 None 1 empty_state_fresh H1)
    as (st' & Hrun & Hvl & Hreg & _).
  exists st'. split; [exact Hrun|]. split; [exact Hvl|exact Hreg].
Defined.

Lemma add_absent_reader_witness :
  ∃ st',
    vreader_add_reader NULL two_registered = Ok (VREADER_OK, st') ∧
    vreader_get_reader_by_id 32 3 9 st' = Err NullDeref.
Proof.
  assert (H1 : brk two_registered ≠ NULL) by discriminate.
  assert (H2 : entries two_registered !! brk two_registered = None) by reflexivity.
  assert (H3 : 9 ≠ vreader_id_cast 32 (-1)) by discriminate.
  assert (H4 : ∀ r rd, r ∈ [(4, 2); (5, 3)].*2 →
            readers two_registered !! r = Some rd → id rd ≠ 9).
  { intros r rd Hr Hrd. cbn in Hr.
    apply elem_of_cons in Hr as [->|Hr];
      [|apply list_elem_of_singleton in Hr as ->].
    - change (Some (mkVReader 2 NULL (Some "A"%string) 7 NULL NULL) = Some rd) in Hrd.
      injection Hrd as <-. discriminate.
    - change (Some (mkVReader 2 NULL None 8 NULL NULL) = Some rd) in Hrd.
      injection Hrd as <-. discriminate. }
  assert (H5 : (length [(4, 2); (5, 3)] < 3)%nat) by (cbn; lia).
  destruct (add_absent_reader 32 two_registered [(4, 2); (5, 3)] 9 3
              two_registered_registry two_registered_live H1 H2 H3 H4 H5)
    as (st' & Hrun & _ & _ & _ & Hbad).
  exists st'. split; [exact Hrun|exact Hbad].
Defined.

Lemma snapshot_copies_registry_witness :
  ∃ st',
    vreader_get_reader_list 2 two_registered = Ok (6, st') ∧
    list_readers st' 2 6 = Some [2; 3] ∧
    registry st' [(4, 2); (5, 3)].
Proof.
  assert (H1 : (length [(4, 2); (5, 3)] <= 2)%nat) by (cbn; lia).
  destruct (snapshot_copies_registry two_registered [(4, 2); (5, 3)] 2
              two_registered_registry two_registered_room two_registered_fresh H1)
    as (st' & Hrun & _ & Hrd & Hreg & _).
  exists st'. split; [exact Hrun|]. split; [exact Hrd|exact Hreg].
Defined.

Lemma list_delete_releases_references_witness :
  ∃ st',
    vreader_list_delete 2 1 two_registered = Ok (tt, st') ∧
    lists st' !! 1 = None.
Proof.
  assert (H1 : (length [(4, 2); (5, 3)] <= 2)%nat) by (cbn; lia).
  destruct (list_delete_releases_references two_registered 1 [(4, 2); (5, 3)] 2
              two_registered_registry two_registered_spare H1)
    as (st' & Hrun & Hls & _).
  exists st'. split; [exact Hrun|exact Hls].
Defined.

Lemma snapshot_then_delete_restores_witness :
  ∃ p st1 st2,
    vreader_get_reader_list 2 two_registered = Ok (p, st1) ∧
    vreader_list_delete 2 p st1 = Ok (tt, st2) ∧
    readers st2 = readers two_registered ∧
    entries st2 = entries two_registered ∧
    lists st2 = lists two_registered.
Proof.
  assert (H1 : (length [(4, 2); (5, 3)] <= 2)%nat) by (cbn; lia).
  destruct (snapshot_then_delete_restores two_registered [(4, 2); (5, 3)] 2
              two_registered_registry two_registered_room two_registered_fresh H1)
    as (p & st1 & st2 & R1 & R2 & Hrs & Hes & Hls & _).
  exists p, st1, st2. split; [exact R1|]. split; [exact R2|].
  split; [exact Hrs|]. split; [exact Hes|exact Hls].
Defined.

Lemma add_then_lookup_by_id_witness :
  ∃ st1 st2,
    vreader_add_reader 2 (one_reader 9) = Ok (VREADER_OK, st1) ∧
    vreader_get_reader_by_id 32 1 7 st1 = Ok (2, st2) ∧
    readers st2 = <[2:=mkVReader 3 9 (Some "A"%string) 7 40 50]> (readers (one_reader 9)).
Proof.
  assert (H0 : readers_live (one_reader 9) []).
  { intros r Hr. by apply elem_of_nil in Hr. }
  assert (H1 : 2 ≠ NULL) by discriminate.
  assert (H2 : readers (one_reader 9) !! 2
               = Some (mkVReader 1 9 (Some "A"%string) 7 40 50)) by reflexivity.
  assert (H3 : 1 <= reference_count (mkVReader 1 9 (Some "A"%string) 7 40 50)
               < INT_MAX - 1) by (unfold INT_MAX; cbn; lia).
  assert (H4 : brk (one_reader 9) ≠ NULL) by discriminate.
  assert (H5 : entries (one_reader 9) !! brk (one_reader 9) = None) by reflexivity.
  assert (H6 : id (mkVReader 1 9 (Some "A"%string) 7 40 50) ≠ vreader_id_cast 32 (-1))
    by discriminate.
  assert (H7 : ∀ r' rd', r' ∈ (@nil (ptr * ptr)).*2 →
            readers (one_reader 9) !! r' = Some rd' →
            id rd' ≠ id (mkVReader 1 9 (Some "A"%string) 7 40 50)).
  { intros r' rd' Hr'. by apply elem_of_nil in Hr'. }
  assert (H8 : (length (@nil (ptr * ptr)) < 1)%nat) by (cbn; lia).
  destruct (add_then_lookup_by_id 32 (one_reader 9) [] 2 _ 1
              (one_reader_registry 9) H0 H1 H2 H3 H4 H5 H6 H7 H8)
    as (st1 & st2 & R1 & R2 & Hrs & _).
  exists st1, st2. split; [exact R1|]. split; [exact R2|exact Hrs].
Defined.

Lemma registry_before_init_witness :
  vreader_add_reader 2 reader_before_init = Err NullDeref ∧
  vreader_get_reader_by_id 32 1 7 reader_before_init =
    Ok (NULL, add_trace [AMutexLock ListMutex; AMutexUnlock ListMutex]
                reader_before_init).
Proof.
  assert (H1 : vreader_list reader_before_init = NULL) by reflexivity.
  assert (H2 : brk reader_before_init ≠ NULL) by discriminate.
  assert (H3 : 2 ≠ NULL) by discriminate.
  assert (H4 : readers reader_before_init !! 2
               = Some (mkVReader 1 NULL (Some "A"%string) 7 NULL NULL))
    by reflexivity.
  assert (H5 : 7 ≠ vreader_id_cast 32 (-1)) by discriminate.
  destruct (registry_before_init 32 reader_before_init 2 _ 7 None 1 H1 H2 H3 H4 H5)
    as (Hid & _ & _ & Hadd & _).
  split; [exact Hadd|exact Hid].
Defined.
